(** * Lead-nurturing agent: a shallow embedding of the application logic

    The development follows the Python sources module by module:

    - [PyStr]                 the string primitives of Python the code uses
    - [Router], [Formatter]   agents/langgraph_agent.py: [QueryRouter],
                              [T2SQLAnswerFormatter]
    - [T2SQL], [Rag]          the result types of agents/t2sql.py, agents/rag.py
    - [Orm]                   tables as lists of rows, SQL's three-valued [WHERE]
    - [Crm]                   crm/models.py, crm/schemas.py, crm/services.py
    - [Campaign], [CampaignLead], [ConversationMessage], [CampaignLeadMethods]
                              campaigns/models.py
    - [CampaignService]       campaigns/services.py
    - [Agent]                 agents/langgraph_agent.py: the agent graph
    - [Ingestion]             agents/models.py, agents/ingestion.py, agents/api.py
    - [AgentApi]              agents/api.py: [agent_query]
    - [Conversation]          campaigns/services.py: goal detection and
                              [ConversationService]
    - [Dashboard], [CampaignApi]
                              the counters of [Campaign], the dashboard service
                              and campaigns/api.py
    - [CrmApi]                crm/api.py
    - [RagService]            agents/rag.py: [ProjectRAGService]
    - [T2SQLService]          agents/t2sql.py: what the service records of a run
    - [Personalization]       agents/personalization.py

    Strings are byte strings (UTF-8); case folding and white space follow
    Python on the ASCII range.  Code that changes the database, the vector
    store or the clock is written in a state and exception monad.  Calls that
    leave the process (LLM, vector store, loaders, mail, file storage) are
    Section variables returning a [result], [Raise] standing for a raised
    [Exception]; inserting a row never raises. *)

From Stdlib Require Import Bool Arith ZArith QArith Lia List.
From Stdlib Require Import Ascii String DecimalString DecimalPos DecimalZ.
Import ListNotations.

Close Scope Q_scope.
Open Scope bool_scope.
Open Scope list_scope.
Open Scope string_scope.

(** ** Exceptions and fallible computations *)

Inductive exn_kind :=
| ValidationError
| ImproperlyConfigured
| DoesNotExist
| HttpError (code : nat)
| DatabaseError
| ExternalError.

Record exn := Exn { exn_kind_of : exn_kind; exn_msg : string }.

Inductive result (A : Type) :=
| Ok (a : A)
| Raise (e : exn).

Arguments Ok {A} a.
Arguments Raise {A} e.

Definition is_ok {A} (r : result A) : bool :=
  match r with Ok _ => true | Raise _ => false end.

(** ** Python string primitives *)

Module PyStr.

Definition nl : string := String (ascii_of_nat 10) EmptyString.

(** [str.lower] on the ASCII range. *)
Definition lower_char (c : ascii) : ascii :=
  let n := nat_of_ascii c in
  if ((65 <=? n) && (n <=? 90))%nat then ascii_of_nat (n + 32) else c.

Fixpoint lower (s : string) : string :=
  match s with
  | EmptyString => EmptyString
  | String c t => String (lower_char c) (lower t)
  end.

(** [str.isspace] on the ASCII range: TAB..CR, FS..US and SPACE. *)
Definition is_space (c : ascii) : bool :=
  let n := nat_of_ascii c in
  (((9 <=? n) && (n <=? 13)) || ((28 <=? n) && (n <=? 32)))%nat.

Definition is_empty (s : string) : bool :=
  match s with EmptyString => true | String _ _ => false end.

Fixpoint lstrip (s : string) : string :=
  match s with
  | EmptyString => EmptyString
  | String c t => if is_space c then lstrip t else s
  end.

Fixpoint rstrip (s : string) : string :=
  match s with
  | EmptyString => EmptyString
  | String c t =>
      let r := rstrip t in
      if is_space c && is_empty r then EmptyString else String c r
  end.

Definition strip (s : string) : string := rstrip (lstrip s).

(** [sub in s] *)
Fixpoint contains (sub s : string) : bool :=
  prefix sub s ||
  match s with
  | EmptyString => false
  | String _ t => contains sub t
  end.

(** [s.replace(a, b)] for one-character [a] and [b]. *)
Fixpoint replace_char (a b : ascii) (s : string) : string :=
  match s with
  | EmptyString => EmptyString
  | String c t =>
      String (if Ascii.eqb c a then b else c) (replace_char a b t)
  end.

(** [sep.join(parts)] *)
Fixpoint join (sep : string) (parts : list string) : string :=
  match parts with
  | [] => EmptyString
  | [p] => p
  | p :: rest => p ++ sep ++ join sep rest
  end.

(** [s.endswith(suffix)] *)
Fixpoint endswith (s suffix : string) : bool :=
  String.eqb s suffix ||
  match s with
  | EmptyString => false
  | String _ t => endswith t suffix
  end.

Definition str_of_Z (z : Z) : string := NilZero.string_of_int (Z.to_int z).
Definition str_of_nat (n : nat) : string := NilZero.string_of_uint (Nat.to_uint n).

(** [any(p(x) for x in xs)] *)
Definition any {A} (p : A -> bool) (xs : list A) : bool := existsb p xs.

End PyStr.

Import PyStr.

(** ** agents/langgraph_agent.py: QueryRouter *)

Module Router.

Definition sql_keywords : list string :=
  [ "count"; "number"; "total"; "average"; "avg"; "sum"; "ratio";
    "metrics"; "how many"; "max"; "min"; "budget"; "revenue" ].

Definition prompt (query : string) : string :=
  "You classify questions for a real-estate sales agent." ++ nl ++
  "Respond with only `T2SQL` if the question requires analytical metrics, SQL aggregates, numeric summaries, or CRM counts/averages." ++ nl ++
  "Respond with only `RAG` if the question requires brochure content, amenities, descriptions, copywriting, scheduling, or follow-up messaging." ++ nl ++
  "Question: " ++ query ++ nl ++
  "Answer (T2SQL or RAG):".

(** The keyword heuristics after the [try] block. *)
Definition heuristics (query : string) : string :=
  let text := lower query in
  if any (fun keyword => contains keyword text) sql_keywords
  then "t2sql" else "rag".

Section Decide.
(** [self.llm.invoke(prompt)] followed by reading the reply's content. *)
Variable llm : string -> result string.

Definition decide (query : string) : string :=
  match llm (prompt query) with
  | Ok content =>
      let decision := lower (strip content) in
      if contains "sql" decision then "t2sql"
      else if contains "rag" decision then "rag"
      else heuristics query
  | Raise _ => heuristics query
  end.
End Decide.

End Router.

(** ** agents/t2sql.py: TextToSQLResult *)

Module T2SQL.

(** A cell of a result row ([Any] in the source), with its [str()]. *)
Inductive value :=
| VNone
| VInt (z : Z)
| VStr (s : string).

Definition str (v : value) : string :=
  match v with
  | VNone => "None"
  | VInt z => str_of_Z z
  | VStr s => s
  end.

(** A row is a [dict]: its items in insertion order. *)
Definition row := list (string * value).

Record TextToSQLResult := {
  sql : string;
  rows : list row;
  explanation : string
}.

End T2SQL.

(** ** agents/langgraph_agent.py: T2SQLAnswerFormatter *)

Module Formatter.
Import T2SQL.

Definition underscore : ascii := "_"%char.
Definition space : ascii := " "%char.

(** The qualifier list built by the three [if] statements. *)
Definition qualifiers (question_lower : string) : list string :=
  ((if contains "connected" question_lower
    then ["for connected leads"] else []) ++
   (if contains "budget" question_lower
    then ["for the requested budget"] else []) ++
   (if contains "status" question_lower
       && negb (contains "connected" question_lower)
    then ["for the requested status"] else []))%list.

(** One line of the multi-row summary. *)
Definition bullet (r : row) : string :=
  let parts :=
    map (fun kv => replace_char underscore space (fst kv) ++ ": " ++ str (snd kv)) r in
  " • " ++ join ", " parts.

Definition format (question : string) (result : TextToSQLResult) : string :=
  match rows result with
  | [] => "I could not find results for '" ++ question ++ "'."
  | first :: _ =>
      match (List.length (rows result) =? 1)%nat && (List.length first =? 1)%nat, first with
      | true, (key, value) :: _ =>
          let key_name := replace_char underscore space key in
          let message := "The " ++ key_name ++ " is " ++ str value in
          let question_lower := lower question in
          let qs := qualifiers question_lower in
          let message :=
            match qs with
            | [] => message
            | _ => message ++ " " ++ join " " qs
            end in
          rstrip message ++ "."
      | _, _ =>
          let lines := map bullet (firstn 5 (rows result)) in
          let summary := join nl lines in
          if (5 <? List.length (rows result))%nat
          then summary ++ nl ++ "Showing first 5 of "
                 ++ str_of_nat (List.length (rows result)) ++ " records."
          else summary
      end
  end.

End Formatter.

(** ** The ORM fragment the code uses

    Tables are lists of rows; a [NULL] column is [None]; a [WHERE] clause is
    evaluated in SQL's three-valued logic and keeps the rows on which it is
    true. *)

Definition Time := Z.
Definition Date := Z.

Module Orm.

Inductive tv := T | F | U.

Definition tv_and (a b : tv) : tv :=
  match a, b with
  | F, _ | _, F => F
  | T, T => T
  | _, _ => U
  end.

Definition tv_or (a b : tv) : tv :=
  match a, b with
  | T, _ | _, T => T
  | F, F => F
  | _, _ => U
  end.

Definition tv_of_bool (b : bool) : tv := if b then T else F.

Definition holds (t : tv) : bool :=
  match t with T => true | _ => false end.

(** [col IS NULL] *)
Definition isnull {A} (col : option A) : tv :=
  match col with None => T | Some _ => F end.

(** A comparison of a nullable column. *)
Definition cmp {A B} (op : A -> B -> bool) (col : option A) (rhs : B) : tv :=
  match col with None => U | Some v => tv_of_bool (op v rhs) end.

(** [col IN (values)] on a non-null text column. *)
Definition text_in (col : string) (values : list string) : bool :=
  existsb (String.eqb col) values.

Section Table.
Variable Row : Type.
Variable pk : Row -> Z.

(** [Model.objects.get(pk=id)] *)
Definition get (id : Z) (table : list Row) : result Row :=
  match find (fun r => pk r =? id)%Z table with
  | Some r => Ok r
  | None => Raise (Exn DoesNotExist "matching query does not exist.")
  end.

(** [UPDATE ... WHERE id = ...] *)
Definition update (id : Z) (f : Row -> Row) (table : list Row) : list Row :=
  map (fun r => if (pk r =? id)%Z then f r else r) table.

Definition exists_pk (id : Z) (table : list Row) : bool :=
  existsb (fun r => pk r =? id)%Z table.

(** The key given to the next inserted row. *)
Definition next_pk (table : list Row) : Z :=
  (1 + fold_right (fun r m => Z.max (pk r) m) 0 table)%Z.
End Table.

End Orm.

(** ** crm/models.py, crm/schemas.py, crm/services.py *)

Module Crm.
Import Orm.

Inductive ProjectName :=
| ALTURA | BEACHGATE | DAMAC_BAY | DLF_WEST_PARK
| GODREJ_VISTAS | LUMINA_GRAND | SOBHA_CREST | SOBHA_WAVES.

Definition project_value (p : ProjectName) : string :=
  match p with
  | ALTURA => "Altura"
  | BEACHGATE => "Beachgate by Address"
  | DAMAC_BAY => "Damac Bay by Cavalli"
  | DLF_WEST_PARK => "DLF West Park"
  | GODREJ_VISTAS => "Godrej Vistas"
  | LUMINA_GRAND => "Lumina Grand"
  | SOBHA_CREST => "Sobha Crest"
  | SOBHA_WAVES => "Sobha Waves"
  end.

(** [ProjectName.choices]: value and label coincide for every project. *)
Definition project_choices : list (string * string) :=
  map (fun p => (project_value p, project_value p))
      [ALTURA; BEACHGATE; DAMAC_BAY; DLF_WEST_PARK;
       GODREJ_VISTAS; LUMINA_GRAND; SOBHA_CREST; SOBHA_WAVES].

Inductive UnitType :=
| STUDIO | ONE_BED | TWO_BED | TWO_BED_STUDY
| THREE_BED | FOUR_BED | DUPLEX | PENTHOUSE.

Definition unit_value (u : UnitType) : string :=
  match u with
  | STUDIO => "studio"
  | ONE_BED => "1 bed"
  | TWO_BED => "2 bed"
  | TWO_BED_STUDY => "2 bed w study"
  | THREE_BED => "3 bed"
  | FOUR_BED => "4 bed"
  | DUPLEX => "duplex"
  | PENTHOUSE => "penthouse"
  end.

Inductive LeadStatus :=
| NOT_CONNECTED | CONNECTED | VISIT_SCHEDULED
| VISIT_DONE_NOT_PURCHASED | PURCHASED | NOT_INTERESTED.

Definition status_value (s : LeadStatus) : string :=
  match s with
  | NOT_CONNECTED => "not_connected"
  | CONNECTED => "connected"
  | VISIT_SCHEDULED => "visit_scheduled"
  | VISIT_DONE_NOT_PURCHASED => "visit_done_not_purchased"
  | PURCHASED => "purchased"
  | NOT_INTERESTED => "not_interested"
  end.

Record Lead := {
  id : Z;
  crm_id : string;
  first_name : string;
  last_name : string;
  email : string;
  phone_number : string;
  project_enquired : string;
  unit_type : string;
  status : string;
  budget_min : option Q;
  budget_max : option Q;
  family_size : option nat;
  location_preference : string;
  purchase_motive : string;
  financing_readiness : string;
  last_conversation_date : option Date;
  last_conversation_summary : string;
  created_at : Time;
  updated_at : Time
}.

(** The upper end of the requested range: a decimal or [float("inf")]. *)
Inductive bound :=
| Fin (q : Q)
| Inf.

Definition le_bound (v : Q) (b : bound) : bool :=
  match b with Fin q => Qle_bool v q | Inf => true end.

Definition ge_dec (v q : Q) : bool := Qle_bool q v.

(** Truth value of an optional list argument. *)
Definition truthy {A} (arg : option (list A)) : bool :=
  match arg with Some (_ :: _) => true | _ => false end.

Definition items {A} (arg : option (list A)) : list A :=
  match arg with Some l => l | None => [] end.

(** The [WHERE] clause of the budget filter:
    [Q(budget_min__isnull=True, budget_max__isnull=True)
     | (Q(budget_min__lte=max_value) & Q(budget_max__gte=min_value))]. *)
Definition budget_clause (min_value : Q) (max_value : bound) (l : Lead) : tv :=
  tv_or (tv_and (isnull (budget_min l)) (isnull (budget_max l)))
        (tv_and (cmp le_bound (budget_min l) max_value)
                (cmp ge_dec (budget_max l) min_value)).

(** [LeadQuerySet.shortlist] *)
Definition shortlist (self : list Lead)
    (project_names : option (list ProjectName))
    (unit_types : option (list UnitType))
    (lead_status : option LeadStatus)
    (last_conversation_from last_conversation_to : option Date)
    (budget_min_arg budget_max_arg : option Q) : list Lead :=
  let queryset := self in
  let queryset :=
    if truthy project_names
    then filter (fun l => text_in (project_enquired l)
                            (map project_value (items project_names))) queryset
    else queryset in
  let queryset :=
    if truthy unit_types
    then filter (fun l => text_in (unit_type l)
                            (map unit_value (items unit_types))) queryset
    else queryset in
  let queryset :=
    match lead_status with
    | Some st => filter (fun l => String.eqb (status l) (status_value st)) queryset
    | None => queryset
    end in
  let queryset :=
    match last_conversation_from with
    | Some d => filter (fun l => holds (cmp Z.geb (last_conversation_date l) d)) queryset
    | None => queryset
    end in
  let queryset :=
    match last_conversation_to with
    | Some d => filter (fun l => holds (cmp Z.leb (last_conversation_date l) d)) queryset
    | None => queryset
    end in
  let queryset :=
    match budget_min_arg, budget_max_arg with
    | None, None => queryset
    | _, _ =>
        let min_value := match budget_min_arg with Some q => q | None => 0%Q end in
        let max_value := match budget_max_arg with Some q => Fin q | None => Inf end in
        filter (fun l => holds (budget_clause min_value max_value l)) queryset
    end in
  queryset.

(** [LeadFilterRequest] *)
Record LeadFilterRequest := {
  f_project_names : option (list ProjectName);
  f_budget_min : option Q;
  f_budget_max : option Q;
  f_unit_types : option (list UnitType);
  f_lead_status : option LeadStatus;
  f_last_conversation_from : option Date;
  f_last_conversation_to : option Date
}.

Definition is_not_none {A} (x : option A) : bool :=
  match x with Some _ => true | None => false end.

(** [sum(filters)] over a list of [bool]. *)
Definition sum_bools (bs : list bool) : nat :=
  fold_right (fun (b : bool) (n : nat) => ((if b then 1 else 0) + n)%nat) 0%nat bs.

Definition active_filters (self : LeadFilterRequest) : nat :=
  let filters :=
    [ truthy (f_project_names self);
      is_not_none (f_budget_min self);
      is_not_none (f_budget_max self);
      truthy (f_unit_types self);
      is_not_none (f_lead_status self);
      is_not_none (f_last_conversation_from self);
      is_not_none (f_last_conversation_to self) ] in
  sum_bools filters.

Record LeadShortlistResult := {
  leads : list Lead;
  criteria : LeadFilterRequest
}.

Definition minimum_filters : nat := 2.

(** [LeadShortlistService.shortlist]; [all_leads] is [Lead.objects.all()]. *)
Definition service_shortlist (all_leads : list Lead) (c : LeadFilterRequest)
  : result LeadShortlistResult :=
  if (active_filters c <? minimum_filters)%nat
  then Raise (Exn ValidationError
                ("Please select at least " ++ str_of_nat minimum_filters
                 ++ " filter fields before shortlisting leads."))
  else
    let queryset := all_leads in
    let queryset :=
      shortlist queryset (f_project_names c) (f_unit_types c) (f_lead_status c)
                (f_last_conversation_from c) (f_last_conversation_to c)
                (f_budget_min c) (f_budget_max c) in
    Ok {| leads := queryset; criteria := c |}.

End Crm.

(** ** Stateful code: a state and exception monad *)

Module Eff.

Definition M (S A : Type) : Type := S -> S * result A.

Definition ret {S A} (a : A) : M S A := fun s => (s, Ok a).

Definition raise {S A} (e : exn) : M S A := fun s => (s, Raise e).

Definition lift {S A} (r : result A) : M S A := fun s => (s, r).

Definition bind {S A B} (m : M S A) (k : A -> M S B) : M S B :=
  fun s =>
    match m s with
    | (s', Ok a) => k a s'
    | (s', Raise e) => (s', Raise e)
    end.

Definition gets {S A} (f : S -> A) : M S A := fun s => (s, Ok (f s)).

Definition modify {S} (f : S -> S) : M S unit := fun s => (f s, Ok tt).

(** [try: body  except Exception as exc: handler(exc)] *)
Definition try_except {S A} (body : M S A) (handler : exn -> M S A) : M S A :=
  fun s =>
    match body s with
    | (s', Ok a) => (s', Ok a)
    | (s', Raise exc) => handler exc s'
    end.

End Eff.

Notation "x <- m ;; k" := (Eff.bind m (fun x => k))
  (at level 100, m at next level, right associativity).

(** The JSON values the code stores in [JSONField] columns; a JSON object
    is a list of keyed values. *)
Inductive json :=
| JNull
| JStr (s : string)
| JStrList (items : list string).

(** ** campaigns/models.py *)

Module MessageChannel.
Inductive t := EMAIL | WHATSAPP.
Definition value (c : t) : string :=
  match c with EMAIL => "email" | WHATSAPP => "whatsapp" end.
End MessageChannel.

Module MessageStatus.
Definition PENDING : string := "pending".
Definition SENT : string := "sent".
Definition RESPONDED : string := "responded".
Definition GOAL_MET : string := "goal_met".
End MessageStatus.

Module GoalOutcome.
Definition NONE : string := "none".
Definition CALL : string := "call".
Definition VISIT : string := "visit".
End GoalOutcome.

Module SenderType.
Definition AGENT : string := "agent".
Definition CUSTOMER : string := "customer".
Definition SALES : string := "sales".
End SenderType.

Module Campaign.
Record t := {
  id : Z;
  name : string;
  project_name : string;
  message_channel : string;
  offer_details : string;
  filters : list (string * json);
  created_by : Z;
  created_at : Time;
  updated_at : Time
}.
End Campaign.

Module CampaignLead.
Record t := {
  id : Z;
  campaign_id : Z;
  lead_id : Z;
  shortlisted_at : Time;
  personalized_message : string;
  dispatch_time : option Time;
  status : string;
  goal_outcome : string;
  scheduled_datetime : option Time;
  last_customer_message_at : option Time;
  last_agent_message_at : option Time;
  updated_at : Time
}.

(** The columns a method assigns or names in [update_fields]. *)
Inductive field :=
| F_status | F_dispatch_time | F_goal_outcome | F_scheduled_datetime
| F_last_customer_message_at | F_last_agent_message_at | F_updated_at.

Definition field_eqb (a b : field) : bool :=
  match a, b with
  | F_status, F_status | F_dispatch_time, F_dispatch_time
  | F_goal_outcome, F_goal_outcome
  | F_scheduled_datetime, F_scheduled_datetime
  | F_last_customer_message_at, F_last_customer_message_at
  | F_last_agent_message_at, F_last_agent_message_at
  | F_updated_at, F_updated_at => true
  | _, _ => false
  end.

(** [dst.f = src.f] *)
Definition copy (f : field) (src dst : t) : t :=
  {| id := id dst;
     campaign_id := campaign_id dst;
     lead_id := lead_id dst;
     shortlisted_at := shortlisted_at dst;
     personalized_message := personalized_message dst;
     dispatch_time :=
       if field_eqb f F_dispatch_time then dispatch_time src else dispatch_time dst;
     status := if field_eqb f F_status then status src else status dst;
     goal_outcome :=
       if field_eqb f F_goal_outcome then goal_outcome src else goal_outcome dst;
     scheduled_datetime :=
       if field_eqb f F_scheduled_datetime
       then scheduled_datetime src else scheduled_datetime dst;
     last_customer_message_at :=
       if field_eqb f F_last_customer_message_at
       then last_customer_message_at src else last_customer_message_at dst;
     last_agent_message_at :=
       if field_eqb f F_last_agent_message_at
       then last_agent_message_at src else last_agent_message_at dst;
     updated_at := if field_eqb f F_updated_at then updated_at src else updated_at dst |}.

Definition set_status (v : string) (self : t) : t :=
  {| id := id self; campaign_id := campaign_id self; lead_id := lead_id self;
     shortlisted_at := shortlisted_at self;
     personalized_message := personalized_message self;
     dispatch_time := dispatch_time self; status := v;
     goal_outcome := goal_outcome self;
     scheduled_datetime := scheduled_datetime self;
     last_customer_message_at := last_customer_message_at self;
     last_agent_message_at := last_agent_message_at self;
     updated_at := updated_at self |}.

Definition set_dispatch_time (v : option Time) (self : t) : t :=
  {| id := id self; campaign_id := campaign_id self; lead_id := lead_id self;
     shortlisted_at := shortlisted_at self;
     personalized_message := personalized_message self;
     dispatch_time := v; status := status self;
     goal_outcome := goal_outcome self;
     scheduled_datetime := scheduled_datetime self;
     last_customer_message_at := last_customer_message_at self;
     last_agent_message_at := last_agent_message_at self;
     updated_at := updated_at self |}.

Definition set_goal_outcome (v : string) (self : t) : t :=
  {| id := id self; campaign_id := campaign_id self; lead_id := lead_id self;
     shortlisted_at := shortlisted_at self;
     personalized_message := personalized_message self;
     dispatch_time := dispatch_time self; status := status self;
     goal_outcome := v;
     scheduled_datetime := scheduled_datetime self;
     last_customer_message_at := last_customer_message_at self;
     last_agent_message_at := last_agent_message_at self;
     updated_at := updated_at self |}.

Definition set_scheduled_datetime (v : option Time) (self : t) : t :=
  {| id := id self; campaign_id := campaign_id self; lead_id := lead_id self;
     shortlisted_at := shortlisted_at self;
     personalized_message := personalized_message self;
     dispatch_time := dispatch_time self; status := status self;
     goal_outcome := goal_outcome self;
     scheduled_datetime := v;
     last_customer_message_at := last_customer_message_at self;
     last_agent_message_at := last_agent_message_at self;
     updated_at := updated_at self |}.

Definition set_last_customer_message_at (v : option Time) (self : t) : t :=
  {| id := id self; campaign_id := campaign_id self; lead_id := lead_id self;
     shortlisted_at := shortlisted_at self;
     personalized_message := personalized_message self;
     dispatch_time := dispatch_time self; status := status self;
     goal_outcome := goal_outcome self;
     scheduled_datetime := scheduled_datetime self;
     last_customer_message_at := v;
     last_agent_message_at := last_agent_message_at self;
     updated_at := updated_at self |}.

Definition set_last_agent_message_at (v : option Time) (self : t) : t :=
  {| id := id self; campaign_id := campaign_id self; lead_id := lead_id self;
     shortlisted_at := shortlisted_at self;
     personalized_message := personalized_message self;
     dispatch_time := dispatch_time self; status := status self;
     goal_outcome := goal_outcome self;
     scheduled_datetime := scheduled_datetime self;
     last_customer_message_at := last_customer_message_at self;
     last_agent_message_at := v;
     updated_at := updated_at self |}.

Definition set_updated_at (v : Time) (self : t) : t :=
  {| id := id self; campaign_id := campaign_id self; lead_id := lead_id self;
     shortlisted_at := shortlisted_at self;
     personalized_message := personalized_message self;
     dispatch_time := dispatch_time self; status := status self;
     goal_outcome := goal_outcome self;
     scheduled_datetime := scheduled_datetime self;
     last_customer_message_at := last_customer_message_at self;
     last_agent_message_at := last_agent_message_at self;
     updated_at := v |}.
End CampaignLead.

Module ConversationMessage.
Record t := {
  id : Z;
  campaign_lead_id : Z;
  sender : string;
  message : string;
  intent : string;
  metadata : list (string * json);
  created_at : Time
}.
End ConversationMessage.

(** An e-mail handed to [send_mail]. *)
Record Email := {
  subject : string;
  body_text : string;
  from_email : string;
  recipient_list : list string
}.

(** ** The database and clock seen by the campaign code *)

Module Db.

Record State := {
  clock : Time;
  leads : list Crm.Lead;
  campaigns : list Campaign.t;
  campaign_leads : list CampaignLead.t;
  messages : list ConversationMessage.t;
  outbox : list Email
}.

Definition M := Eff.M State.

(** [timezone.now()]: the clock is read and moves on. *)
Definition now : M Time :=
  fun s =>
    ({| clock := (clock s + 1)%Z; leads := leads s; campaigns := campaigns s;
        campaign_leads := campaign_leads s; messages := messages s;
        outbox := outbox s |},
     Ok (clock s)).

Definition set_campaigns (v : list Campaign.t) (s : State) : State :=
  {| clock := clock s; leads := leads s; campaigns := v;
     campaign_leads := campaign_leads s; messages := messages s;
     outbox := outbox s |}.

Definition set_campaign_leads (v : list CampaignLead.t) (s : State) : State :=
  {| clock := clock s; leads := leads s; campaigns := campaigns s;
     campaign_leads := v; messages := messages s; outbox := outbox s |}.

Definition set_messages (v : list ConversationMessage.t) (s : State) : State :=
  {| clock := clock s; leads := leads s; campaigns := campaigns s;
     campaign_leads := campaign_leads s; messages := v; outbox := outbox s |}.

Definition set_outbox (v : list Email) (s : State) : State :=
  {| clock := clock s; leads := leads s; campaigns := campaigns s;
     campaign_leads := campaign_leads s; messages := messages s; outbox := v |}.

(** [@transaction.atomic]: when the body raises, the tables are restored;
    the clock and the mail already sent are not. *)
Definition atomic {A} (body : M A) : M A :=
  fun s =>
    match body s with
    | (s', Ok a) => (s', Ok a)
    | (s', Raise e) =>
        ({| clock := clock s'; leads := leads s; campaigns := campaigns s;
            campaign_leads := campaign_leads s; messages := messages s;
            outbox := outbox s' |},
         Raise e)
    end.

(** The tables alone. *)
Definition same_tables (a b : State) : Prop :=
  leads a = leads b /\ campaigns a = campaigns b /\
  campaign_leads a = campaign_leads b /\ messages a = messages b.

End Db.

(** ** campaigns/models.py: the methods of CampaignLead *)

Module CampaignLeadMethods.
Import CampaignLead Db.

(** [self.save(update_fields=[...])]: an [auto_now] column named in
    [update_fields] is stamped first, then the named columns of the row
    with this key are overwritten; Django raises when no row has the key. *)
Definition save (update_fields : list field) (self : t) : M t :=
  self <- (if existsb (field_eqb F_updated_at) update_fields
           then (t <- now ;; Eff.ret (set_updated_at t self))
           else Eff.ret self) ;;
  found <- Eff.gets (fun s => Orm.exists_pk t id (id self) (campaign_leads s)) ;;
  if found : bool
  then
    _ <- Eff.modify (fun s =>
           set_campaign_leads
             (Orm.update t id (id self)
                (fun row => fold_right (fun f r => copy f self r) row update_fields)
                (campaign_leads s)) s) ;;
    Eff.ret self
  else Eff.raise (Exn DatabaseError "Save with update_fields did not affect any rows.").

Definition mark_sent (self : t) : M t :=
  let self := set_status MessageStatus.SENT self in
  t <- now ;;
  let self := set_dispatch_time (Some t) self in
  save [F_status; F_dispatch_time; F_updated_at] self.

Definition mark_responded (self : t) : M t :=
  let self :=
    if negb (String.eqb (status self) MessageStatus.GOAL_MET)
    then set_status MessageStatus.RESPONDED self
    else self in
  t <- now ;;
  let self := set_last_customer_message_at (Some t) self in
  save [F_status; F_last_customer_message_at; F_updated_at] self.

Definition mark_goal (outcome : string) (scheduled_for : option Time) (self : t) : M t :=
  let self := set_goal_outcome outcome self in
  let self := set_status MessageStatus.GOAL_MET self in
  let self := set_scheduled_datetime scheduled_for self in
  t <- now ;;
  let self := set_last_agent_message_at (Some t) self in
  save [F_goal_outcome; F_status; F_scheduled_datetime;
        F_last_agent_message_at; F_updated_at] self.

End CampaignLeadMethods.

(** ** agents/personalization.py: PersonalizedMessage *)

Record PersonalizedMessage := {
  body : string;
  sources : list string;
  context_snippet : string
}.

(** The settings the campaign code reads. *)
Record Settings := {
  CAMPAIGN_EMAIL_OVERRIDE : string;
  EMAIL_HOST_USER : string;
  EMAIL_HOST_PASSWORD : string;
  DEFAULT_FROM_EMAIL : string;
  DEBUG : bool
}.

(** ** campaigns/schemas.py and campaigns/services.py: CampaignService *)

Module CampaignService.
Import Db.

Record CampaignCreateRequest := {
  name : string;
  project_name : string;
  message_channel : MessageChannel.t;
  offer_details : option string;
  lead_ids : list Z;
  filters_snapshot : option (list (string * json))
}.

Record CampaignCreationResult := { campaign : Campaign.t }.

(** [Lead.full_name]: [" ".join(filter(None, [first_name, last_name]))] *)
Definition full_name (lead : Crm.Lead) : string :=
  join " " (filter (fun part => negb (is_empty part))
                   [Crm.first_name lead; Crm.last_name lead]).

(** [x or default] on an optional string. *)
Definition str_or (x : option string) (default : string) : string :=
  match x with
  | Some (String c t) => String c t
  | _ => default
  end.

(** [x or {}] on an optional dict. *)
Definition dict_or_empty {A} (x : option (list A)) : list A :=
  match x with Some d => d | None => [] end.

(** [Campaign.objects.create(...)]: the key is new, [created_at] and
    [updated_at] are stamped. *)
Definition create_campaign_row (name project_name message_channel offer_details : string)
    (filters : list (string * json)) (created_by : Z) : M Campaign.t :=
  created <- now ;;
  updated <- now ;;
  fun s =>
    let row :=
      {| Campaign.id := Orm.next_pk Campaign.t Campaign.id (campaigns s);
         Campaign.name := name;
         Campaign.project_name := project_name;
         Campaign.message_channel := message_channel;
         Campaign.offer_details := offer_details;
         Campaign.filters := filters;
         Campaign.created_by := created_by;
         Campaign.created_at := created;
         Campaign.updated_at := updated |} in
    (set_campaigns (campaigns s ++ [row])%list s, Ok row).

(** [CampaignLead.objects.create(...)] with the defaults of the model. *)
Definition create_campaign_lead_row (campaign_id lead_id : Z)
    (personalized_message status : string) (dispatch_time : option Time)
  : M CampaignLead.t :=
  shortlisted <- now ;;
  updated <- now ;;
  fun s =>
    let row :=
      {| CampaignLead.id :=
           Orm.next_pk CampaignLead.t CampaignLead.id (campaign_leads s);
         CampaignLead.campaign_id := campaign_id;
         CampaignLead.lead_id := lead_id;
         CampaignLead.shortlisted_at := shortlisted;
         CampaignLead.personalized_message := personalized_message;
         CampaignLead.dispatch_time := dispatch_time;
         CampaignLead.status := status;
         CampaignLead.goal_outcome := GoalOutcome.NONE;
         CampaignLead.scheduled_datetime := None;
         CampaignLead.last_customer_message_at := None;
         CampaignLead.last_agent_message_at := None;
         CampaignLead.updated_at := updated |} in
    (set_campaign_leads (campaign_leads s ++ [row])%list s, Ok row).

(** [ConversationMessage.objects.create(...)] *)
Definition create_message_row (campaign_lead_id : Z) (sender message intent : string)
    (metadata : list (string * json)) : M ConversationMessage.t :=
  created <- now ;;
  fun s =>
    let row :=
      {| ConversationMessage.id :=
           Orm.next_pk ConversationMessage.t ConversationMessage.id (messages s);
         ConversationMessage.campaign_lead_id := campaign_lead_id;
         ConversationMessage.sender := sender;
         ConversationMessage.message := message;
         ConversationMessage.intent := intent;
         ConversationMessage.metadata := metadata;
         ConversationMessage.created_at := created |} in
    (set_messages (messages s ++ [row])%list s, Ok row).

Section Service.
Variable settings : Settings.
(** [self.message_generator.generate(campaign=, lead=, offer_details=)] *)
Variable generate : Campaign.t -> Crm.Lead -> option string -> result PersonalizedMessage.
(** [django.core.mail.send_mail] with [fail_silently=False] *)
Variable send_mail : Email -> result unit.

Definition _dispatch_email (campaign : Campaign.t) (lead : Crm.Lead) (message : string)
  : M unit :=
  let recipient := CAMPAIGN_EMAIL_OVERRIDE settings in
  if is_empty recipient
  then Eff.raise (Exn ImproperlyConfigured
         "CAMPAIGN_EMAIL_OVERRIDE must be set to route nurture emails to your test inbox.")
  else
    let subject :=
      "[" ++ Campaign.project_name campaign ++ "] Personalized follow-up for "
      ++ full_name lead in
    if is_empty (EMAIL_HOST_USER settings) || is_empty (EMAIL_HOST_PASSWORD settings)
    then Eff.ret tt
    else
      let mail :=
        {| subject := subject; body_text := message;
           from_email := DEFAULT_FROM_EMAIL settings;
           recipient_list := [recipient] |} in
      match send_mail mail with
      | Ok _ => Eff.modify (fun s => set_outbox (outbox s ++ [mail])%list s)
      | Raise exc => if DEBUG settings then Eff.ret tt else Eff.raise exc
      end.

Definition _create_campaign_lead (campaign : Campaign.t) (lead : Crm.Lead)
    (message : PersonalizedMessage) : M CampaignLead.t :=
  dispatched <- now ;;
  campaign_lead <-
    create_campaign_lead_row (Campaign.id campaign) (Crm.id lead) (body message)
      MessageStatus.SENT (Some dispatched) ;;
  _ <- create_message_row (CampaignLead.id campaign_lead) SenderType.AGENT
         (body message) EmptyString
         [ ("sources", JStrList (sources message));
           ("context", JStr (context_snippet message));
           ("sent_to", JStr (CAMPAIGN_EMAIL_OVERRIDE settings)) ] ;;
  _ <- _dispatch_email campaign lead (body message) ;;
  Eff.ret campaign_lead.

(** The [for lead in leads] loop of [create_campaign]. *)
Fixpoint for_each_lead (campaign : Campaign.t) (offer : option string)
    (leads : list Crm.Lead) : M unit :=
  match leads with
  | [] => Eff.ret tt
  | lead :: rest =>
      message <- Eff.lift (generate campaign lead offer) ;;
      _ <- _create_campaign_lead campaign lead message ;;
      for_each_lead campaign offer rest
  end.

Definition id_in (ids : list Z) (i : Z) : bool := existsb (Z.eqb i) ids.

(** [Lead.objects.filter(id__in=ids)] *)
Definition leads_with_ids (ids : list Z) (table : list Crm.Lead) : list Crm.Lead :=
  filter (fun lead => id_in ids (Crm.id lead)) table.

(** [set(ids) - {lead.id for lead in leads}], in some order. *)
Definition missing_ids (ids : list Z) (leads : list Crm.Lead) : list Z :=
  filter (fun i => negb (id_in (map Crm.id leads) i)) (nodup Z.eq_dec ids).

Definition create_campaign (user : Z) (payload : CampaignCreateRequest)
  : M CampaignCreationResult :=
  atomic (
    match lead_ids payload with
    | [] => Eff.raise (Exn ValidationError "Select at least one lead to create a campaign.")
    | _ :: _ =>
        leads <- Eff.gets (fun s => leads_with_ids (lead_ids payload) (Db.leads s)) ;;
        match missing_ids (lead_ids payload) leads with
        | _ :: _ as missing =>
            Eff.raise (Exn ValidationError
              ("Lead IDs not found: " ++ join ", " (map str_of_Z missing)))
        | [] =>
            campaign <-
              create_campaign_row (name payload) (project_name payload)
                (MessageChannel.value (message_channel payload))
                (str_or (offer_details payload) EmptyString)
                (dict_or_empty (filters_snapshot payload)) user ;;
            _ <- for_each_lead campaign (offer_details payload) leads ;;
            Eff.ret {| campaign := campaign |}
        end
    end).

End Service.

End CampaignService.

(** ** agents/rag.py: retrieval results *)

Module Rag.

(** A langchain [Document]. *)
Record Document := {
  page_content : string;
  metadata : list (string * string)
}.

Record RetrievalResult := { documents : list Document }.

(** [dict.get(key, default)] *)
Fixpoint dict_get (key : string) (default : string) (d : list (string * string)) : string :=
  match d with
  | [] => default
  | (k, v) :: rest => if String.eqb k key then v else dict_get key default rest
  end.

(** [RetrievalResult.as_context] with [max_chars = 2000] *)
Definition as_context (self : RetrievalResult) : string :=
  let content := join (nl ++ nl) (map page_content (documents self)) in
  substring 0 2000 content.

End Rag.

(** ** agents/langgraph_agent.py: the agent graph *)

Module Agent.
Import T2SQL.

(** The values held by a response dictionary. *)
Inductive obj :=
| OStr (s : string)
| ORows (rs : list row)
| OStrList (l : list string).

Definition Dict := list (string * obj).

Definition keys (d : Dict) : list string := map fst d.

Fixpoint lookup (key : string) (d : Dict) : option obj :=
  match d with
  | [] => None
  | (k, v) :: rest => if String.eqb k key then Some v else lookup key rest
  end.

(** [AgentState], a [TypedDict] with [total=False]: a key may be absent. *)
Record AgentState := {
  query : option string;
  lead_id : option (option Z);
  campaign_id : option (option Z);
  route : option string;
  response : option Dict
}.

Definition empty_state : AgentState :=
  {| query := None; lead_id := None; campaign_id := None; route := None;
     response := None |}.

Definition over {A} (new old : option A) : option A :=
  match new with Some _ => new | None => old end.

(** The graph writes the keys a node returns over the current state. *)
Definition merge (update st : AgentState) : AgentState :=
  {| query := over (query update) (query st);
     lead_id := over (lead_id update) (lead_id st);
     campaign_id := over (campaign_id update) (campaign_id st);
     route := over (route update) (route st);
     response := over (response update) (response st) |}.

Record DocumentAnswer := {
  answer : string;
  sources : list string;
  answer_route : string
}.

(** The calls that leave the process, in order. *)
Inductive event :=
| CallTextToSQL (question : string)
| CallRetrieval (project_name question : string).

Definition M := Eff.M (list event).

Definition emit (e : event) : M unit := Eff.modify (fun trace => (trace ++ [e])%list).

Definition is_t2sql_call (e : event) : bool :=
  match e with CallTextToSQL _ => true | _ => false end.

Definition is_retrieval_call (e : event) : bool :=
  match e with CallRetrieval _ _ => true | _ => false end.

Inductive node := RouterNode | T2SQLNode | RagNode.

Definition node_name (n : node) : string :=
  match n with
  | RouterNode => "router"
  | T2SQLNode => "t2sql"
  | RagNode => "rag"
  end.

(** [state["key"]]: [KeyError] on an absent key. *)
Definition item {A} (key : string) (v : option A) : M A :=
  match v with
  | Some a => Eff.ret a
  | None => Eff.raise (Exn ExternalError ("KeyError: " ++ key))
  end.

(** [state.get("key")], used for its truth value: an absent key, [None]
    and [0] are all false. *)
Definition get_truthy (v : option (option Z)) : option Z :=
  match v with
  | Some (Some z) => if (z =? 0)%Z then None else Some z
  | _ => None
  end.

Section Graph.
(** The Gemini chat model shared by the router and the document tool. *)
Variable llm : string -> result string.
(** [t2sql_service.answer] and [rag_service.get_documents], as injected. *)
Variable t2sql_answer : string -> result TextToSQLResult.
Variable get_documents : string -> string -> result Rag.RetrievalResult.
(** The rendering of the document tool's [ChatPromptTemplate]: lead,
    campaign, question, context. *)
Variable rag_prompt : Crm.Lead -> Campaign.t -> string -> string -> string.
(** The lead and campaign tables. *)
Variable leads : list Crm.Lead.
Variable campaigns : list Campaign.t.

(** [Model.objects.get(pk=state[key]) if state.get(key) else None] *)
Definition fetch {Row} (pk : Row -> Z) (table : list Row) (v : option (option Z))
  : M (option Row) :=
  match get_truthy v with
  | Some key => row <- Eff.lift (Orm.get Row pk key table) ;; Eff.ret (Some row)
  | None => Eff.ret None
  end.

(** [DocumentAnswerTool.answer] *)
Definition rag_tool_answer (lead : Crm.Lead) (campaign : Campaign.t) (question : string)
  : M DocumentAnswer :=
  _ <- emit (CallRetrieval (Campaign.project_name campaign) question) ;;
  retrieval <- Eff.lift (get_documents (Campaign.project_name campaign) question) ;;
  let context := Rag.as_context retrieval in
  let prompt :=
    rag_prompt lead campaign question
      (if is_empty context then "No brochure context was found." else context) in
  reply <- Eff.lift (llm prompt) ;;
  let sources :=
    map (fun doc => Rag.dict_get "source" EmptyString (Rag.metadata doc))
        (Rag.documents retrieval) in
  Eff.ret {| answer := strip reply; sources := sources; answer_route := "rag" |}.

Definition _route (state : AgentState) : M AgentState :=
  q <- item "query" (query state) ;;
  let route := Router.decide llm q in
  Eff.ret {| query := None; lead_id := None; campaign_id := None;
             route := Some route; response := None |}.

Definition _next_step (state : AgentState) : M string :=
  item "route" (route state).

Definition _answer_sql (state : AgentState) : M AgentState :=
  lead <- fetch Crm.id leads (lead_id state) ;;
  campaign <- fetch Campaign.id campaigns (campaign_id state) ;;
  q <- item "query" (query state) ;;
  _ <- emit (CallTextToSQL q) ;;
  result <- Eff.lift (t2sql_answer q) ;;
  let message := Formatter.format q result in
  let response : Dict :=
    [ ("route", OStr "t2sql");
      ("sql", OStr (sql result));
      ("rows", ORows (rows result));
      ("explanation", OStr (explanation result));
      ("message", OStr message) ] in
  Eff.ret {| query := None; lead_id := None; campaign_id := None;
             route := None; response := Some response |}.

Definition _answer_rag (state : AgentState) : M AgentState :=
  lead <- fetch Crm.id leads (lead_id state) ;;
  campaign <- fetch Campaign.id campaigns (campaign_id state) ;;
  match lead, campaign with
  | Some lead, Some campaign =>
      q <- item "query" (query state) ;;
      answer <- rag_tool_answer lead campaign q ;;
      let response : Dict :=
        [ ("route", OStr "rag");
          ("answer", OStr (Agent.answer answer));
          ("sources", OStrList (sources answer)) ] in
      Eff.ret {| query := None; lead_id := None; campaign_id := None;
                 route := None; response := Some response |}
  | _, _ =>
      Eff.raise (Exn ImproperlyConfigured
                   "Lead and campaign are required for RAG responses.")
  end.

Definition run_node (n : node) : AgentState -> M AgentState :=
  match n with
  | RouterNode => _route
  | T2SQLNode => _answer_sql
  | RagNode => _answer_rag
  end.

(** The edges: from the router through [_next_step] and the mapping
    [{"t2sql": "t2sql", "rag": "rag"}]; both answer nodes lead to [END]. *)
Definition next_node (n : node) (state : AgentState) : M (option node) :=
  match n with
  | RouterNode =>
      branch <- _next_step state ;;
      if String.eqb branch "t2sql" then Eff.ret (Some T2SQLNode)
      else if String.eqb branch "rag" then Eff.ret (Some RagNode)
      else Eff.raise (Exn ExternalError ("KeyError: " ++ branch))
  | T2SQLNode | RagNode => Eff.ret None
  end.

(** The compiled graph: a node runs, its update is merged, the edge is
    followed; [limit] is the number of steps left. *)
Fixpoint run_graph (limit : nat) (n : node) (state : AgentState) : M AgentState :=
  match limit with
  | O => Eff.raise (Exn ExternalError "GraphRecursionError")
  | S limit' =>
      update <- run_node n state ;;
      let state := merge update state in
      next <- next_node n state ;;
      match next with
      | None => Eff.ret state
      | Some n' => run_graph limit' n' state
      end
  end.

Definition recursion_limit : nat := 25.

(** [self.app.invoke(state, config)]: the input is written over what the
    checkpointer saved for the thread, and the graph runs from its entry
    point. *)
Definition invoke (saved input : AgentState) : M AgentState :=
  run_graph recursion_limit RouterNode (merge input saved).

(** [LeadNurtureAgent.run] *)
Definition run (saved : AgentState) (q : string) (campaign_lead : CampaignLead.t)
  : M Dict :=
  let state :=
    {| query := Some q;
       lead_id := Some (Some (CampaignLead.lead_id campaign_lead));
       campaign_id := Some (Some (CampaignLead.campaign_id campaign_lead));
       route := None; response := None |} in
  result <- invoke saved state ;;
  item "response" (response result).

End Graph.

End Agent.

(** ** agents/models.py, agents/ingestion.py, agents/api.py *)

Module Ingestion.
Import Rag.

Record BrochureDocument := {
  id : Z;
  project_name : string;
  original_name : string;
  file : string;
  checksum : string;
  content_type : string;
  metadata : list (string * json);
  uploaded_by : option Z;
  uploaded_at : Time;
  last_indexed_at : option Time
}.

Record DocumentIngestionLog := {
  log_id : Z;
  document_id : Z;
  status : string;
  detail : string;
  chunks_indexed : nat;
  created_at : Time
}.

Record IngestionOutcome := {
  outcome_chunks_indexed : nat;
  outcome_collection_name : string
}.

Record DocumentUploadResponse := {
  r_document_id : Z;
  r_project_name : string;
  r_chunks_indexed : nat;
  r_collection_name : string
}.

Record UploadedFile := {
  uf_name : string;
  uf_content_type : option string;
  uf_content : string
}.

Record User := {
  user_id : Z;
  is_authenticated : bool
}.

(** The brochure tables, the vector store (the chunks of every collection)
    and the clock. *)
Record State := {
  clock : Time;
  brochures : list BrochureDocument;
  logs : list DocumentIngestionLog;
  vectors : list (string * Document)
}.

Definition M := Eff.M State.

Definition now : M Time :=
  fun s =>
    ({| clock := (clock s + 1)%Z; brochures := brochures s; logs := logs s;
        vectors := vectors s |},
     Ok (clock s)).

Definition set_brochures (v : list BrochureDocument) (s : State) : State :=
  {| clock := clock s; brochures := v; logs := logs s; vectors := vectors s |}.

Definition set_logs (v : list DocumentIngestionLog) (s : State) : State :=
  {| clock := clock s; brochures := brochures s; logs := v; vectors := vectors s |}.

Definition set_vectors (v : list (string * Document)) (s : State) : State :=
  {| clock := clock s; brochures := brochures s; logs := logs s; vectors := v |}.

(** [@transaction.atomic]: the tables are restored when the body raises;
    the vector store and the clock are outside the transaction. *)
Definition atomic {A} (body : M A) : M A :=
  fun s =>
    match body s with
    | (s', Ok a) => (s', Ok a)
    | (s', Raise e) =>
        ({| clock := clock s'; brochures := brochures s; logs := logs s;
            vectors := vectors s' |},
         Raise e)
    end.

Definition set_last_indexed_at (v : option Time) (b : BrochureDocument) : BrochureDocument :=
  {| id := id b; project_name := project_name b; original_name := original_name b;
     file := file b; checksum := checksum b; content_type := content_type b;
     metadata := metadata b; uploaded_by := uploaded_by b;
     uploaded_at := uploaded_at b; last_indexed_at := v |}.

Definition set_checksum (v : string) (b : BrochureDocument) : BrochureDocument :=
  {| id := id b; project_name := project_name b; original_name := original_name b;
     file := file b; checksum := v; content_type := content_type b;
     metadata := metadata b; uploaded_by := uploaded_by b;
     uploaded_at := uploaded_at b; last_indexed_at := last_indexed_at b |}.

Definition set_file (v : string) (b : BrochureDocument) : BrochureDocument :=
  {| id := id b; project_name := project_name b; original_name := original_name b;
     file := v; checksum := checksum b; content_type := content_type b;
     metadata := metadata b; uploaded_by := uploaded_by b;
     uploaded_at := uploaded_at b; last_indexed_at := last_indexed_at b |}.

(** [{**d, key: value}] *)
Fixpoint dict_set (key value : string) (d : list (string * string))
  : list (string * string) :=
  match d with
  | [] => [(key, value)]
  | (k, v) :: rest =>
      if String.eqb k key then (k, value) :: rest
      else (k, v) :: dict_set key value rest
  end.

(** What can go wrong in the vector store. *)
Inductive store_op :=
| ForCollection (collection : string)
| Delete (collection document_id : string)
| AddDocuments (collection : string) (chunks : list Document)
| Persist (collection : string).

(** [DocumentIngestionLog.objects.create(...)] *)
Definition create_log (document : BrochureDocument) (status detail : string)
    (chunks_indexed : nat) : M DocumentIngestionLog :=
  created <- now ;;
  fun s =>
    let row :=
      {| log_id := Orm.next_pk DocumentIngestionLog log_id (logs s);
         document_id := id document; status := status; detail := detail;
         chunks_indexed := chunks_indexed; created_at := created |} in
    (set_logs (logs s ++ [row])%list s, Ok row).

(** [Path(name).name]: what follows the last ["/"]. *)
Definition basename (path : string) : string :=
  let fix go (s acc : string) : string :=
    match s with
    | EmptyString => acc
    | String c t => if Ascii.eqb c "/"%char then go t EmptyString
                    else go t (acc ++ String c EmptyString)
    end in
  go path EmptyString.

Section Service.
(** [mimetypes.guess_type(name)[0]] *)
Variable guess_type : string -> option string.
(** [brochure.file.path] for a stored name. *)
Variable storage_path : string -> string.
(** [PyPDFLoader(path).load()] and [TextLoader(path, ...).load()] *)
Variable pdf_loader : string -> result (list Document).
Variable text_loader : string -> result (list Document).
(** [self.splitter.split_documents] *)
Variable split_documents : list Document -> result (list Document).
(** The failure, if any, of an operation of the vector store. *)
Variable store_fault : store_op -> option exn.
(** [FileSystemStorage.save]: the name under which the content is kept. *)
Variable storage_save : string -> string -> result string.
(** Reading a stored file back, and [hashlib.sha256(...).hexdigest()]. *)
Variable read_file : string -> result string.
Variable sha256 : string -> string.

Definition guard (op : store_op) : M unit :=
  match store_fault op with
  | Some exc => Eff.raise exc
  | None => Eff.ret tt
  end.

Definition _collection_name (project_name : string) : string :=
  if negb (is_empty project_name)
  then
    let normalized := replace_char " "%char "_"%char (lower project_name) in
    "project_" ++ normalized
  else "projects".

Definition _load_documents (file_path : string) (content_type : option string)
  : result (list Document) :=
  if match content_type with
     | Some ct => String.eqb ct "application/pdf"
     | None => false
     end
     || endswith (lower file_path) ".pdf"
  then pdf_loader file_path
  else text_loader file_path.

(** [BrochureDocument.save]: the checksum is computed when a file is there
    without one; then the row is written, whole when [full] (no
    [update_fields]) and otherwise its [last_indexed_at] column alone. *)
Definition save (full : bool) (self : BrochureDocument) : M BrochureDocument :=
  self <-
    (if negb (is_empty (file self)) && is_empty (checksum self)
     then content <- Eff.lift (read_file (storage_path (file self))) ;;
          Eff.ret (set_checksum (sha256 content) self)
     else Eff.ret self) ;;
  found <- Eff.gets (fun s => Orm.exists_pk BrochureDocument id (id self) (brochures s)) ;;
  if found : bool
  then
    _ <- Eff.modify (fun s =>
           set_brochures
             (Orm.update BrochureDocument id (id self)
                (fun row => if full then self
                            else set_last_indexed_at (last_indexed_at self) row)
                (brochures s)) s) ;;
    Eff.ret self
  else if full
  then
    _ <- Eff.modify (fun s => set_brochures (brochures s ++ [self])%list s) ;;
    Eff.ret self
  else Eff.raise (Exn DatabaseError "Save with update_fields did not affect any rows.").

(** [BrochureDocument.mark_indexed] *)
Definition mark_indexed (self : BrochureDocument) : M BrochureDocument :=
  t <- now ;;
  let self := set_last_indexed_at (Some t) self in
  save false self.

(** The metadata written on chunk [idx] of a brochure. *)
Definition annotate (brochure : BrochureDocument) (idx : nat) (chunk : Document) : Document :=
  {| page_content := page_content chunk;
     Rag.metadata :=
       dict_set "chunk_index" (str_of_nat idx)
         (dict_set "source" (file brochure)
            (dict_set "project_name" (project_name brochure)
               (dict_set "document_id" (str_of_Z (id brochure))
                  (Rag.metadata chunk)))) |}.

Fixpoint annotate_all (brochure : BrochureDocument) (idx : nat) (chunks : list Document)
  : list Document :=
  match chunks with
  | [] => []
  | chunk :: rest => annotate brochure idx chunk :: annotate_all brochure (S idx) rest
  end.

(** [store.delete(where={"document_id": ...})] on a collection. *)
Definition store_delete (collection document_id : string) : M unit :=
  _ <- guard (Delete collection document_id) ;;
  Eff.modify (fun s =>
    set_vectors
      (filter (fun entry =>
                 negb (String.eqb (fst entry) collection
                       && String.eqb (dict_get "document_id" EmptyString
                                        (Rag.metadata (snd entry)))
                                     document_id))
              (vectors s)) s).

(** [store.add_documents(documents=chunks)] *)
Definition store_add (collection : string) (chunks : list Document) : M unit :=
  _ <- guard (AddDocuments collection chunks) ;;
  Eff.modify (fun s =>
    set_vectors (vectors s ++ map (fun c => (collection, c)) chunks)%list s).

(** [x or y] on the content type. *)
Definition first_truthy (x : string) (y : option string) : option string :=
  if negb (is_empty x) then Some x else y.

(** The [try] block of [DocumentIngestionService.ingest]. *)
Definition ingest_try (brochure : BrochureDocument) (content_type : option string)
  : M IngestionOutcome :=
  documents <- Eff.lift (_load_documents (storage_path (file brochure))
                           (first_truthy (Ingestion.content_type brochure)
                                         content_type)) ;;
  chunks <- Eff.lift (split_documents documents) ;;
  let collection_name := _collection_name (project_name brochure) in
  _ <- guard (ForCollection collection_name) ;;
  let chunks := annotate_all brochure 0 chunks in
  _ <- store_delete collection_name (str_of_Z (id brochure)) ;;
  _ <- store_add collection_name chunks ;;
  _ <- guard (Persist collection_name) ;;
  _ <- mark_indexed brochure ;;
  _ <- create_log brochure "completed"
         ("Ingested " ++ str_of_nat (List.length chunks) ++ " chunks into "
          ++ collection_name)
         (List.length chunks) ;;
  Eff.ret {| outcome_chunks_indexed := List.length chunks;
             outcome_collection_name := collection_name |}.

(** The [except Exception as exc] block. *)
Definition ingest_except (brochure : BrochureDocument) (exc : exn) : M IngestionOutcome :=
  _ <- create_log brochure "failed" (exn_msg exc) 0 ;;
  Eff.raise exc.

(** [DocumentIngestionService.ingest] *)
Definition ingest (brochure : BrochureDocument) : M IngestionOutcome :=
  let content_type := guess_type (file brochure) in
  Eff.try_except (ingest_try brochure content_type) (ingest_except brochure).

(** [_detect_project_name] *)
Definition _detect_project_name (filename : string) : string :=
  let normalized :=
    replace_char "_"%char " "%char (replace_char "-"%char " "%char (lower filename)) in
  let fix scan (choices : list (string * string)) : string :=
    match choices with
    | [] => EmptyString
    | (choice, label) :: rest =>
        if contains (lower label) normalized then choice else scan rest
    end in
  scan Crm.project_choices.

Definition str_or_empty (x : option string) : string :=
  match x with Some v => v | None => EmptyString end.

(** [BrochureDocument.objects.create(...)] in [store_upload]: no file yet. *)
Definition create_brochure_row (project_name original_name content_type : string)
    (uploaded_by : option Z) : M BrochureDocument :=
  uploaded <- now ;;
  fun s =>
    let row :=
      {| id := Orm.next_pk BrochureDocument id (brochures s);
         project_name := project_name;
         original_name := original_name;
         file := EmptyString; checksum := EmptyString;
         content_type := content_type;
         metadata := [];
         uploaded_by := uploaded_by;
         uploaded_at := uploaded; last_indexed_at := None |} in
    (set_brochures (brochures s ++ [row])%list s, Ok row).

(** [store_upload], under [@transaction.atomic] *)
Definition store_upload (uploaded_file : UploadedFile) (project_name : option string)
    (content_type : option string) (user : User) : M BrochureDocument :=
  atomic (
    let original_name := basename (uf_name uploaded_file) in
    let detected_project :=
      if negb (is_empty (str_or_empty project_name))
      then str_or_empty project_name
      else _detect_project_name original_name in
    brochure <-
      create_brochure_row detected_project original_name
        (if negb (is_empty (str_or_empty content_type))
         then str_or_empty content_type
         else str_or_empty (uf_content_type uploaded_file))
        (if is_authenticated user then Some (user_id user) else None) ;;
    (* brochure.file.save(original_name, uploaded_file, save=True) *)
    stored <- Eff.lift (storage_save original_name (uf_content uploaded_file)) ;;
    brochure <- save true (set_file stored brochure) ;;
    (* brochure.refresh_from_db() *)
    table <- Eff.gets brochures ;;
    Eff.lift (Orm.get BrochureDocument id (id brochure) table)).

(** The [try] block of [upload_documents] in agents/api.py. *)
Definition store_and_ingest (user : User) (project_name : option string)
    (uploaded_file : UploadedFile) : M (BrochureDocument * IngestionOutcome) :=
  brochure <- store_upload uploaded_file project_name
                (uf_content_type uploaded_file) user ;;
  outcome <- ingest brochure ;;
  Eff.ret (brochure, outcome).

Definition response_of (stored : BrochureDocument * IngestionOutcome)
  : DocumentUploadResponse :=
  {| r_document_id := id (fst stored);
     r_project_name := Ingestion.project_name (fst stored);
     r_chunks_indexed := outcome_chunks_indexed (snd stored);
     r_collection_name := outcome_collection_name (snd stored) |}.

(** [upload_documents]: the loop over the uploaded files. *)
Fixpoint upload_loop (user : User) (project_name : option string)
    (files : list UploadedFile) (responses : list DocumentUploadResponse)
  : M (list DocumentUploadResponse) :=
  match files with
  | [] => Eff.ret responses
  | uploaded_file :: rest =>
      stored <-
        Eff.try_except
          (store_and_ingest user project_name uploaded_file)
          (fun exc =>
             Eff.raise (Exn (HttpError 400)
                          ("Failed to ingest " ++ uf_name uploaded_file ++ ": "
                           ++ exn_msg exc))) ;;
      upload_loop user project_name rest (responses ++ [response_of stored])%list
  end.

Definition upload_documents (user : User) (files : list UploadedFile)
    (project_name : option string) : M (list DocumentUploadResponse) :=
  upload_loop user project_name files [].

End Service.

End Ingestion.

(** ** agents/api.py: the agent query endpoint *)

Module AgentApi.
Import T2SQL Agent.

Record AgentQueryRequest := {
  campaign_lead_id : Z;
  query : string
}.

Record AgentQueryResponse := {
  route : string;
  reply : string;
  sql : option string;
  rows : option (list row);
  sources : option (list string)
}.

(** [get_object_or_404(CampaignLead, pk=pk, campaign__created_by=user)]:
    the link with this key whose campaign was created by the user. *)
Definition get_campaign_lead_or_404 (campaign_leads : list CampaignLead.t)
    (campaigns : list Campaign.t) (pk user : Z) : result CampaignLead.t :=
  match find (fun link =>
                (CampaignLead.id link =? pk)%Z
                && existsb (fun c =>
                              (Campaign.id c =? CampaignLead.campaign_id link)%Z
                              && (Campaign.created_by c =? user)%Z)
                           campaigns)
             campaign_leads with
  | Some link => Ok link
  | None => Raise (Exn (HttpError 404) "Not Found")
  end.

(** The truth value of a value of the response dictionary. *)
Definition obj_truthy (v : obj) : bool :=
  match v with
  | OStr s => negb (is_empty s)
  | ORows rs => match rs with [] => false | _ => true end
  | OStrList l => match l with [] => false | _ => true end
  end.

(** [result.get(a) or result.get(b)] *)
Definition get_or (a b : string) (result : Dict) : option obj :=
  match lookup a result with
  | Some v => if obj_truthy v then Some v else lookup b result
  | None => lookup b result
  end.

Definition as_str (v : option obj) : option string :=
  match v with Some (OStr s) => Some s | _ => None end.

Definition as_rows (v : option obj) : option (list row) :=
  match v with Some (ORows rs) => Some rs | _ => None end.

Definition as_str_list (v : option obj) : option (list string) :=
  match v with Some (OStrList l) => Some l | _ => None end.

Section Endpoint.
Variable llm : string -> result string.
Variable t2sql_answer : string -> result TextToSQLResult.
Variable get_documents : string -> string -> result Rag.RetrievalResult.
Variable rag_prompt : Crm.Lead -> Campaign.t -> string -> string -> string.
Variable leads : list Crm.Lead.
Variable campaigns : list Campaign.t.
Variable campaign_leads : list CampaignLead.t.
(** What the checkpointer holds for a thread. *)
Variable checkpoints : string -> AgentState.
(** [get_agent()]: the agent is built, or the configuration is incomplete. *)
Variable get_agent : result unit.

Definition thread_id (campaign_lead : CampaignLead.t) : string :=
  "campaign-lead-" ++ str_of_Z (CampaignLead.id campaign_lead).

(** [agent_query(request, payload)] for the authenticated [user]. *)
Definition agent_query (user : Z) (payload : AgentQueryRequest) : M AgentQueryResponse :=
  campaign_lead <-
    Eff.lift (get_campaign_lead_or_404 campaign_leads campaigns
                (campaign_lead_id payload) user) ;;
  _ <- Eff.lift get_agent ;;
  result <-
    Agent.run llm t2sql_answer get_documents rag_prompt leads campaigns
      (checkpoints (thread_id campaign_lead)) (query payload) campaign_lead ;;
  let reply := get_or "message" "answer" result in
  match reply with
  | Some v =>
      if obj_truthy v
      then
        match v with
        | OStr text =>
            Eff.ret {| route := match as_str (lookup "route" result) with
                                | Some r => r
                                | None => "rag"
                                end;
                       reply := text;
                       sql := as_str (lookup "sql" result);
                       rows := as_rows (lookup "rows" result);
                       sources := as_str_list (lookup "sources" result) |}
        | _ => Eff.raise (Exn ValidationError "reply: str type expected")
        end
      else Eff.raise (Exn (HttpError 500) "Unable to generate agent response.")
  | None => Eff.raise (Exn (HttpError 500) "Unable to generate agent response.")
  end.

End Endpoint.

End AgentApi.

(** ** campaigns/services.py: goal detection and ConversationService *)

Module Conversation.
Import Db.

(** [GoalOutcome] as a request field. *)
Inductive goal := G_NONE | G_CALL | G_VISIT.

Definition goal_value (g : goal) : string :=
  match g with
  | G_NONE => GoalOutcome.NONE
  | G_CALL => GoalOutcome.CALL
  | G_VISIT => GoalOutcome.VISIT
  end.

Definition goal_eqb (a b : goal) : bool :=
  match a, b with
  | G_NONE, G_NONE | G_CALL, G_CALL | G_VISIT, G_VISIT => true
  | _, _ => false
  end.

Definition visit_keywords : list string :=
  [ "visit"; "tour"; "viewing"; "see the property"; "schedule a visit" ].

Definition call_keywords : list string :=
  [ "call"; "phone"; "discuss"; "speak" ].

Definition _goal_from_intent (text : string) : goal :=
  let lowered := lower text in
  if any (fun keyword => contains keyword lowered) visit_keywords then G_VISIT
  else if any (fun keyword => contains keyword lowered) call_keywords then G_CALL
  else G_NONE.

Record AgentResponseRequest := {
  campaign_lead_id : Z;
  customer_message : string;
  requested_goal : option goal;
  proposed_schedule : option Time
}.

Record AgentResponseSchema := {
  reply : string;
  intent : string;
  goal_outcome : goal;
  scheduled_time : option Time
}.

(** [campaign_lead.save(update_fields=["last_agent_message_at", "updated_at"])]
    after [campaign_lead.last_agent_message_at = timezone.now()]. *)
Definition touch_agent_message (self : CampaignLead.t) : M CampaignLead.t :=
  t <- now ;;
  let self := CampaignLead.set_last_agent_message_at (Some t) self in
  CampaignLeadMethods.save
    [CampaignLead.F_last_agent_message_at; CampaignLead.F_updated_at] self.

Section Service.
(** [self.agent.run(query=, campaign_lead=, thread_id=)], as obtained from
    [get_agent()]. *)
Variable agent_run : string -> CampaignLead.t -> string -> result Agent.Dict.
(** [schedule.strftime("%A, %d %B at %H:%M")] *)
Variable strftime : Time -> string.
(** The text Django stores for a reply that is not a string. *)
Variable text_of : Agent.obj -> string.

Definition _build_thread_id (campaign_lead : CampaignLead.t) : string :=
  "campaign-lead-" ++ str_of_Z (CampaignLead.id campaign_lead).

Definition _goal_confirmation_message (campaign_lead : CampaignLead.t) (g : goal)
    (schedule : option Time) : M string :=
  leads <- Eff.gets Db.leads ;;
  lead <- Eff.lift (Orm.get Crm.Lead Crm.id (CampaignLead.lead_id campaign_lead) leads) ;;
  campaigns <- Eff.gets Db.campaigns ;;
  campaign <- Eff.lift (Orm.get Campaign.t Campaign.id
                          (CampaignLead.campaign_id campaign_lead) campaigns) ;;
  let schedule_text :=
    match schedule with
    | Some t => strftime t
    | None => "the earliest available slot"
    end in
  if goal_eqb g G_VISIT
  then Eff.ret
         ("Wonderful news, " ++ Crm.first_name lead
          ++ "! I've reserved a property viewing for " ++ schedule_text ++ " at "
          ++ Campaign.project_name campaign ++ ". "
          ++ "Our sales team will confirm the details over email shortly.")
  else Eff.ret
         ("Great, " ++ Crm.first_name lead ++ "! I've scheduled a call for "
          ++ schedule_text ++ " to walk you through "
          ++ Campaign.project_name campaign ++ ". "
          ++ "A sales advisor will reach out from the official line.").

(** [payload.requested_goal or _goal_from_intent(payload.customer_message)]:
    every member of [GoalOutcome], "none" included, is a non-empty string
    and so is true. *)
Definition goal_of (payload : AgentResponseRequest) : goal :=
  match requested_goal payload with
  | Some g => g
  | None => _goal_from_intent (customer_message payload)
  end.

Definition fallback_reply : string :=
  "Thank you for reaching out. I'll get back to you shortly.".

(** [a.get("message") or a.get("answer") or fallback_reply] *)
Definition reply_text_of (agent_result : Agent.Dict) : string :=
  match AgentApi.get_or "message" "answer" agent_result with
  | Some v =>
      if AgentApi.obj_truthy v
      then match v with Agent.OStr text => text | _ => text_of v end
      else fallback_reply
  | None => fallback_reply
  end.

Definition json_of (v : option Agent.obj) : json :=
  match v with
  | Some (Agent.OStr text) => JStr text
  | Some (Agent.OStrList l) => JStrList l
  | Some (Agent.ORows rs) => JStr (text_of (Agent.ORows rs))
  | None => JNull
  end.

(** [ConversationService.handle_customer_message], under
    [@transaction.atomic] *)
Definition handle_customer_message (campaign_lead : CampaignLead.t)
    (payload : AgentResponseRequest) : M AgentResponseSchema :=
  atomic (
    let g := goal_of payload in
    let goal_value := goal_value g in
    _ <- CampaignService.create_message_row (CampaignLead.id campaign_lead)
           SenderType.CUSTOMER (customer_message payload)
           (if is_empty goal_value then GoalOutcome.NONE else goal_value) [] ;;
    campaign_lead <- CampaignLeadMethods.mark_responded campaign_lead ;;
    if negb (goal_eqb g G_NONE)
    then
      campaign_lead <-
        CampaignLeadMethods.mark_goal goal_value (proposed_schedule payload)
          campaign_lead ;;
      reply <- _goal_confirmation_message campaign_lead g (proposed_schedule payload) ;;
      _ <- CampaignService.create_message_row (CampaignLead.id campaign_lead)
             SenderType.AGENT reply goal_value
             [("route", JStr "goal_confirmation")] ;;
      Eff.ret {| reply := reply; intent := goal_value; goal_outcome := g;
                 scheduled_time := proposed_schedule payload |}
    else
      agent_result <-
        Eff.lift (agent_run (customer_message payload) campaign_lead
                            (_build_thread_id campaign_lead)) ;;
      let reply_text := reply_text_of agent_result in
      let route :=
        match Agent.lookup "route" agent_result with
        | Some v => json_of (Some v)
        | None => JStr "rag"
        end in
      _ <- CampaignService.create_message_row (CampaignLead.id campaign_lead)
             SenderType.AGENT reply_text GoalOutcome.NONE
             [ ("route", route);
               ("sources", json_of (Agent.lookup "sources" agent_result));
               ("sql", json_of (Agent.lookup "sql" agent_result)) ] ;;
      _ <- touch_agent_message campaign_lead ;;
      Eff.ret {| reply := reply_text; intent := GoalOutcome.NONE;
                 goal_outcome := G_NONE; scheduled_time := None |}).

End Service.

End Conversation.

(** ** campaigns/models.py: the counters of Campaign; the dashboard *)

Module Dashboard.

(** [self.lead_links]: the links of the campaign. *)
Definition lead_links (self : Campaign.t) (table : list CampaignLead.t)
  : list CampaignLead.t :=
  filter (fun link => (CampaignLead.campaign_id link =? Campaign.id self)%Z) table.

Definition total_leads (self : Campaign.t) (table : list CampaignLead.t) : nat :=
  List.length (lead_links self table).

(** [self.lead_links.exclude(personalized_message="").count()] *)
Definition messages_sent (self : Campaign.t) (table : list CampaignLead.t) : nat :=
  List.length
    (filter (fun link => negb (String.eqb (CampaignLead.personalized_message link)
                                          EmptyString))
            (lead_links self table)).

Definition responses_received (self : Campaign.t) (table : list CampaignLead.t) : nat :=
  List.length
    (filter (fun link =>
               Orm.text_in (CampaignLead.status link)
                 [MessageStatus.RESPONDED; MessageStatus.GOAL_MET])
            (lead_links self table)).

Definition goals_completed (self : Campaign.t) (table : list CampaignLead.t) : nat :=
  List.length
    (filter (fun link =>
               Orm.text_in (CampaignLead.goal_outcome link)
                 [GoalOutcome.CALL; GoalOutcome.VISIT])
            (lead_links self table)).

Record Metrics := {
  m_total_leads : nat;
  m_messages_sent : nat;
  m_leads_responded : nat;
  m_goals_completed : nat
}.

(** The ordering of [CampaignLead], [-shortlisted_at], in which a query set
    is listed; links shortlisted at the same time keep the order of the
    table. *)
Fixpoint insert_link (x : CampaignLead.t) (l : list CampaignLead.t)
  : list CampaignLead.t :=
  match l with
  | [] => [x]
  | y :: rest =>
      if (CampaignLead.shortlisted_at y <=? CampaignLead.shortlisted_at x)%Z
      then x :: y :: rest
      else y :: insert_link x rest
  end.

Definition newest_first (l : list CampaignLead.t) : list CampaignLead.t :=
  fold_right insert_link [] l.

(** [CampaignDashboardService.get_dashboard] *)
Definition get_dashboard (campaign : Campaign.t) (table : list CampaignLead.t)
  : list CampaignLead.t * Metrics :=
  let leads := newest_first (lead_links campaign table) in
  let metrics :=
    {| m_total_leads := total_leads campaign table;
       m_messages_sent := messages_sent campaign table;
       m_leads_responded := responses_received campaign table;
       m_goals_completed := goals_completed campaign table |} in
  (leads, metrics).

End Dashboard.

(** ** campaigns/api.py *)

Module CampaignApi.
Import Db Conversation.

(** [get_object_or_404(Campaign, pk=campaign_id, created_by=request.user)] *)
Definition get_campaign_or_404 (campaigns : list Campaign.t) (pk user : Z)
  : result Campaign.t :=
  match find (fun c => (Campaign.id c =? pk)%Z && (Campaign.created_by c =? user)%Z)
             campaigns with
  | Some c => Ok c
  | None => Raise (Exn (HttpError 404) "Not Found")
  end.

(** [campaign_dashboard]: the campaign, its metrics and its links. *)
Definition campaign_dashboard (user campaign_id : Z)
  : M (Campaign.t * Dashboard.Metrics * list CampaignLead.t) :=
  campaigns <- Eff.gets Db.campaigns ;;
  campaign <- Eff.lift (get_campaign_or_404 campaigns campaign_id user) ;;
  table <- Eff.gets Db.campaign_leads ;;
  let '(leads, metrics) := Dashboard.get_dashboard campaign table in
  Eff.ret (campaign, metrics, leads).

(** [create_campaign]: [CampaignService()] obtains the message generator,
    which may fail; any exception of the service becomes HTTP 400; the
    answer holds the campaign and its links. *)
Definition create_campaign (settings : Settings)
    (message_generator :
       result (Campaign.t -> Crm.Lead -> option string -> result PersonalizedMessage))
    (send_mail : Email -> result unit) (str_of_exn : exn -> string)
    (user : Z) (payload : CampaignService.CampaignCreateRequest)
  : M (Campaign.t * list CampaignLead.t) :=
  generate <- Eff.lift message_generator ;;
  result <-
    Eff.try_except
      (CampaignService.create_campaign settings generate send_mail user payload)
      (fun exc => Eff.raise (Exn (HttpError 400) (str_of_exn exc))) ;;
  let campaign := CampaignService.campaign result in
  table <- Eff.gets Db.campaign_leads ;;
  let leads := Dashboard.newest_first (Dashboard.lead_links campaign table) in
  Eff.ret (campaign, leads).

Section Endpoint.
(** [ConversationService()], that is [get_agent()]: the agent, or the
    exception of an incomplete configuration. *)
Variable get_agent : result (string -> CampaignLead.t -> string -> result Agent.Dict).
Variable strftime : Time -> string.
Variable text_of : Agent.obj -> string.

(** [agent_respond]: the link is looked up by the key of the URL. *)
Definition agent_respond (user campaign_lead_id : Z) (payload : AgentResponseRequest)
  : M AgentResponseSchema :=
  table <- Eff.gets Db.campaign_leads ;;
  campaigns <- Eff.gets Db.campaigns ;;
  campaign_lead <-
    Eff.lift (AgentApi.get_campaign_lead_or_404 table campaigns campaign_lead_id user) ;;
  agent_run <- Eff.lift get_agent ;;
  handle_customer_message agent_run strftime text_of campaign_lead payload.

End Endpoint.

End CampaignApi.

(** ** crm/api.py *)

Module CrmApi.

Record LeadShortlistResponse := {
  count : nat;
  leads : list Crm.Lead
}.

Section Endpoint.
(** [str(exc)] *)
Variable str_of_exn : exn -> string.

(** [shortlist_leads]; [all_leads] is [Lead.objects.all()] in the order of
    the model. *)
Definition shortlist_leads (all_leads : list Crm.Lead) (payload : Crm.LeadFilterRequest)
  : result LeadShortlistResponse :=
  match Crm.service_shortlist all_leads payload with
  | Raise exc =>
      match exn_kind_of exc with
      | ValidationError => Raise (Exn (HttpError 400) (str_of_exn exc))
      | _ => Raise exc
      end
  | Ok result =>
      let leads := firstn 200 (Crm.leads result) in
      let serialized := map (fun lead => lead) leads in
      Ok {| count := List.length (Crm.leads result); leads := serialized |}
  end.

End Endpoint.

End CrmApi.

(** ** agents/rag.py: ProjectRAGService *)

Module RagService.
Import Rag.

(** What [store.get] answers: the values under "documents" and
    "metadatas", each possibly [None]. *)
Record Raw := {
  raw_documents : option (list string);
  raw_metadatas : option (list (option (list (string * string))))
}.

Definition and_then {A B} (r : result A) (k : A -> result B) : result B :=
  match r with
  | Ok a => k a
  | Raise e => Raise e
  end.

(** The truth value of [project_name: str | None]. *)
Definition named (project_name : option string) : bool :=
  match project_name with
  | Some p => negb (is_empty p)
  | None => false
  end.

(** [f"{project_name}"] *)
Definition text (project_name : option string) : string :=
  match project_name with
  | Some p => p
  | None => "None"
  end.

(** [x or []] *)
Definition list_or_empty {A} (x : option (list A)) : list A :=
  match x with Some l => l | None => [] end.

(** The loop of [_fallback_documents]: append, then stop once [limit]
    documents are there. *)
Fixpoint collect (limit : Z) (pairs : list (string * option (list (string * string))))
    (result : list Document) : list Document :=
  match pairs with
  | [] => result
  | (content, metadata) :: rest =>
      let result :=
        (result ++ [{| page_content := content;
                       metadata := list_or_empty metadata |}])%list in
      if (Z.of_nat (List.length result) >=? limit)%Z then result
      else collect limit rest result
  end.

Section Service.
Variable default_collection : string.
(** [vector_store_provider.for_collection(name)] *)
Variable for_collection : string -> result unit.
(** [store.similarity_search(prompt, k=limit)] on the store of a collection *)
Variable similarity_search : string -> string -> Z -> result (list Document).
(** [store.get(where=, limit=)] on the store of a collection; [where] is
    the project to filter on. *)
Variable store_get : string -> option string -> option Z -> result Raw.

Definition _collection_name (project_name : option string) : string :=
  if named project_name
  then
    let normalized := replace_char " "%char "_"%char (lower (text project_name)) in
    "project_" ++ normalized
  else default_collection.

Definition _fallback_documents (store : string) (project_name : option string)
    (limit : Z) : result (list Document) :=
  let where_ := if named project_name then project_name else None in
  and_then (store_get store where_
              (match where_ with Some _ => Some limit | None => None end))
    (fun raw =>
       let documents := list_or_empty (raw_documents raw) in
       let metadatas := list_or_empty (raw_metadatas raw) in
       Ok (collect limit (combine documents metadatas) [])).

(** The [for prompt in search_prompts] loop. *)
Fixpoint search (store : string) (limit : Z) (search_prompts : list string)
  : result (list Document) :=
  match search_prompts with
  | [] => Ok []
  | prompt :: rest =>
      if is_empty prompt then search store limit rest
      else
        and_then (similarity_search store prompt limit)
          (fun docs =>
             match docs with
             | _ :: _ => Ok docs
             | [] => search store limit rest
             end)
  end.

Definition search_prompts (project_name : option string) (query : string) : list string :=
  [ query;
    if named project_name
    then text project_name ++ " project brochure highlights amenities features"
    else EmptyString;
    if named project_name
    then text project_name ++ " brochure amenities location pricing"
    else EmptyString;
    "project highlights amenities floorplans pricing location" ].

Definition _similarity_search_with_variants (store : string)
    (project_name : option string) (query : string) (limit : Z)
  : result (list Document) :=
  search store limit (search_prompts project_name query).

Definition is_nil {A} (l : list A) : bool :=
  match l with [] => true | _ :: _ => false end.

Definition get_documents (project_name : option string) (query : string) (limit : Z)
  : result RetrievalResult :=
  let collection := _collection_name project_name in
  and_then (for_collection collection) (fun _ =>
  let store := collection in
  and_then (_similarity_search_with_variants store project_name query limit) (fun docs =>
  and_then
    (if is_nil docs && named project_name
     then
       and_then (for_collection default_collection) (fun _ =>
       let default_store := default_collection in
       and_then (_similarity_search_with_variants default_store None query limit)
         (fun docs =>
            if is_nil docs
            then _fallback_documents default_store project_name limit
            else Ok docs))
     else Ok docs)
    (fun docs =>
  and_then
    (if is_nil docs then _fallback_documents store project_name limit else Ok docs)
    (fun docs =>
  Ok {| documents := docs |})))).

End Service.

End RagService.

(** ** agents/t2sql.py: what the service records of a run of the agent *)

Module T2SQLService.
Import T2SQL.

(** A value found where rows are expected. *)
Inductive pyrows :=
| RowsList (rows : list row)
| NotAList (truth : bool).

Definition rows_truthy (v : option pyrows) : bool :=
  match v with
  | Some (RowsList (_ :: _)) => true
  | Some (RowsList []) => false
  | Some (NotAList b) => b
  | None => false
  end.

(** The result of [RunSqlTool.execute], as far as it is read:
    [metadata.get("results")] ([None] without metadata), the [rows] of the
    rich component of the UI component when there is one, and
    [result_for_llm]. *)
Record ToolResult := {
  metadata_results : option pyrows;
  ui_component : option (option pyrows);
  result_for_llm : string
}.

(** [self._last_sql], [self._last_rows], [self._last_message] *)
Record ServiceState := {
  _last_sql : option string;
  _last_rows : list row;
  _last_message : string
}.

Definition _reset_state (st : ServiceState) : ServiceState :=
  {| _last_sql := None; _last_rows := []; _last_message := EmptyString |}.

(** [_RecordingRunSqlTool.execute], after [super().execute] returned
    [result] for [args.sql]. *)
Definition execute (args_sql : string) (result : ToolResult) (st : ServiceState)
  : ServiceState :=
  let rows := metadata_results result in
  let rows :=
    if negb (rows_truthy rows)
    then match ui_component result with
         | Some ui_rows => ui_rows
         | None => rows
         end
    else rows in
  {| _last_sql := Some args_sql;
     _last_rows := match rows with
                   | Some (RowsList l) => l
                   | _ => []
                   end;
     _last_message := result_for_llm result |}.

(** What happens while [self._agent.send_message] is iterated: the tool is
    executed, or a component is yielded, whose simple component's text is
    [text] when it has one. *)
Inductive step :=
| Executed (args_sql : string) (result : ToolResult)
| Yielded (text : option string).

Section Service.
(** The steps of [self._agent.send_message(request_context, question)], and
    the exception that ends them, if any. *)
Variable send_message : string -> list step * option exn.

(** The [async for] loop. *)
Fixpoint iterate (steps : list step) (st : ServiceState) (explanation_parts : list string)
  : ServiceState * list string :=
  match steps with
  | [] => (st, explanation_parts)
  | Executed args_sql result :: rest =>
      iterate rest (execute args_sql result st) explanation_parts
  | Yielded text :: rest =>
      iterate rest st
        (match text with
         | Some (String c t) => (explanation_parts ++ [String c t])%list
         | _ => explanation_parts
         end)
  end.

Definition or_else (a b : string) : string := if is_empty a then b else a.

Definition _run_agent (question : string) : Eff.M ServiceState TextToSQLResult :=
  fun st =>
    let '(steps, failure) := send_message question in
    let '(st, explanation_parts) := iterate steps st [] in
    match failure with
    | Some exc => (st, Raise exc)
    | None =>
        let last_sql :=
          match _last_sql st with
          | None => "/* SQL not generated */"
          | Some text => text
          end in
        let st := {| _last_sql := Some last_sql; _last_rows := _last_rows st;
                     _last_message := _last_message st |} in
        let explanation :=
          or_else
            (or_else
               (strip (join nl (filter (fun part => negb (is_empty part))
                                       explanation_parts)))
               (_last_message st))
            "Assistant response unavailable." in
        (st, Ok {| sql := last_sql;
                   rows := _last_rows st;
                   explanation := explanation |})
    end.

End Service.

End T2SQLService.

(** ** agents/personalization.py: PersonalizedMessageGenerator *)

Module Personalization.
Import Rag RagService.

Section Generator.
Variable default_collection : string.
Variable for_collection : string -> result unit.
Variable similarity_search : string -> string -> Z -> result (list Document).
Variable store_get : string -> option string -> option Z -> result Raw.
(** [str(value)] of a [Decimal] *)
Variable str_of_decimal : Q -> string.
(** [self.prompt.format(...)]: the template filled for a campaign and a lead
    with the offer text and the brochure context the code passes. *)
Variable message_prompt : Campaign.t -> Crm.Lead -> string -> string -> string.
(** [self.llm.invoke(prompt)], as the text of the response. *)
Variable llm_invoke : string -> result string.

(** [f"{value}"] of an optional [Decimal] *)
Definition budget_text (value : option Q) : string :=
  match value with
  | Some q => str_of_decimal q
  | None => "None"
  end.

Definition generate (campaign : Campaign.t) (lead : Crm.Lead)
    (offer_details : option string) : result PersonalizedMessage :=
  and_then
    (get_documents default_collection for_collection similarity_search store_get
       (Some (Campaign.project_name campaign))
       ("Key selling points for " ++ Campaign.project_name campaign
        ++ " relevant to " ++ Crm.unit_type lead ++ " and budget "
        ++ budget_text (Crm.budget_min lead) ++ "-" ++ budget_text (Crm.budget_max lead))
       4)
    (fun rag_result =>
       let context_snippet := as_context rag_result in
       let sources :=
         map (fun doc => dict_get "source" EmptyString (Rag.metadata doc))
             (documents rag_result) in
       let rendered_prompt :=
         message_prompt campaign lead
           (CampaignService.str_or offer_details "[omit offer]")
           (if is_empty context_snippet
            then "No brochure information was available."
            else context_snippet) in
       and_then (llm_invoke rendered_prompt)
         (fun message_text =>
            Ok {| body := strip message_text; sources := sources;
                  context_snippet := context_snippet |})).

End Generator.

End Personalization.

(** * Properties *)

(** ** Strings *)

Section StringFacts.

Lemma prefix_app (sub rest : string) : prefix sub (sub ++ rest) = true.
Proof.
  induction sub as [|c sub IH]; simpl.
  - destruct rest; reflexivity.
  - destruct (ascii_dec c c) as [_|ne]; [exact IH | congruence].
Qed.

Lemma contains_of_prefix (sub s : string) :
  prefix sub s = true -> contains sub s = true.
Proof. intros H. destruct s; cbn [contains]; rewrite H; reflexivity. Qed.

Lemma contains_skip (sub s t : string) :
  contains sub t = true -> contains sub (s ++ t) = true.
Proof.
  intros H. induction s as [|c s IH]; [exact H|].
  cbn [append contains]. rewrite IH. apply orb_true_r.
Qed.

Lemma contains_middle (sub before after : string) :
  contains sub (before ++ sub ++ after) = true.
Proof.
  apply contains_skip, contains_of_prefix, prefix_app.
Qed.

Lemma append_assoc (a b c : string) : (a ++ b) ++ c = a ++ b ++ c.
Proof. induction a; simpl; congruence. Qed.

Lemma append_nil_r (a : string) : a ++ EmptyString = a.
Proof. induction a; simpl; congruence. Qed.

Lemma rstrip_is_prefix (s : string) : exists w, s = rstrip s ++ w.
Proof.
  induction s as [|c s [w IH]]; simpl.
  - exists EmptyString. reflexivity.
  - destruct (is_space c && is_empty (rstrip s)).
    + exists (String c s). reflexivity.
    + exists w. simpl. congruence.
Qed.

End StringFacts.

Section StripFacts.

Lemma contains_empty (s : string) : contains EmptyString s = true.
Proof. destruct s; reflexivity. Qed.

Lemma rstrip_app (s t : string) :
  rstrip (s ++ t) = if is_empty (rstrip t) then rstrip s else s ++ rstrip t.
Proof.
  induction s as [|c s IH]; cbn [append rstrip].
  - destruct (rstrip t); reflexivity.
  - rewrite IH. destruct (rstrip t) eqn:E; cbn [is_empty]; [reflexivity|].
    destruct s; cbn [append is_empty]; rewrite andb_false_r; reflexivity.
Qed.

Lemma rstrip_fixed_app (s t : string) :
  rstrip t = t -> t <> EmptyString -> rstrip (s ++ t) = s ++ t.
Proof.
  intros Ht Hne. rewrite rstrip_app, Ht.
  destruct t; [congruence | reflexivity].
Qed.

Lemma is_empty_true (s : string) : is_empty s = true -> s = EmptyString.
Proof. destruct s; [reflexivity | discriminate]. Qed.

End StripFacts.

(** ** QueryRouter.decide *)

Module RouterFacts.
Import Router.

(** The keyword set as the specification lists it. *)
Definition spec_keywords : list string :=
  [ "count"; "number"; "total"; "average"; "avg"; "sum"; "ratio";
    "metrics"; "how many"; "max"; "min"; "budget"; "revenue" ].

Lemma heuristics_t2sql (query : string) :
  (exists k, In k spec_keywords /\ contains k (lower query) = true) ->
  heuristics query = "t2sql".
Proof.
  intros (k & Hin & Hk). unfold heuristics, any.
  replace (existsb (fun keyword => contains keyword (lower query)) sql_keywords)
    with true; [reflexivity|].
  symmetry. apply existsb_exists. exists k. split; assumption.
Qed.

Lemma heuristics_rag (query : string) :
  (forall k, In k spec_keywords -> contains k (lower query) = false) ->
  heuristics query = "rag".
Proof.
  intros H. unfold heuristics, any.
  destruct (existsb _ sql_keywords) eqn:E; [|reflexivity].
  apply existsb_exists in E. destruct E as (k & Hin & Hk).
  rewrite (H k Hin) in Hk. discriminate.
Qed.

Lemma heuristics_two_routes (query : string) :
  heuristics query = "t2sql" \/ heuristics query = "rag".
Proof. unfold heuristics. destruct (any _ _); auto. Qed.

(** The LLM reply settles nothing: the call raised, or its reply holds
    neither ["sql"] nor ["rag"]. *)
Definition undecided (reply : result string) : Prop :=
  match reply with
  | Raise _ => True
  | Ok content =>
      contains "sql" (lower (strip content)) = false /\
      contains "rag" (lower (strip content)) = false
  end.

Lemma decide_route_cases (llm : string -> result string) (query : string) :
  decide llm query = "t2sql" \/ decide llm query = "rag".
Proof.
  unfold decide. destruct (llm (prompt query)) as [content|e].
  - destruct (contains "sql" (lower (strip content))); [left; reflexivity|].
    destruct (contains "rag" (lower (strip content))); [right; reflexivity|].
    apply heuristics_two_routes.
  - apply heuristics_two_routes.
Qed.

Ltac reply_cases :=
  repeat match goal with
    | H : Ok _ = Ok _ |- _ => inversion H; subst; clear H
    | H : undecided (Ok _) |- _ => destruct H
    end;
  congruence.

(** C1: [QueryRouter.decide] returns one of the two routes ["t2sql"] and
    ["rag"]; a reply that (stripped, lowercased) contains ["sql"] gives
    ["t2sql"], otherwise one that contains ["rag"] gives ["rag"]; and when
    the LLM call raises or its reply contains neither, the result is
    ["t2sql"] if the lowercased query contains one of the thirteen keywords
    and ["rag"] otherwise. *)
Theorem decide_two_routes (llm : string -> result string) (query : string) :
  let route := decide llm query in
  (route = "t2sql" \/ route = "rag") /\
  (forall content, llm (prompt query) = Ok content ->
     contains "sql" (lower (strip content)) = true -> route = "t2sql") /\
  (forall content, llm (prompt query) = Ok content ->
     contains "sql" (lower (strip content)) = false ->
     contains "rag" (lower (strip content)) = true -> route = "rag") /\
  (undecided (llm (prompt query)) ->
     ((exists k, In k spec_keywords /\ contains k (lower query) = true) ->
      route = "t2sql") /\
     ((forall k, In k spec_keywords -> contains k (lower query) = false) ->
      route = "rag")).
Proof.
  unfold decide. cbv zeta.
  destruct (llm (prompt query)) as [content|e] eqn:E.
  - destruct (contains "sql" (lower (strip content))) eqn:Hsql;
      [|destruct (contains "rag" (lower (strip content))) eqn:Hrag].
    + repeat split; auto; intros; reply_cases.
    + repeat split; auto; intros; reply_cases.
    + split; [apply heuristics_two_routes|].
      split; [intros; reply_cases|]. split; [intros; reply_cases|].
      intros _. split; [apply heuristics_t2sql | apply heuristics_rag].
  - split; [apply heuristics_two_routes|].
    split; [discriminate|]. split; [discriminate|].
    intros _. split; [apply heuristics_t2sql | apply heuristics_rag].
Qed.

Definition llm_says (reply : string) : string -> result string :=
  fun _ => Ok reply.
Definition llm_down : string -> result string :=
  fun _ => Raise (Exn ExternalError "timeout").

Lemma decide_two_routes_witness :
  decide (llm_says " T2SQL ") "What amenities are there?" = "t2sql" /\
  decide (llm_says "RAG") "How many leads?" = "rag" /\
  decide llm_down "How many leads are connected?" = "t2sql" /\
  decide (llm_says "unsure") "Tell me about the pool" = "rag".
Proof.
  split; [|split; [|split]].
  - apply (proj1 (proj2 (decide_two_routes (llm_says " T2SQL ") "What amenities are there?")) " T2SQL ");
      reflexivity.
  - apply (proj1 (proj2 (proj2 (decide_two_routes (llm_says "RAG") "How many leads?"))) "RAG");
      reflexivity.
  - apply (proj2 (proj2 (proj2 (decide_two_routes llm_down "How many leads are connected?")))).
    + exact I.
    + exists "how many". split; [simpl; tauto | reflexivity].
  - apply (proj2 (proj2 (proj2 (decide_two_routes (llm_says "unsure") "Tell me about the pool")))).
    + split; reflexivity.
    + intros k Hk. simpl in Hk.
      repeat (destruct Hk as [<-|Hk]; [reflexivity|]). destruct Hk.
Defined.

End RouterFacts.


(** ** T2SQLAnswerFormatter.format *)

Module FormatterFacts.
Import T2SQL Formatter.

(** The qualifier phrases as a function of the three occurrences alone. *)
Definition spec_phrases (connected budget status : bool) : list string :=
  match connected, budget, status with
  | true, true, _ => ["for connected leads"; "for the requested budget"]
  | true, false, _ => ["for connected leads"]
  | false, true, true => ["for the requested budget"; "for the requested status"]
  | false, true, false => ["for the requested budget"]
  | false, false, true => ["for the requested status"]
  | false, false, false => []
  end.

(** The text appended after the value: a space and the phrases, if any. *)
Definition spec_tail (phrases : list string) : string :=
  match phrases with
  | [] => EmptyString
  | _ => " " ++ join " " phrases
  end.

Definition single_cell (key : string) (value : value) : TextToSQLResult -> Prop :=
  fun result => rows result = [[(key, value)]].

Lemma qualifiers_spec (q : string) :
  qualifiers q =
  spec_phrases (contains "connected" q) (contains "budget" q) (contains "status" q).
Proof.
  unfold qualifiers.
  destruct (contains "connected" q), (contains "budget" q), (contains "status" q);
    reflexivity.
Qed.

Lemma spec_tail_stable (c b s : bool) :
  spec_phrases c b s <> [] ->
  rstrip (spec_tail (spec_phrases c b s)) = spec_tail (spec_phrases c b s) /\
  spec_tail (spec_phrases c b s) <> EmptyString.
Proof.
  destruct c, b, s; cbn [spec_phrases]; intros H;
    try congruence; split; try reflexivity; discriminate.
Qed.

Lemma spec_tail_cases (c b s : bool) :
  spec_phrases c b s = [] \/
  (rstrip (spec_tail (spec_phrases c b s)) = spec_tail (spec_phrases c b s) /\
   spec_tail (spec_phrases c b s) <> EmptyString).
Proof.
  destruct (spec_phrases c b s) eqn:E; [left; reflexivity|right].
  rewrite <- E. apply spec_tail_stable. rewrite E. discriminate.
Qed.

Lemma format_single_cell (question key : string) (v : value) (result : TextToSQLResult) :
  single_cell key v result ->
  format question result =
  rstrip ("The " ++ replace_char underscore space key ++ " is " ++ str v
          ++ spec_tail (qualifiers (lower question))) ++ ".".
Proof.
  unfold single_cell, format. intros ->. cbn [List.length Nat.eqb andb].
  destruct (qualifiers (lower question)) eqn:E; cbn [spec_tail].
  - rewrite append_nil_r. reflexivity.
  - rewrite !append_assoc. reflexivity.
Qed.

Lemma format_many (question : string) (result : TextToSQLResult) :
  rows result <> [] ->
  (forall key v, ~ single_cell key v result) ->
  format question result =
  join nl (map bullet (firstn 5 (rows result))) ++
  (if (5 <? List.length (rows result))%nat
   then nl ++ "Showing first 5 of " ++ str_of_nat (List.length (rows result))
           ++ " records."
   else EmptyString).
Proof.
  unfold single_cell, format. intros Hne Hnot.
  destruct (rows result) as [|first rest] eqn:E; [congruence|].
  assert (Hguard :
    (List.length (first :: rest) =? 1)%nat && (List.length first =? 1)%nat = true ->
    False).
  { intros H. apply andb_prop in H. destruct H as [H1 H2].
    apply Nat.eqb_eq in H1, H2.
    destruct rest; [|discriminate].
    destruct first as [|[k v] [|]]; try discriminate.
    apply (Hnot k v). reflexivity. }
  destruct ((List.length (first :: rest) =? 1)%nat && (List.length first =? 1)%nat)
    eqn:G.
  - exfalso. apply Hguard. reflexivity.
  - destruct (5 <? List.length (first :: rest))%nat.
    + reflexivity.
    + rewrite append_nil_r. reflexivity.
Qed.

Lemma rstrip_sentence_head (key_name rest : string) :
  exists kept,
    rstrip ("The " ++ key_name ++ " is " ++ rest) = "The " ++ key_name ++ " is" ++ kept.
Proof.
  replace ("The " ++ key_name ++ " is " ++ rest)
    with (("The " ++ key_name ++ " is") ++ (" " ++ rest))
    by (rewrite !append_assoc; reflexivity).
  rewrite rstrip_app.
  destruct (is_empty (rstrip (" " ++ rest))).
  - exists EmptyString.
    replace ("The " ++ key_name ++ " is") with (("The " ++ key_name) ++ " is")
      by (rewrite !append_assoc; reflexivity).
    rewrite rstrip_fixed_app by (try reflexivity; discriminate).
    rewrite !append_assoc. reflexivity.
  - exists (rstrip (" " ++ rest)). rewrite !append_assoc. reflexivity.
Qed.

Lemma sentence_contains_key (key_name rest : string) :
  contains key_name (rstrip ("The " ++ key_name ++ " is " ++ rest) ++ ".") = true.
Proof.
  destruct (rstrip_sentence_head key_name rest) as [kept ->].
  rewrite !append_assoc. apply contains_middle.
Qed.

Lemma contains_after_is (x key_name rest : string) :
  contains x ("The " ++ key_name ++ " is " ++ x ++ rest) = true.
Proof.
  replace ("The " ++ key_name ++ " is " ++ x ++ rest)
    with (("The " ++ key_name ++ " is ") ++ x ++ rest)
    by (rewrite !append_assoc; reflexivity).
  apply contains_middle.
Qed.

Lemma sentence_contains_stripped_value (key_name v tail : string) :
  tail = EmptyString \/ (rstrip tail = tail /\ tail <> EmptyString) ->
  contains (rstrip v) (rstrip ("The " ++ key_name ++ " is " ++ v ++ tail) ++ ".") = true.
Proof.
  replace ("The " ++ key_name ++ " is " ++ v ++ tail)
    with ((("The " ++ key_name ++ " is ") ++ v) ++ tail)
    by (rewrite !append_assoc; reflexivity).
  intros [-> | [Hfix Hne]].
  - rewrite append_nil_r, rstrip_app.
    destruct (is_empty (rstrip v)) eqn:E.
    + apply is_empty_true in E. rewrite E. apply contains_empty.
    + rewrite append_assoc. apply contains_middle.
  - rewrite rstrip_fixed_app by assumption.
    destruct (rstrip_is_prefix v) as [w Hw].
    rewrite Hw at 2. rewrite !append_assoc.
    apply contains_after_is.
Qed.

Lemma sentence_contains_value (key_name v tail : string) :
  (rstrip tail = tail /\ tail <> EmptyString) \/ (tail = EmptyString /\ rstrip v = v) ->
  contains v (rstrip ("The " ++ key_name ++ " is " ++ v ++ tail) ++ ".") = true.
Proof.
  intros [[Hfix Hne] | [-> Hv]].
  - replace ("The " ++ key_name ++ " is " ++ v ++ tail)
      with ((("The " ++ key_name ++ " is ") ++ v) ++ tail)
      by (rewrite !append_assoc; reflexivity).
    rewrite rstrip_fixed_app by assumption.
    rewrite !append_assoc.
    apply contains_after_is.
  - rewrite <- Hv at 1. apply sentence_contains_stripped_value. left. reflexivity.
Qed.

Definition demo_result (rs : list row) : TextToSQLResult :=
  {| sql := "SELECT 1"; rows := rs; explanation := "demo" |}.




End FormatterFacts.


(** ** LeadQuerySet.shortlist and LeadShortlistService.shortlist *)

Module CrmFacts.
Import Orm Crm.

(** A lead passes the filters other than the budget filter: every filter
    that is provided holds of it. *)
Definition passes_other_filters
    (project_names : option (list ProjectName))
    (unit_types : option (list UnitType))
    (lead_status : option LeadStatus)
    (conv_from conv_to : option Date) (l : Lead) : Prop :=
  (truthy project_names = true ->
   exists p, In p (items project_names) /\ project_enquired l = project_value p) /\
  (truthy unit_types = true ->
   exists u, In u (items unit_types) /\ unit_type l = unit_value u) /\
  (forall st, lead_status = Some st -> status l = status_value st) /\
  (forall d, conv_from = Some d ->
   exists x, last_conversation_date l = Some x /\ (d <= x)%Z) /\
  (forall d, conv_to = Some d ->
   exists x, last_conversation_date l = Some x /\ (x <= d)%Z).

(** The lead's range overlaps the requested one; a missing request bound
    defaults to 0 below and to infinity above. *)
Definition budget_overlaps (req_min req_max : option Q) (l : Lead) : Prop :=
  exists lo hi,
    budget_min l = Some lo /\ budget_max l = Some hi /\
    match req_max with Some m => (lo <= m)%Q | None => True end /\
    match req_min with Some m => (m <= hi)%Q | None => (0 <= hi)%Q end.

Definition both_null (l : Lead) : Prop :=
  budget_min l = None /\ budget_max l = None.

Definition one_null (l : Lead) : Prop :=
  (budget_min l = None /\ budget_max l <> None) \/
  (budget_min l <> None /\ budget_max l = None).

Lemma text_in_map {A} (value_of : A -> string) (col : string) (xs : list A) :
  text_in col (map value_of xs) = true <->
  exists x, In x xs /\ col = value_of x.
Proof.
  unfold text_in. rewrite existsb_exists. split.
  - intros (v & Hin & Heq). apply in_map_iff in Hin.
    destruct Hin as (x & <- & Hx). apply String.eqb_eq in Heq. eauto.
  - intros (x & Hx & ->). exists (value_of x). split.
    + apply in_map. exact Hx.
    + apply String.eqb_refl.
Qed.

Lemma holds_cmp {A B} (op : A -> B -> bool) (col : option A) (rhs : B) :
  holds (cmp op col rhs) = true <-> exists v, col = Some v /\ op v rhs = true.
Proof.
  destruct col as [v|]; simpl.
  - destruct (op v rhs) eqn:E; simpl; split; try discriminate; eauto.
    intros (v' & Hv & Hop). inversion Hv; subst. congruence.
  - split; [discriminate|]. intros (v & Hv & _). discriminate.
Qed.

Lemma holds_budget_clause (min_value : Q) (max_value : bound) (l : Lead) :
  holds (budget_clause min_value max_value l) = true <->
  both_null l \/
  exists lo hi, budget_min l = Some lo /\ budget_max l = Some hi /\
                le_bound lo max_value = true /\ ge_dec hi min_value = true.
Proof.
  unfold budget_clause, both_null.
  destruct (budget_min l) as [lo|], (budget_max l) as [hi|]; simpl.
  - destruct (le_bound lo max_value) eqn:E1, (ge_dec hi min_value) eqn:E2; simpl;
      split; try discriminate; intros H;
      try (right; exists lo, hi; auto; fail);
      try reflexivity;
      destruct H as [[H _]|(lo' & hi' & H1 & H2 & H3 & H4)]; try discriminate;
      inversion H1; inversion H2; subst; congruence.
  - destruct (le_bound lo max_value); simpl; split; try discriminate;
      intros [[H _]|(lo' & hi' & _ & H & _)]; discriminate.
  - destruct (ge_dec hi min_value); simpl; split; try discriminate;
      intros [[_ H]|(lo' & hi' & H & _)]; discriminate.
  - split; auto.
Qed.

Lemma in_cond_filter {A} (c : bool) (p : A -> bool) (q : list A) (x : A) :
  In x (if c then filter p q else q) <-> In x q /\ (c = true -> p x = true).
Proof.
  destruct c; [rewrite filter_In|]; split; intros H;
    try (destruct H; split; auto; fail); try discriminate.
  - split; [exact H | discriminate].
  - apply H.
Qed.

Lemma in_opt_filter {A D} (o : option D) (p : D -> A -> bool) (q : list A) (x : A) :
  In x (match o with Some d => filter (p d) q | None => q end) <->
  In x q /\ (forall d, o = Some d -> p d x = true).
Proof.
  destruct o as [d|]; [rewrite filter_In|]; split; intros H.
  - destruct H as [H1 H2]. split; [exact H1|]. intros d' E. inversion E; subst. exact H2.
  - destruct H as [H1 H2]. split; [exact H1 | apply H2; reflexivity].
  - split; [exact H | discriminate].
  - apply H.
Qed.

(** Membership in the result of the five filters before the budget one. *)
Lemma in_shortlist_others (self : list Lead) pn ut st cf ct (l : Lead) :
  In l (shortlist self pn ut st cf ct None None) <->
  In l self /\ passes_other_filters pn ut st cf ct l.
Proof.
  unfold shortlist, passes_other_filters. cbv zeta.
  rewrite (in_opt_filter ct (fun d l => holds (cmp Z.leb (last_conversation_date l) d))).
  rewrite (in_opt_filter cf (fun d l => holds (cmp Z.geb (last_conversation_date l) d))).
  rewrite (in_opt_filter st (fun s l => String.eqb (status l) (status_value s))).
  rewrite !in_cond_filter.
  split.
  - intros (((((Hin & Hp) & Hu) & Hs) & Hf) & Ht).
    split; [exact Hin|]. repeat split.
    + intros E. apply text_in_map, Hp, E.
    + intros E. apply text_in_map, Hu, E.
    + intros s E. apply String.eqb_eq, Hs, E.
    + intros d E. apply Hf, holds_cmp in E. destruct E as (x & Hx & Hge).
      exists x. split; [exact Hx | apply Z.geb_le, Hge].
    + intros d E. apply Ht, holds_cmp in E. destruct E as (x & Hx & Hle).
      exists x. split; [exact Hx | apply Z.leb_le, Hle].
  - intros (Hin & Hp & Hu & Hs & Hf & Ht).
    repeat split; [exact Hin| | | | |].
    + intros E. apply text_in_map, Hp, E.
    + intros E. apply text_in_map, Hu, E.
    + intros s E. apply String.eqb_eq, Hs, E.
    + intros d E. apply holds_cmp. destruct (Hf d E) as (x & Hx & Hle).
      exists x. split; [exact Hx | apply Z.geb_le, Hle].
    + intros d E. apply holds_cmp. destruct (Ht d E) as (x & Hx & Hle).
      exists x. split; [exact Hx | apply Z.leb_le, Hle].
Qed.

Lemma shortlist_budget_step (self : list Lead) pn ut st cf ct req_min req_max :
  req_min <> None \/ req_max <> None ->
  shortlist self pn ut st cf ct req_min req_max =
  filter (fun l => holds (budget_clause
                            (match req_min with Some q => q | None => 0%Q end)
                            (match req_max with Some q => Fin q | None => Inf end) l))
         (shortlist self pn ut st cf ct None None).
Proof.
  intros H. destruct req_min, req_max; try reflexivity.
  destruct H; congruence.
Qed.

Lemma overlap_bool_iff (req_min req_max : option Q) (lo hi : Q) :
  le_bound lo (match req_max with Some q => Fin q | None => Inf end) = true /\
  ge_dec hi (match req_min with Some q => q | None => 0%Q end) = true <->
  match req_max with Some m => (lo <= m)%Q | None => True end /\
  match req_min with Some m => (m <= hi)%Q | None => (0 <= hi)%Q end.
Proof.
  unfold ge_dec. destruct req_min, req_max; cbn [le_bound];
    rewrite ?Qle_bool_iff; intuition.
Qed.


Definition sample_lead (key : Z) (lo hi : option Q) : Lead :=
  {| id := key; crm_id := "CRM-" ++ str_of_Z key; first_name := "Jamie";
     last_name := "Doe"; email := "jamie@example.com";
     phone_number := "+1234567890"; project_enquired := "Altura";
     unit_type := "2 bed"; status := "connected";
     budget_min := lo; budget_max := hi; family_size := None;
     location_preference := EmptyString; purchase_motive := EmptyString;
     financing_readiness := EmptyString; last_conversation_date := None;
     last_conversation_summary := EmptyString; created_at := 0%Z;
     updated_at := 0%Z |}.

Definition sample_leads : list Lead :=
  [ sample_lead 1 None None;
    sample_lead 2 (Some 500000%Q) (Some 800000%Q);
    sample_lead 3 (Some 500000%Q) None;
    sample_lead 4 (Some 900000%Q) (Some 950000%Q) ].



Definition request_one_filter : LeadFilterRequest :=
  {| f_project_names := Some [ALTURA]; f_budget_min := None; f_budget_max := None;
     f_unit_types := Some []; f_lead_status := None;
     f_last_conversation_from := None; f_last_conversation_to := None |}.

Definition request_two_filters : LeadFilterRequest :=
  {| f_project_names := Some [ALTURA]; f_budget_min := None; f_budget_max := None;
     f_unit_types := None; f_lead_status := Some CONNECTED;
     f_last_conversation_from := None; f_last_conversation_to := None |}.


End CrmFacts.


(** ** CampaignLead: status transitions *)

Module CampaignLeadFacts.
Import CampaignLead Db CampaignLeadMethods.

(** The columns [mark_responded] must leave alone. *)
Definition untouched (a b : t) : Prop :=
  id a = id b /\ campaign_id a = campaign_id b /\ lead_id a = lead_id b /\
  shortlisted_at a = shortlisted_at b /\
  personalized_message a = personalized_message b /\
  dispatch_time a = dispatch_time b /\ goal_outcome a = goal_outcome b /\
  scheduled_datetime a = scheduled_datetime b /\
  last_agent_message_at a = last_agent_message_at b.

Lemma untouched_refl (a : t) : untouched a a.
Proof. repeat split. Qed.

Lemma Forall2_map_r {A B} (R : A -> B -> Prop) (f : A -> B) (l : list A) :
  (forall x, In x l -> R x (f x)) -> Forall2 R l (map f l).
Proof.
  induction l as [|x l IH]; intros H; simpl; constructor.
  - apply H. left. reflexivity.
  - apply IH. intros y Hy. apply H. right. exact Hy.
Qed.

(** What [mark_responded] computes when the row is in the table. *)
Lemma mark_responded_run (self : t) (s : State) :
  Orm.exists_pk t id (id self) (campaign_leads s) = true ->
  let status' :=
    if String.eqb (status self) MessageStatus.GOAL_MET
    then status self else MessageStatus.RESPONDED in
  let self' :=
    set_updated_at (clock s + 1)%Z
      (set_last_customer_message_at (Some (clock s)) (set_status status' self)) in
  mark_responded self s =
  ({| clock := (clock s + 1 + 1)%Z; leads := leads s; campaigns := campaigns s;
      campaign_leads :=
        Orm.update t id (id self)
          (fun row => copy F_status self'
                        (copy F_last_customer_message_at self'
                           (copy F_updated_at self' row)))
          (campaign_leads s);
      messages := messages s; outbox := outbox s |},
   Ok self').
Proof.
  intros H. cbv zeta.
  unfold mark_responded, save, Eff.bind, Eff.gets, Eff.modify, Eff.ret, now.
  destruct (String.eqb (status self) MessageStatus.GOAL_MET) eqn:E;
    cbn -[Orm.exists_pk Orm.update String.eqb Z.add]; rewrite H;
    cbn -[Orm.exists_pk Orm.update String.eqb Z.add];
    [destruct self; cbn in *|]; reflexivity.
Qed.

(** C9: [mark_responded] sets the status to "responded" unless it is
    "goal_met", which it keeps; on the instance and on every row of the table
    it changes no column besides status, last_customer_message_at and
    updated_at, it touches no row with another key and no other table. *)
Theorem mark_responded_keeps_goal_met (self : t) (s : State) :
  Orm.exists_pk t id (id self) (campaign_leads s) = true ->
  exists self' s',
    mark_responded self s = (s', Ok self') /\
    (status self = "goal_met" -> status self' = "goal_met") /\
    (status self <> "goal_met" -> status self' = "responded") /\
    untouched self self' /\
    leads s' = leads s /\ campaigns s' = campaigns s /\
    messages s' = messages s /\
    Forall2 (fun row row' =>
               untouched row row' /\
               (id row <> id self -> row' = row) /\
               (id row = id self -> status row' = status self'))
            (campaign_leads s) (campaign_leads s').
Proof.
  intros H. pose proof (mark_responded_run self s H) as Hrun. cbv zeta in Hrun.
  eexists. eexists. split; [exact Hrun|].
  cbn [status set_updated_at set_last_customer_message_at set_status
       leads campaigns messages campaign_leads].
  split; [|split; [|split; [|split; [|split; [|split]]]]]; try reflexivity.
  - intros E. rewrite E. reflexivity.
  - intros E. destruct (String.eqb (status self) MessageStatus.GOAL_MET) eqn:B.
    + apply String.eqb_eq in B. contradiction.
    + reflexivity.
  - repeat split.
  - unfold Orm.update. apply Forall2_map_r. intros row _.
    destruct (id row =? id self)%Z eqn:B.
    + split; [repeat split|]. split.
      * intros Hne. apply Z.eqb_eq in B. contradiction.
      * intros _. reflexivity.
    + split; [apply untouched_refl|]. split.
      * reflexivity.
      * intros Heq. apply Z.eqb_neq in B. contradiction.
Qed.

Definition sample_link (key : Z) (st : string) : t :=
  {| id := key; campaign_id := 1; lead_id := key; shortlisted_at := 0%Z;
     personalized_message := "Hi Jamie"; dispatch_time := Some 0%Z;
     status := st; goal_outcome := GoalOutcome.NONE;
     scheduled_datetime := None; last_customer_message_at := None;
     last_agent_message_at := None; updated_at := 0%Z |}.

Definition sample_state : State :=
  {| clock := 10%Z; leads := []; campaigns := [];
     campaign_leads := [sample_link 1 "goal_met"; sample_link 2 "sent"];
     messages := []; outbox := [] |}.

Lemma mark_responded_keeps_goal_met_witness :
  exists self' s',
    mark_responded (sample_link 1 "goal_met") sample_state = (s', Ok self') /\
    status self' = "goal_met".
Proof.
  destruct (mark_responded_keeps_goal_met (sample_link 1 "goal_met") sample_state
              eq_refl) as (self' & s' & Hrun & Hkeep & _).
  exists self', s'. split; [exact Hrun | apply Hkeep; reflexivity].
Defined.

(** An operation is an unconstrained update of the status when the
    status it leaves behind does not depend on the record it is applied to. *)
Definition writes_status_unconditionally (op : t -> M t) : Prop :=
  forall a b s sa sb a' b',
    op a s = (sa, Ok a') -> op b s = (sb, Ok b') -> status a' = status b'.

Definition status_after (op : t -> M t) (self : t) (s : State) : option string :=
  match op self s with
  | (_, Ok self') => Some (status self')
  | (_, Raise _) => None
  end.

Lemma save_status (fields : list field) (self self' : t) (s s' : State) :
  save fields self s = (s', Ok self') -> status self' = status self.
Proof.
  unfold save, Eff.bind, Eff.gets, Eff.modify, Eff.ret, Eff.raise, now.
  destruct (existsb (field_eqb F_updated_at) fields);
    cbn -[Orm.exists_pk Orm.update];
    destruct (Orm.exists_pk t id _ _); intros E; inversion E; reflexivity.
Qed.

Lemma mark_sent_status (self self' : t) (s s' : State) :
  mark_sent self s = (s', Ok self') -> status self' = MessageStatus.SENT.
Proof.
  unfold mark_sent, Eff.bind, now. cbn -[save]. intros E.
  apply save_status in E. exact E.
Qed.

Lemma mark_goal_status outcome scheduled_for (self self' : t) (s s' : State) :
  mark_goal outcome scheduled_for self s = (s', Ok self') ->
  status self' = MessageStatus.GOAL_MET.
Proof.
  unfold mark_goal, Eff.bind, now. cbn -[save]. intros E.
  apply save_status in E. exact E.
Qed.

Lemma mark_responded_status (self self' : t) (s s' : State) :
  mark_responded self s = (s', Ok self') ->
  status self' =
  if String.eqb (status self) MessageStatus.GOAL_MET
  then MessageStatus.GOAL_MET else MessageStatus.RESPONDED.
Proof.
  unfold mark_responded, Eff.bind, now. cbn -[save String.eqb]. intros E.
  apply save_status in E. rewrite E. cbn -[String.eqb].
  destruct (String.eqb (status self) MessageStatus.GOAL_MET) eqn:B;
    cbn -[String.eqb]; [apply String.eqb_eq; exact B | reflexivity].
Qed.

Lemma status_after_agrees (op : t -> M t) :
  writes_status_unconditionally op ->
  forall a b s x y,
    status_after op a s = Some x -> status_after op b s = Some y -> x = y.
Proof.
  intros H a b s x y. unfold status_after.
  destruct (op a s) as [sa [a'|ea]] eqn:Ea; [|discriminate].
  destruct (op b s) as [sb [b'|eb]] eqn:Eb; [|discriminate].
  intros Hx Hy. inversion Hx; inversion Hy; subst.
  exact (H a b s sa sb a' b' Ea Eb).
Qed.

Lemma status_after_some (op : t -> M t) (self self' : t) (s s' : State) :
  op self s = (s', Ok self') -> status_after op self s = Some (status self').
Proof. intros E. unfold status_after. rewrite E. reflexivity. Qed.




End CampaignLeadFacts.


(** ** CampaignService.create_campaign *)

Module CampaignServiceFacts.
Import Db CampaignService.

Lemma atomic_ok {A} (body : M A) (s s' : State) (a : A) :
  body s = (s', Ok a) -> atomic body s = (s', Ok a).
Proof. intros H. unfold atomic. rewrite H. reflexivity. Qed.

Lemma atomic_raise_tables {A} (body : M A) (s s' : State) (e : exn) :
  atomic body s = (s', Raise e) -> same_tables s' s.
Proof.
  unfold atomic. destruct (body s) as [s1 [a|e1]]; intros H; inversion H; subst.
  repeat split.
Qed.

Lemma id_in_iff (ids : list Z) (i : Z) : id_in ids i = true <-> In i ids.
Proof.
  unfold id_in. rewrite existsb_exists. split.
  - intros (x & Hx & E). apply Z.eqb_eq in E. subst. exact Hx.
  - intros H. exists i. split; [exact H | apply Z.eqb_refl].
Qed.

Lemma in_leads_with_ids (ids : list Z) (table : list Crm.Lead) (l : Crm.Lead) :
  In l (leads_with_ids ids table) <-> In l table /\ In (Crm.id l) ids.
Proof. unfold leads_with_ids. rewrite filter_In, id_in_iff. reflexivity. Qed.

Lemma filter_none {A} (p : A -> bool) (l : list A) :
  (forall x, In x l -> p x = false) -> filter p l = [].
Proof.
  induction l as [|x l IH]; intros H; simpl; [reflexivity|].
  rewrite (H x (or_introl eq_refl)). apply IH. intros y Hy. apply H. right. exact Hy.
Qed.

(** Every requested key has a lead: nothing is missing. *)
Lemma missing_ids_nil (ids : list Z) (table : list Crm.Lead) :
  (forall i, In i ids -> exists l, In l table /\ Crm.id l = i) ->
  missing_ids ids (leads_with_ids ids table) = [].
Proof.
  intros H. unfold missing_ids. apply filter_none. intros i Hi.
  apply nodup_In in Hi. apply negb_false_iff, id_in_iff, in_map_iff.
  destruct (H i Hi) as (l & Hl & E). exists l. split; [exact E|].
  apply in_leads_with_ids. split; [exact Hl | rewrite E; exact Hi].
Qed.

(** A requested key without a lead is reported missing. *)
Lemma missing_ids_cons (ids : list Z) (table : list Crm.Lead) (i : Z) :
  In i ids -> (forall l, In l table -> Crm.id l <> i) ->
  exists j rest, missing_ids ids (leads_with_ids ids table) = j :: rest.
Proof.
  intros Hi Hno.
  assert (Hin : In i (missing_ids ids (leads_with_ids ids table))).
  { unfold missing_ids. apply filter_In. split; [apply nodup_In; exact Hi|].
    apply negb_true_iff. destruct (id_in _ i) eqn:E; [|reflexivity].
    apply id_in_iff, in_map_iff in E. destruct E as (l & E & Hl).
    apply in_leads_with_ids in Hl. destruct Hl as [Hl _].
    exfalso. exact (Hno l Hl E). }
  destruct (missing_ids ids (leads_with_ids ids table)) as [|j rest];
    [destruct Hin | eauto].
Qed.

Section Service.
Variable settings : Settings.
Variable generate : Campaign.t -> Crm.Lead -> option string -> result PersonalizedMessage.
Variable send_mail : Email -> result unit.

(** The e-mail step lets the request go on: a recipient is configured, and
    the mail is skipped for want of credentials, or sent, or its failure is
    tolerated under [DEBUG]. *)
Definition dispatch_ok (c : Campaign.t) (lead : Crm.Lead) (message : string) : bool :=
  negb (is_empty (CAMPAIGN_EMAIL_OVERRIDE settings)) &&
  (is_empty (EMAIL_HOST_USER settings) || is_empty (EMAIL_HOST_PASSWORD settings) ||
   match send_mail
           {| subject := "[" ++ Campaign.project_name c
                         ++ "] Personalized follow-up for " ++ full_name lead;
              body_text := message;
              from_email := DEFAULT_FROM_EMAIL settings;
              recipient_list := [CAMPAIGN_EMAIL_OVERRIDE settings] |} with
   | Ok _ => true
   | Raise _ => DEBUG settings
   end).

Lemma dispatch_tables c lead message (s s' : State) (r : result unit) :
  _dispatch_email settings send_mail c lead message s = (s', r) ->
  same_tables s' s /\ clock s' = clock s.
Proof.
  unfold _dispatch_email, Eff.raise, Eff.ret, Eff.modify.
  destruct (is_empty (CAMPAIGN_EMAIL_OVERRIDE settings)).
  - intros H; inversion H; subst. repeat split.
  - destruct (is_empty (EMAIL_HOST_USER settings) || is_empty (EMAIL_HOST_PASSWORD settings)).
    + intros H; inversion H; subst. repeat split.
    + destruct (send_mail _) as [u|e].
      * intros H; inversion H; subst. repeat split.
      * destruct (DEBUG settings); intros H; inversion H; subst; repeat split.
Qed.

Lemma dispatch_ok_run c lead message (s : State) :
  dispatch_ok c lead message = true ->
  exists s', _dispatch_email settings send_mail c lead message s = (s', Ok tt).
Proof.
  unfold dispatch_ok, _dispatch_email, Eff.raise, Eff.ret, Eff.modify.
  destruct (is_empty (CAMPAIGN_EMAIL_OVERRIDE settings)); [discriminate|].
  cbn [negb andb].
  destruct (is_empty (EMAIL_HOST_USER settings) || is_empty (EMAIL_HOST_PASSWORD settings));
    [eauto|].
  cbn [orb]. destruct (send_mail _) as [u|e]; [eauto|].
  destruct (DEBUG settings); [eauto | discriminate].
Qed.

(** The link created for a lead carries the generated message. *)
Definition link_of (c : Campaign.t) (lead : Crm.Lead) (msg : PersonalizedMessage)
    (link : CampaignLead.t) : Prop :=
  CampaignLead.lead_id link = Crm.id lead /\
  CampaignLead.campaign_id link = Campaign.id c /\
  CampaignLead.status link = "sent" /\
  CampaignLead.dispatch_time link <> None /\
  CampaignLead.personalized_message link = body msg.

(** The conversation entry that opens the thread of a link. *)
Definition opening_message (link : CampaignLead.t) (m : ConversationMessage.t) : Prop :=
  ConversationMessage.campaign_lead_id m = CampaignLead.id link /\
  ConversationMessage.sender m = "agent" /\
  ConversationMessage.message m = CampaignLead.personalized_message link.

Lemma create_campaign_lead_run c lead msg (s : State) :
  dispatch_ok c lead (body msg) = true ->
  exists s' link m,
    _create_campaign_lead settings send_mail c lead msg s = (s', Ok link) /\
    campaign_leads s' = (campaign_leads s ++ [link])%list /\
    messages s' = (messages s ++ [m])%list /\
    campaigns s' = campaigns s /\ leads s' = leads s /\
    link_of c lead msg link /\ opening_message link m.
Proof.
  intros Hok.
  unfold _create_campaign_lead, create_campaign_lead_row, create_message_row,
    Eff.bind, Eff.ret, now.
  cbn -[_dispatch_email Orm.next_pk Z.add].
  match goal with
  | |- context [_dispatch_email _ _ _ _ _ ?st] =>
      destruct (dispatch_ok_run c lead (body msg) st Hok) as [s' E];
      rewrite E;
      destruct (dispatch_tables c lead (body msg) st s' (Ok tt) E)
        as [(Hl & Hc & Hcl & Hm) _]
  end.
  cbn in Hl, Hc, Hcl, Hm.
  eexists. eexists. eexists. split; [reflexivity|].
  split; [exact Hcl|]. split; [exact Hm|]. split; [exact Hc|]. split; [exact Hl|].
  split; repeat split. discriminate.
Qed.

(** A lead goes through: its message is generated and its mail step passes. *)
Definition goes_through (c : Campaign.t) (offer : option string) (lead : Crm.Lead) : Prop :=
  exists msg, generate c lead offer = Ok msg /\ dispatch_ok c lead (body msg) = true.

Lemma for_each_lead_run c offer (found : list Crm.Lead) :
  forall s,
    (forall lead, In lead found -> goes_through c offer lead) ->
    exists s' new_links new_messages,
      for_each_lead settings generate send_mail c offer found s = (s', Ok tt) /\
      campaign_leads s' = (campaign_leads s ++ new_links)%list /\
      messages s' = (messages s ++ new_messages)%list /\
      campaigns s' = campaigns s /\ leads s' = leads s /\
      Forall2 (fun lead link =>
                 exists msg, generate c lead offer = Ok msg /\ link_of c lead msg link)
              found new_links /\
      Forall2 opening_message new_links new_messages.
Proof.
  induction found as [|lead rest IH]; intros s Hall.
  - exists s, [], []. cbn [for_each_lead]. unfold Eff.ret.
    rewrite !app_nil_r. repeat split; constructor.
  - destruct (Hall lead (or_introl eq_refl)) as (msg & Hgen & Hok).
    destruct (create_campaign_lead_run c lead msg s Hok)
      as (s1 & link & m & Hrun & Hcl & Hm & Hc & Hl & Hlink & Hopen).
    destruct (IH s1 (fun l Hin => Hall l (or_intror Hin)))
      as (s' & links & msgs & Hrest & Hcl' & Hm' & Hc' & Hl' & Hlinks & Hmsgs).
    exists s', (link :: links), (m :: msgs).
    cbn [for_each_lead]. unfold Eff.bind, Eff.lift. rewrite Hgen, Hrun, Hrest.
    split; [reflexivity|].
    split; [rewrite Hcl', Hcl, <- app_assoc; reflexivity|].
    split; [rewrite Hm', Hm, <- app_assoc; reflexivity|].
    split; [congruence|]. split; [congruence|].
    split; constructor; eauto.
Qed.

(** C7 (amended): [create_campaign] raises [ValidationError] and leaves
    the tables as they were when [lead_ids] is empty or names a key without
    a lead; whenever it raises, whatever the cause, the tables are left as
    they were; and when every requested key has a lead and, for each of
    these leads, message generation and the e-mail step raise nothing, it
    creates one campaign, one link per lead with status "sent", a dispatch
    time and the generated message, and one agent conversation entry per
    link carrying the same message. *)
Theorem create_campaign_outcomes (user : Z) (payload : CampaignCreateRequest)
    (s : State) :
  let run := create_campaign settings generate send_mail user payload in
  let found := leads_with_ids (lead_ids payload) (leads s) in
  (lead_ids payload = [] \/
   (exists i, In i (lead_ids payload) /\ forall l, In l (leads s) -> Crm.id l <> i) ->
   exists s' msg, run s = (s', Raise (Exn ValidationError msg)) /\ same_tables s' s) /\
  (forall s' e, run s = (s', Raise e) -> same_tables s' s) /\
  (lead_ids payload <> [] ->
   (forall i, In i (lead_ids payload) -> exists l, In l (leads s) /\ Crm.id l = i) ->
   (forall c lead, In lead found -> goes_through c (offer_details payload) lead) ->
   exists s' c new_links new_messages,
     run s = (s', Ok {| campaign := c |}) /\
     leads s' = leads s /\
     campaigns s' = (campaigns s ++ [c])%list /\
     campaign_leads s' = (campaign_leads s ++ new_links)%list /\
     messages s' = (messages s ++ new_messages)%list /\
     (forall i, In i (lead_ids payload) <-> In i (map Crm.id found)) /\
     Forall2 (fun lead link =>
                exists msg, generate c lead (offer_details payload) = Ok msg /\
                            link_of c lead msg link)
             found new_links /\
     Forall2 opening_message new_links new_messages).
Proof.
  cbv zeta. split; [|split].
  - intros Hbad.
    assert (Hraise : exists s' msg,
              create_campaign settings generate send_mail user payload s
              = (s', Raise (Exn ValidationError msg))).
    { unfold create_campaign, atomic. destruct (lead_ids payload) as [|i0 ids] eqn:Eids.
      - unfold Eff.raise. eauto.
      - destruct Hbad as [Hnil | (i & Hi & Hno)]; [discriminate|].
        unfold Eff.bind, Eff.gets.
        destruct (missing_ids_cons (i0 :: ids) (leads s) i Hi Hno) as (j & rest & E).
        rewrite E. unfold Eff.raise. eauto. }
    destruct Hraise as (s' & msg & Hrun). exists s', msg. split; [exact Hrun|].
    exact (atomic_raise_tables _ s s' _ Hrun).
  - intros s' e Hrun. exact (atomic_raise_tables _ s s' e Hrun).
  - intros Hne Hall Hgo.
    unfold create_campaign.
    destruct (lead_ids payload) as [|i0 ids] eqn:Eids; [congruence|].
    destruct (for_each_lead_run
                {| Campaign.id := Orm.next_pk Campaign.t Campaign.id (campaigns s);
                   Campaign.name := name payload;
                   Campaign.project_name := project_name payload;
                   Campaign.message_channel :=
                     MessageChannel.value (message_channel payload);
                   Campaign.offer_details := str_or (offer_details payload) EmptyString;
                   Campaign.filters := dict_or_empty (filters_snapshot payload);
                   Campaign.created_by := user;
                   Campaign.created_at := clock s;
                   Campaign.updated_at := (clock s + 1)%Z |}
                (offer_details payload) (leads_with_ids (i0 :: ids) (leads s))
                (set_campaigns
                   (campaigns s ++
                    [{| Campaign.id := Orm.next_pk Campaign.t Campaign.id (campaigns s);
                        Campaign.name := name payload;
                        Campaign.project_name := project_name payload;
                        Campaign.message_channel :=
                          MessageChannel.value (message_channel payload);
                        Campaign.offer_details :=
                          str_or (offer_details payload) EmptyString;
                        Campaign.filters := dict_or_empty (filters_snapshot payload);
                        Campaign.created_by := user;
                        Campaign.created_at := clock s;
                        Campaign.updated_at := (clock s + 1)%Z |}])%list
                   {| clock := (clock s + 1 + 1)%Z; leads := leads s;
                      campaigns := campaigns s; campaign_leads := campaign_leads s;
                      messages := messages s; outbox := outbox s |})
                (fun lead Hin => Hgo _ lead Hin))
      as (s' & links & msgs & Hloop & Hcl & Hm & Hc & Hl & Hlinks & Hmsgs).
    eexists s', _, links, msgs.
    split.
    + apply atomic_ok. unfold Eff.bind, Eff.gets.
      rewrite (missing_ids_nil (i0 :: ids) (leads s) Hall).
      unfold create_campaign_row, Eff.bind, now.
      cbn -[for_each_lead Orm.next_pk Z.add set_campaigns].
      rewrite Hloop. reflexivity.
    + split; [exact Hl|]. split; [exact Hc|]. split; [exact Hcl|].
      split; [exact Hm|]. split; [|split; assumption].
      intros i. rewrite in_map_iff. split.
      * intros Hi. destruct (Hall i Hi) as (l & Hin & E). exists l.
        split; [exact E|]. apply in_leads_with_ids. split; [exact Hin|].
        rewrite E. exact Hi.
      * intros (l & E & Hin). apply in_leads_with_ids in Hin.
        rewrite <- E. apply Hin.
Qed.

End Service.

Definition demo_payload : CampaignCreateRequest :=
  {| name := "Nurturing Campaign 1"; project_name := "Altura";
     message_channel := MessageChannel.EMAIL;
     offer_details := Some "Zero processing fee this month";
     lead_ids := [2%Z]; filters_snapshot := None |}.

Definition demo_state : State :=
  {| clock := 100%Z; leads := CrmFacts.sample_leads; campaigns := [];
     campaign_leads := []; messages := []; outbox := [] |}.

Definition demo_generate (c : Campaign.t) (lead : Crm.Lead) (offer : option string)
  : result PersonalizedMessage :=
  Ok {| body := "Hi " ++ Crm.first_name lead ++ ", revisiting "
                ++ Campaign.project_name c ++ "." ++ str_or offer EmptyString;
        sources := ["stub"]; context_snippet := "amenities, location, pricing" |}.

Definition demo_send_mail (mail : Email) : result unit := Ok tt.

Definition settings_with_recipient (recipient : string) : Settings :=
  {| CAMPAIGN_EMAIL_OVERRIDE := recipient; EMAIL_HOST_USER := "mailer";
     EMAIL_HOST_PASSWORD := "secret"; DEFAULT_FROM_EMAIL := "crm@example.com";
     DEBUG := false |}.

(** C7 as stated fails: with a valid, non-empty [lead_ids] the call still
    raises, and creates nothing, when [CAMPAIGN_EMAIL_OVERRIDE] is not set. *)
Lemma create_campaign_needs_recipient :
  let run := create_campaign (settings_with_recipient EmptyString)
               demo_generate demo_send_mail 7 demo_payload demo_state in
  lead_ids demo_payload <> [] /\
  (forall i, In i (lead_ids demo_payload) ->
     exists l, In l (leads demo_state) /\ Crm.id l = i) /\
  snd run = Raise (Exn ImproperlyConfigured
    "CAMPAIGN_EMAIL_OVERRIDE must be set to route nurture emails to your test inbox.") /\
  campaigns (fst run) = [] /\ campaign_leads (fst run) = [] /\
  messages (fst run) = [].
Proof.
  cbv zeta. split; [discriminate|]. split.
  - intros i [<-|[]]. eexists. split; [right; left; reflexivity | reflexivity].
  - repeat split; reflexivity.
Qed.

Lemma create_campaign_outcomes_witness :
  exists s' c link m,
    create_campaign (settings_with_recipient "inbox@example.com")
      demo_generate demo_send_mail 7 demo_payload demo_state
    = (s', Ok {| campaign := c |}) /\
    campaigns s' = [c] /\ campaign_leads s' = [link] /\ messages s' = [m] /\
    CampaignLead.status link = "sent" /\
    ConversationMessage.message m = CampaignLead.personalized_message link.
Proof.
  destruct (proj2 (proj2 (create_campaign_outcomes
              (settings_with_recipient "inbox@example.com")
              demo_generate demo_send_mail 7 demo_payload demo_state)))
    as (s' & c & links & msgs & Hrun & _ & Hc & Hcl & Hm & _ & Hlinks & Hmsgs).
  - discriminate.
  - intros i [<-|[]]. eexists. split; [right; left; reflexivity | reflexivity].
  - intros c lead _. eexists. split; reflexivity.
  - change (leads_with_ids (lead_ids demo_payload) (leads demo_state))
      with [CrmFacts.sample_lead 2 (Some 500000%Q) (Some 800000%Q)] in Hlinks.
    inversion Hlinks as [|lead link rest links' Hlink Hrest]; subst.
    inversion Hrest; subst.
    inversion Hmsgs as [|link' m rest' msgs' Hopen Hrest']; subst.
    inversion Hrest'; subst.
    exists s', c, link, m.
    destruct Hlink as (msg & _ & _ & _ & Hsent & _).
    destruct Hopen as (_ & _ & Hbody).
    repeat split; assumption.
Defined.

End CampaignServiceFacts.



(** ** LeadNurtureAgent.run *)

Module AgentFacts.
Import T2SQL Agent.

Section Graph.
Variable llm : string -> result string.
Variable t2sql_answer : string -> result TextToSQLResult.
Variable get_documents : string -> string -> result Rag.RetrievalResult.
Variable rag_prompt : Crm.Lead -> Campaign.t -> string -> string -> string.
Variable leads : list Crm.Lead.
Variable campaigns : list Campaign.t.

Definition sql_response (q : string) (res : TextToSQLResult) : Dict :=
  [ ("route", OStr "t2sql"); ("sql", OStr (sql res)); ("rows", ORows (rows res));
    ("explanation", OStr (explanation res));
    ("message", OStr (Formatter.format q res)) ].

Definition only_response (d : Dict) : AgentState :=
  {| query := None; lead_id := None; campaign_id := None; route := None;
     response := Some d |}.

Lemma fetch_trace {Row} (pk : Row -> Z) (table : list Row) v (tr tr' : list event) r :
  fetch pk table v tr = (tr', r) -> tr' = tr.
Proof.
  unfold fetch, Eff.bind, Eff.lift, Eff.ret.
  destruct (get_truthy v); [destruct (Orm.get Row pk z table)|];
    intros H; inversion H; reflexivity.
Qed.

(** The SQL node either raises, having called at most the SQL backend, or
    returns the five-key response after calling it once. *)
Lemma answer_sql_cases (state : AgentState) (tr : list event) :
  (exists e tr', _answer_sql t2sql_answer leads campaigns state tr = (tr', Raise e) /\
                 (tr' = tr \/
                  exists q, query state = Some q /\
                            tr' = (tr ++ [CallTextToSQL q])%list)) \/
  (exists q res, query state = Some q /\ t2sql_answer q = Ok res /\
     _answer_sql t2sql_answer leads campaigns state tr
     = ((tr ++ [CallTextToSQL q])%list, Ok (only_response (sql_response q res)))).
Proof.
  remember (_answer_sql t2sql_answer leads campaigns state tr) as out eqn:Hout.
  unfold _answer_sql in Hout. unfold Eff.bind at 1 in Hout.
  destruct (fetch Crm.id leads (lead_id state) tr) as [tr1 [lead|e]] eqn:E1;
    apply fetch_trace in E1; subst tr1; [|left; eauto].
  unfold Eff.bind at 1 in Hout.
  destruct (fetch Campaign.id campaigns (campaign_id state) tr) as [tr2 [c|e]] eqn:E2;
    apply fetch_trace in E2; subst tr2; [|left; eauto].
  unfold item, emit, Eff.bind, Eff.modify, Eff.lift, Eff.ret, Eff.raise in Hout.
  destruct (query state) as [q|]; [|left; eauto].
  destruct (t2sql_answer q) as [res|e] eqn:E3.
  - right. exists q, res.
    split; [reflexivity|]. split; [first [reflexivity | exact E3] | exact Hout].
  - left. exists e. eexists. split; [exact Hout|]. right. eauto.
Qed.

Definition rag_response (a : DocumentAnswer) : Dict :=
  [ ("route", OStr "rag"); ("answer", OStr (answer a));
    ("sources", OStrList (sources a)) ].

(** The document node either raises, having called at most the retrieval
    backend, or returns the three-key response after calling it once. *)
Lemma answer_rag_cases (state : AgentState) (tr : list event) :
  (exists e tr', _answer_rag llm get_documents rag_prompt leads campaigns state tr
                 = (tr', Raise e) /\
                 (tr' = tr \/
                  exists p q, query state = Some q /\
                              tr' = (tr ++ [CallRetrieval p q])%list)) \/
  (exists q p a,
     query state = Some q /\
     _answer_rag llm get_documents rag_prompt leads campaigns state tr
     = ((tr ++ [CallRetrieval p q])%list, Ok (only_response (rag_response a)))).
Proof.
  remember (_answer_rag llm get_documents rag_prompt leads campaigns state tr)
    as out eqn:Hout.
  unfold _answer_rag in Hout. unfold Eff.bind at 1 in Hout.
  destruct (fetch Crm.id leads (lead_id state) tr) as [tr1 [lead|e]] eqn:E1;
    apply fetch_trace in E1; subst tr1; [|left; eauto].
  unfold Eff.bind at 1 in Hout.
  destruct (fetch Campaign.id campaigns (campaign_id state) tr) as [tr2 [c|e]] eqn:E2;
    apply fetch_trace in E2; subst tr2; [|left; eauto].
  destruct lead as [lead|]; [|left; unfold Eff.raise in Hout; eauto].
  destruct c as [c|]; [|left; unfold Eff.raise in Hout; eauto].
  unfold rag_tool_answer, item, emit, Eff.bind, Eff.modify, Eff.lift, Eff.ret,
    Eff.raise in Hout.
  destruct (query state) as [q|]; [|left; eauto].
  destruct (get_documents (Campaign.project_name c) q) as [retrieval|e].
  - destruct (llm _) as [reply|e].
    + right. exists q, (Campaign.project_name c). eexists.
      split; [reflexivity|]. exact Hout.
    + left. exists e. eexists. split; [exact Hout|]. right. eauto.
  - left. exists e. eexists. split; [exact Hout|]. right. eauto.
Qed.

(** The state the answer node receives: the input over the saved state,
    with the route written by the router. *)
Definition routed (saved : AgentState) (q : string) (cl : CampaignLead.t) (d : string)
  : AgentState :=
  merge {| query := None; lead_id := None; campaign_id := None;
           route := Some d; response := None |}
        (merge {| query := Some q;
                  lead_id := Some (Some (CampaignLead.lead_id cl));
                  campaign_id := Some (Some (CampaignLead.campaign_id cl));
                  route := None; response := None |} saved).

Definition finish (st : AgentState) (node_out : list event * result AgentState)
  : list event * result Dict :=
  match node_out with
  | (tr, Ok update) => item "response" (response (merge update st)) tr
  | (tr, Raise e) => (tr, Raise e)
  end.

Lemma run_t2sql saved q cl tr :
  Router.decide llm q = "t2sql" ->
  run llm t2sql_answer get_documents rag_prompt leads campaigns saved q cl tr =
  finish (routed saved q cl "t2sql")
         (_answer_sql t2sql_answer leads campaigns (routed saved q cl "t2sql") tr).
Proof.
  intros E. unfold run, invoke, recursion_limit, finish, routed.
  cbn [run_graph run_node next_node].
  unfold _route, _next_step, item, Eff.bind, Eff.ret.
  cbn -[Router.decide _answer_sql _answer_rag]. rewrite E.
  cbn -[Router.decide _answer_sql _answer_rag].
  destruct (_answer_sql _ _ _ _ _) as [tr' [u|e]]; reflexivity.
Qed.

Lemma run_rag saved q cl tr :
  Router.decide llm q = "rag" ->
  run llm t2sql_answer get_documents rag_prompt leads campaigns saved q cl tr =
  finish (routed saved q cl "rag")
         (_answer_rag llm get_documents rag_prompt leads campaigns
                      (routed saved q cl "rag") tr).
Proof.
  intros E. unfold run, invoke, recursion_limit, finish, routed.
  cbn [run_graph run_node next_node].
  unfold _route, _next_step, item, Eff.bind, Eff.ret.
  cbn -[Router.decide _answer_sql _answer_rag]. rewrite E.
  cbn -[Router.decide _answer_sql _answer_rag].
  destruct (_answer_rag _ _ _ _ _ _ _) as [tr' [u|e]]; reflexivity.
Qed.

(** Every run takes one of four shapes. *)
Inductive run_shape (q : string) : string -> list event * result Dict -> Prop :=
| sql_raised e tr :
    tr = [] \/ tr = [CallTextToSQL q] ->
    run_shape q "t2sql" (tr, Raise e)
| sql_answered res :
    t2sql_answer q = Ok res ->
    run_shape q "t2sql" ([CallTextToSQL q], Ok (sql_response q res))
| rag_raised e tr :
    tr = [] \/ (exists p, tr = [CallRetrieval p q]) ->
    run_shape q "rag" (tr, Raise e)
| rag_answered p a :
    run_shape q "rag" ([CallRetrieval p q], Ok (rag_response a)).

Lemma run_has_shape saved q cl :
  run_shape q (Router.decide llm q)
    (run llm t2sql_answer get_documents rag_prompt leads campaigns saved q cl []).
Proof.
  destruct (RouterFacts.decide_route_cases llm q) as [E|E]; rewrite E.
  - rewrite (run_t2sql saved q cl [] E).
    destruct (answer_sql_cases (routed saved q cl "t2sql") [])
      as [(e & tr' & Hrun & Htr) | (q' & res & Hq & Hres & Hrun)];
      rewrite Hrun; cbn [finish].
    + apply sql_raised. destruct Htr as [->|(q' & Hq & ->)]; [left; reflexivity|].
      right. cbn in Hq. inversion Hq. reflexivity.
    + cbn in Hq. inversion Hq; subst q'. cbn. apply sql_answered. exact Hres.
  - rewrite (run_rag saved q cl [] E).
    destruct (answer_rag_cases (routed saved q cl "rag") [])
      as [(e & tr' & Hrun & Htr) | (q' & p & a & Hq & Hrun)];
      rewrite Hrun; cbn [finish].
    + apply rag_raised. destruct Htr as [->|(p & q' & Hq & ->)]; [left; reflexivity|].
      right. exists p. cbn in Hq. inversion Hq. reflexivity.
    + cbn in Hq. inversion Hq; subst q'. cbn. apply rag_answered.
Qed.

Lemma fetch_found {Row} (pk : Row -> Z) (table : list Row) (key : Z) (tr : list event) :
  key <> 0%Z -> (exists r, In r table /\ pk r = key) ->
  exists r, fetch pk table (Some (Some key)) tr = (tr, Ok (Some r)).
Proof.
  intros Hkey (r & Hin & Hpk). unfold fetch, get_truthy.
  destruct (key =? 0)%Z eqn:E; [apply Z.eqb_eq in E; contradiction|].
  unfold Orm.get, Eff.bind, Eff.lift, Eff.ret.
  destruct (find (fun r0 => (pk r0 =? key)%Z) table) as [r0|] eqn:F; [eauto|].
  exfalso. pose proof (find_none _ _ F r Hin) as N. cbn in N.
  rewrite Hpk, Z.eqb_refl in N. discriminate.
Qed.

(** The record keys of the link are in the tables and not zero, and the
    services answer. *)
Definition run_can_answer (cl : CampaignLead.t) : Prop :=
  CampaignLead.lead_id cl <> 0%Z /\ CampaignLead.campaign_id cl <> 0%Z /\
  (exists lead, In lead leads /\ Crm.id lead = CampaignLead.lead_id cl) /\
  (exists c, In c campaigns /\ Campaign.id c = CampaignLead.campaign_id cl) /\
  (forall x, is_ok (t2sql_answer x) = true) /\
  (forall p x, is_ok (get_documents p x) = true) /\
  (forall p, is_ok (llm p) = true).

Lemma run_returns saved q cl :
  run_can_answer cl ->
  exists resp,
    snd (run llm t2sql_answer get_documents rag_prompt leads campaigns saved q cl [])
    = Ok resp.
Proof.
  intros (Hl0 & Hc0 & Hlead & Hcamp & Hsql & Hdocs & Hllm).
  destruct (fetch_found Crm.id leads _ [] Hl0 Hlead) as [lead Flead].
  destruct (fetch_found Campaign.id campaigns _ [] Hc0 Hcamp) as [c Fcamp].
  destruct (RouterFacts.decide_route_cases llm q) as [E|E].
  - rewrite (run_t2sql saved q cl [] E).
    unfold _answer_sql, routed. cbn [merge over lead_id campaign_id query].
    unfold Eff.bind at 1. rewrite Flead. unfold Eff.bind at 1. rewrite Fcamp.
    unfold item, emit, Eff.bind, Eff.modify, Eff.lift, Eff.ret.
    specialize (Hsql q). destruct (t2sql_answer q) as [res|e]; [|discriminate].
    cbn. eauto.
  - rewrite (run_rag saved q cl [] E).
    unfold _answer_rag, routed. cbn [merge over lead_id campaign_id query].
    unfold Eff.bind at 1. rewrite Flead. unfold Eff.bind at 1. rewrite Fcamp.
    unfold rag_tool_answer, item, emit, Eff.bind, Eff.modify, Eff.lift, Eff.ret.
    specialize (Hdocs (Campaign.project_name c) q).
    destruct (get_documents (Campaign.project_name c) q) as [docs|e]; [|discriminate].
    match goal with
    | |- context [llm ?p] => specialize (Hllm p); destruct (llm p); [|discriminate]
    end.
    cbn. eauto.
Qed.

(** C3: the response [run] returns carries the router's decision in its
    "route" field; it has exactly the keys route, sql, rows, explanation,
    message when the decision is "t2sql", the Text-to-SQL service having
    been called once and the retrieval service not at all, and exactly the
    keys route, answer, sources when the decision is "rag", the retrieval
    service having been called once and the Text-to-SQL service not at all;
    no run, returning or raising, calls both services; and when the link's
    lead and campaign exist and the services answer, [run] does return a
    response. *)
Theorem run_answers_on_one_route saved q (cl : CampaignLead.t) :
  let out := run llm t2sql_answer get_documents rag_prompt leads campaigns
                 saved q cl [] in
  let decision := Router.decide llm q in
  existsb is_t2sql_call (fst out) && existsb is_retrieval_call (fst out) = false /\
  (forall resp, snd out = Ok resp ->
     lookup "route" resp = Some (OStr decision) /\
     (decision = "t2sql" ->
      keys resp = ["route"; "sql"; "rows"; "explanation"; "message"] /\
      fst out = [CallTextToSQL q]) /\
     (decision = "rag" ->
      keys resp = ["route"; "answer"; "sources"] /\
      exists p, fst out = [CallRetrieval p q])) /\
  (run_can_answer cl -> exists resp, snd out = Ok resp).
Proof.
  cbv zeta. split; [|split].
  - destruct (run_has_shape saved q cl) as [e tr [->| ->] | res _
                                           | e tr [->|(p & ->)] | p a];
      reflexivity.
  - intros resp Hresp.
    destruct (run_has_shape saved q cl) as [e tr _ | res _ | e tr _ | p a];
      cbn [snd fst] in *; try discriminate; inversion Hresp; subst resp.
    + split; [reflexivity|]. split; [intros _; split; reflexivity | discriminate].
    + split; [reflexivity|]. split; [discriminate|].
      intros _. split; [reflexivity | eauto].
  - apply run_returns.
Qed.

End Graph.

Definition demo_llm (prompt : string) : result string :=
  if contains "how many" (lower prompt) then Ok "T2SQL" else Ok "RAG".

Definition demo_t2sql (question : string) : result TextToSQLResult :=
  Ok {| sql := "SELECT COUNT(*) as lead_count FROM crm_lead";
        rows := [[("lead_count", VInt 7)]];
        explanation := "Counts the number of leads." |}.

Definition demo_documents (project_name question : string)
  : result Rag.RetrievalResult :=
  Ok {| Rag.documents :=
          [{| Rag.page_content := "Infinity pool and skyline views.";
              Rag.metadata := [("source", "altura.pdf")] |}] |}.

Definition demo_prompt (lead : Crm.Lead) (c : Campaign.t) (question context : string)
  : string :=
  "Answer for " ++ Crm.first_name lead ++ ": " ++ question ++ nl ++ context.

Definition demo_campaigns : list Campaign.t :=
  [{| Campaign.id := 1; Campaign.name := "Test Campaign";
      Campaign.project_name := "Altura"; Campaign.message_channel := "email";
      Campaign.offer_details := EmptyString; Campaign.filters := [];
      Campaign.created_by := 1; Campaign.created_at := 0%Z;
      Campaign.updated_at := 0%Z |}].

Lemma run_answers_on_one_route_witness :
  exists resp,
    snd (run demo_llm demo_t2sql demo_documents demo_prompt
             CrmFacts.sample_leads demo_campaigns empty_state
             "How many leads have status connected?"
             (CampaignLeadFacts.sample_link 2 "sent") [])
    = Ok resp /\
    keys resp = ["route"; "sql"; "rows"; "explanation"; "message"].
Proof.
  pose proof (run_answers_on_one_route demo_llm demo_t2sql demo_documents demo_prompt
                CrmFacts.sample_leads demo_campaigns empty_state
                "How many leads have status connected?"
                (CampaignLeadFacts.sample_link 2 "sent")) as H.
  cbv zeta in H. destruct H as (_ & Hresp & Hret).
  destruct Hret as [resp Hr].
  - split; [discriminate|]. split; [discriminate|].
    split; [eexists; split; [right; left; reflexivity | reflexivity]|].
    split; [eexists; split; [left; reflexivity | reflexivity]|].
    split; [reflexivity|]. split; [reflexivity|].
    intros p. unfold demo_llm. destruct (contains _ _); reflexivity.
  - exists resp. split; [exact Hr|].
    apply (Hresp resp Hr). reflexivity.
Defined.

End AgentFacts.



(** ** Tables: keys and updates *)

Module OrmFacts.

Section Table.
Variable Row : Type.
Variable pk : Row -> Z.

Lemma next_pk_fresh (table : list Row) (r : Row) :
  In r table -> (pk r < Orm.next_pk Row pk table)%Z.
Proof.
  unfold Orm.next_pk. induction table as [|x table IH]; intros H; [destruct H|].
  cbn [fold_right]. destruct H as [->|H]; [lia|].
  specialize (IH H). lia.
Qed.

Lemma update_keeps_others (key : Z) (f : Row -> Row) (table : list Row) (r : Row) :
  In r table -> pk r <> key -> In r (Orm.update Row pk key f table).
Proof.
  intros Hin Hne. unfold Orm.update. apply in_map_iff. exists r.
  split; [|exact Hin]. apply Z.eqb_neq in Hne. rewrite Hne. reflexivity.
Qed.

Lemma update_hits (key : Z) (f : Row -> Row) (table : list Row) (r : Row) :
  In r table -> pk r = key -> In (f r) (Orm.update Row pk key f table).
Proof.
  intros Hin He. unfold Orm.update. apply in_map_iff. exists r.
  split; [|exact Hin]. rewrite He, Z.eqb_refl. reflexivity.
Qed.

Lemma exists_pk_last (table : list Row) (r : Row) :
  Orm.exists_pk Row pk (pk r) (table ++ [r]) = true.
Proof.
  unfold Orm.exists_pk. rewrite existsb_app. cbn. rewrite Z.eqb_refl.
  rewrite orb_true_r. reflexivity.
Qed.

Lemma get_some (key : Z) (table : list Row) (r : Row) :
  Orm.get Row pk key table = Ok r -> In r table /\ pk r = key.
Proof.
  unfold Orm.get. destruct (find _ table) as [x|] eqn:F; [|discriminate].
  intros H. inversion H; subst. apply find_some in F. destruct F as [Hin He].
  split; [exact Hin | apply Z.eqb_eq; exact He].
Qed.

End Table.

End OrmFacts.


(** ** DocumentIngestionService.ingest and the upload endpoint *)

Module IngestionFacts.
Import Rag Ingestion.

Section Service.
Variable guess_type : string -> option string.
Variable storage_path : string -> string.
Variable pdf_loader : string -> result (list Document).
Variable text_loader : string -> result (list Document).
Variable split_documents : list Document -> result (list Document).
Variable store_fault : store_op -> option exn.
Variable storage_save : string -> string -> result string.
Variable read_file : string -> result string.
Variable sha256 : string -> string.

Definition ingest_try_ : BrochureDocument -> option string -> M IngestionOutcome :=
  Ingestion.ingest_try storage_path pdf_loader text_loader split_documents
    store_fault read_file sha256.

Definition ingest_ : BrochureDocument -> M IngestionOutcome :=
  Ingestion.ingest guess_type storage_path pdf_loader text_loader split_documents
    store_fault read_file sha256.

(** The brochure's row, and only it, carries a new indexing time. *)
Definition marked_indexed (b : BrochureDocument) (before after : list BrochureDocument)
  : Prop :=
  Orm.exists_pk BrochureDocument id (id b) before = true /\
  exists t,
    after = Orm.update BrochureDocument id (id b)
              (set_last_indexed_at (Some t)) before.

(** What the vector store holds after [chunks] were indexed for [b]. *)
Definition reindexed (b : BrochureDocument) (chunks : list Document)
    (before after : list (string * Document)) : Prop :=
  exists kept,
    after = (kept ++ map (fun c => (_collection_name (project_name b), c)) chunks)%list /\
    incl kept before.

Lemma str_of_Z_inj (a b : Z) : str_of_Z a = str_of_Z b -> a = b.
Proof.
  unfold str_of_Z. intros H. apply DecimalZ.to_int_inj.
  assert (Hn : forall z, Z.to_int z <> Decimal.Pos Decimal.Nil /\
                         Z.to_int z <> Decimal.Neg Decimal.Nil).
  { intros [|p|p]; cbn; split; try discriminate;
      intros E; inversion E as [E'];
      exact (DecimalPos.Unsigned.to_uint_nonnil p E'). }
  destruct (Hn a) as [Ha1 Ha2]. destruct (Hn b) as [Hb1 Hb2].
  pose proof (NilZero.isi (Z.to_int a) Ha1 Ha2) as Ia.
  pose proof (NilZero.isi (Z.to_int b) Hb1 Hb2) as Ib.
  rewrite H in Ia. rewrite Ia in Ib. inversion Ib. reflexivity.
Qed.

Lemma dict_get_set_same (key value default : string) (d : list (string * string)) :
  dict_get key default (dict_set key value d) = value.
Proof.
  induction d as [|[k v] d IH]; cbn.
  - rewrite String.eqb_refl. reflexivity.
  - destruct (String.eqb k key) eqn:E; cbn; rewrite E; [reflexivity | exact IH].
Qed.

Lemma dict_get_set_other (key key' value default : string) (d : list (string * string)) :
  key' <> key ->
  dict_get key default (dict_set key' value d) = dict_get key default d.
Proof.
  intros Hne. induction d as [|[k v] d IH]; cbn.
  - apply String.eqb_neq in Hne. rewrite Hne. reflexivity.
  - destruct (String.eqb k key') eqn:E; cbn.
    + apply String.eqb_eq in E. subst k. apply String.eqb_neq in Hne.
      rewrite Hne. reflexivity.
    + rewrite IH. reflexivity.
Qed.

Lemma annotate_document_id (b : BrochureDocument) (idx : nat) (chunk : Document) :
  dict_get "document_id" EmptyString (Rag.metadata (annotate b idx chunk))
  = str_of_Z (id b).
Proof.
  unfold annotate. cbn [Rag.metadata].
  rewrite !dict_get_set_other by discriminate.
  apply dict_get_set_same.
Qed.

Lemma annotate_all_document_id (b : BrochureDocument) (chunks : list Document) :
  forall idx c, In c (annotate_all b idx chunks) ->
    dict_get "document_id" EmptyString (Rag.metadata c) = str_of_Z (id b).
Proof.
  induction chunks as [|x chunks IH]; intros idx c H; [destruct H|].
  cbn [annotate_all] in H. destruct H as [<-|H].
  - apply annotate_document_id.
  - exact (IH _ _ H).
Qed.

(** Deleting and adding the chunks of one brochure keeps what the store
    holds for the others. *)
Definition others_kept (b : BrochureDocument) (before after : list (string * Document))
  : Prop :=
  forall entry,
    In entry before ->
    dict_get "document_id" EmptyString (Rag.metadata (snd entry)) <> str_of_Z (id b) ->
    In entry after.

Lemma kept_by_delete (collection document_id : string) (entry : string * Document)
    (store : list (string * Document)) :
  In entry store ->
  dict_get "document_id" EmptyString (Rag.metadata (snd entry)) <> document_id ->
  In entry
     (filter (fun entry =>
                negb (String.eqb (fst entry) collection
                      && String.eqb (dict_get "document_id" EmptyString
                                       (Rag.metadata (snd entry)))
                                    document_id))
             store).
Proof.
  intros Hin Hne. apply filter_In. split; [exact Hin|].
  apply String.eqb_neq in Hne. rewrite Hne, andb_false_r. reflexivity.
Qed.

Ltac keep_others :=
  intros entry Hin Hne; cbn [vectors];
  repeat first
    [ exact Hin
    | apply in_or_app; left
    | apply kept_by_delete; [|exact Hne] ].

Ltac raised H :=
  left; eexists; eexists; split; [exact H|];
  split; [reflexivity|]; split; [reflexivity | keep_others].

Lemma ingest_try_cases (b : BrochureDocument) (ct : option string) (s : State) :
  (exists s1 e, ingest_try_ b ct s = (s1, Raise e) /\
                brochures s1 = brochures s /\ logs s1 = logs s /\
                others_kept b (vectors s) (vectors s1)) \/
  (exists s1 chunks log,
     ingest_try_ b ct s =
       (s1, Ok {| outcome_chunks_indexed := List.length chunks;
                  outcome_collection_name := _collection_name (project_name b) |}) /\
     logs s1 = (logs s ++ [log])%list /\
     document_id log = id b /\ status log = "completed" /\
     chunks_indexed log = List.length chunks /\
     marked_indexed b (brochures s) (brochures s1) /\
     reindexed b chunks (vectors s) (vectors s1) /\
     others_kept b (vectors s) (vectors s1) /\
     (forall c, In c chunks ->
        dict_get "document_id" EmptyString (Rag.metadata c) = str_of_Z (id b))).
Proof.
  remember (ingest_try_ b ct s) as out eqn:Hout.
  unfold ingest_try_, Ingestion.ingest_try, mark_indexed, save, create_log,
    store_delete, store_add, guard, now, Eff.bind, Eff.lift, Eff.ret, Eff.raise,
    Eff.gets, Eff.modify in Hout.
  destruct (_load_documents _ _ _ _) as [docs|e]; [|raised Hout].
  destruct (split_documents docs) as [chunks|e]; [|raised Hout].
  destruct (store_fault (ForCollection _)) as [e|]; [raised Hout|].
  destruct (store_fault (Delete _ _)) as [e|]; [raised Hout|].
  destruct (store_fault (AddDocuments _ _)) as [e|]; [raised Hout|].
  cbn -[Orm.exists_pk Orm.update Orm.next_pk append str_of_nat str_of_Z
        _collection_name Z.add filter] in Hout.
  destruct (store_fault (Persist _)) as [e|]; [raised Hout|].
  cbn -[Orm.exists_pk Orm.update Orm.next_pk append str_of_nat str_of_Z
        _collection_name Z.add filter] in Hout.
  destruct (negb (is_empty (file b)) && is_empty (checksum b));
    [destruct (read_file _) as [content|e]; [|raised Hout]|];
    cbn -[Orm.exists_pk Orm.update Orm.next_pk append str_of_nat str_of_Z
          _collection_name Z.add filter] in Hout;
    (destruct (Orm.exists_pk BrochureDocument id (id b) (brochures s)) eqn:Hrow;
     cbn -[Orm.exists_pk Orm.update Orm.next_pk append str_of_nat str_of_Z
           _collection_name Z.add filter] in Hout; [|raised Hout]);
    right; eexists; exists (annotate_all b 0 chunks); eexists;
      (split; [exact Hout|]);
      cbn -[Orm.exists_pk Orm.update Orm.next_pk append str_of_nat str_of_Z
            _collection_name Z.add filter];
      (split; [reflexivity|]); repeat (split; [reflexivity|]);
      (split; [split; [exact Hrow | eexists; reflexivity]|]);
      (split; [eexists; (split; [reflexivity|]); apply incl_filter|]);
      (split; [keep_others | apply annotate_all_document_id]).
Qed.

Lemma ingest_unfold (b : BrochureDocument) (s : State) :
  ingest_ b s =
  match ingest_try_ b (guess_type (file b)) s with
  | (s1, Ok outcome) => (s1, Ok outcome)
  | (s1, Raise exc) =>
      ({| clock := (clock s1 + 1)%Z; brochures := brochures s1;
          logs := (logs s1 ++
                   [{| log_id := Orm.next_pk DocumentIngestionLog log_id (logs s1);
                       document_id := id b; status := "failed";
                       detail := exn_msg exc; chunks_indexed := 0;
                       created_at := clock s1 |}])%list;
          vectors := vectors s1 |},
       Raise exc)
  end.
Proof.
  unfold ingest_, Ingestion.ingest, Eff.try_except, ingest_try_.
  destruct (Ingestion.ingest_try _ _ _ _ _ _ _ _ _ _) as [s1 [o|exc]]; reflexivity.
Qed.

(** C5: when [ingest] returns, one log row was added, "completed", with
    [chunks_indexed] the number of chunks put in the vector store, the
    brochure's row carries an indexing time, and the outcome holds that
    number and the collection name of the project; when the [try] block
    raises, one log row was added, "failed" with [chunks_indexed] 0 and the
    exception's text, the brochure table is as before, and the same
    exception leaves [ingest]. *)
Theorem ingest_logs_its_outcome (b : BrochureDocument) (s : State) :
  match ingest_ b s with
  | (s', Ok outcome) =>
      exists chunks log,
        logs s' = (logs s ++ [log])%list /\
        document_id log = id b /\ status log = "completed" /\
        chunks_indexed log = List.length chunks /\
        reindexed b chunks (vectors s) (vectors s') /\
        marked_indexed b (brochures s) (brochures s') /\
        outcome = {| outcome_chunks_indexed := List.length chunks;
                     outcome_collection_name := _collection_name (project_name b) |}
  | (s', Raise exc) =>
      exists s1 log,
        ingest_try_ b (guess_type (file b)) s = (s1, Raise exc) /\
        logs s' = (logs s ++ [log])%list /\
        document_id log = id b /\ status log = "failed" /\
        chunks_indexed log = 0%nat /\ detail log = exn_msg exc /\
        brochures s' = brochures s
  end.
Proof.
  rewrite ingest_unfold.
  destruct (ingest_try_cases b (guess_type (file b)) s)
    as [(s1 & e & Hrun & Hb & Hl & _)
       | (s1 & chunks & log & Hrun & Hl & Hd & Hs & Hc & Hm & Hv & _ & _)];
    rewrite Hrun.
  - exists s1. eexists. split; [reflexivity|]. cbn [logs brochures].
    rewrite Hl, Hb. repeat split.
  - exists chunks, log.
    split; [exact Hl|]. split; [exact Hd|]. split; [exact Hs|]. split; [exact Hc|].
    split; [exact Hv|]. split; [exact Hm | reflexivity].
Qed.

Definition upload_ (user : User) (files : list UploadedFile) (pn : option string)
  : M (list DocumentUploadResponse) :=
  upload_documents guess_type storage_path pdf_loader text_loader split_documents
    store_fault storage_save read_file sha256 user files pn.

Definition process_ (user : User) (pn : option string) (f : UploadedFile)
  : M (BrochureDocument * IngestionOutcome) :=
  store_and_ingest guess_type storage_path pdf_loader text_loader split_documents
    store_fault storage_save read_file sha256 user pn f.

Definition loop_ (user : User) (pn : option string) (files : list UploadedFile)
    (acc : list DocumentUploadResponse) : M (list DocumentUploadResponse) :=
  upload_loop guess_type storage_path pdf_loader text_loader split_documents
    store_fault storage_save read_file sha256 user pn files acc.

(** The files are stored and ingested one after the other, each with success. *)
Inductive processed (user : User) (pn : option string)
  : State -> list UploadedFile -> State -> list DocumentUploadResponse -> Prop :=
| processed_nil s : processed user pn s [] s []
| processed_cons s f rest s1 stored s2 rs :
    process_ user pn f s = (s1, Ok stored) ->
    processed user pn s1 rest s2 rs ->
    processed user pn s (f :: rest) s2 (response_of stored :: rs).

Lemma processed_length user pn s files s' rs :
  processed user pn s files s' rs -> List.length rs = List.length files.
Proof. induction 1; simpl; congruence. Qed.

Lemma loop_step user pn f rest acc s :
  loop_ user pn (f :: rest) acc s =
  match process_ user pn f s with
  | (s1, Ok stored) => loop_ user pn rest (acc ++ [response_of stored]) s1
  | (s1, Raise exc) =>
      (s1, Raise (Exn (HttpError 400)
                    ("Failed to ingest " ++ uf_name f ++ ": " ++ exn_msg exc)))
  end.
Proof.
  unfold loop_, process_. cbn [upload_loop]. unfold Eff.bind, Eff.try_except, Eff.raise.
  destruct (store_and_ingest _ _ _ _ _ _ _ _ _ _ _ _ _) as [s1 [stored|exc]];
    reflexivity.
Qed.

(** The loop returns exactly when every file goes through. *)
Lemma loop_ok user pn files :
  forall acc s s' rs,
    loop_ user pn files acc s = (s', Ok rs) <->
    exists new, rs = (acc ++ new)%list /\ processed user pn s files s' new.
Proof.
  induction files as [|f rest IH]; intros acc s s' rs.
  - unfold loop_. cbn [upload_loop]. unfold Eff.ret. split.
    + intros H. inversion H; subst. exists []. rewrite app_nil_r.
      split; [reflexivity | constructor].
    + intros (new & -> & Hp). inversion Hp; subst. rewrite app_nil_r. reflexivity.
  - rewrite loop_step. split.
    + destruct (process_ user pn f s) as [s1 [stored|exc]] eqn:E; [|discriminate].
      intros H. apply IH in H. destruct H as (new & -> & Hp).
      exists (response_of stored :: new). rewrite <- app_assoc. split; [reflexivity|].
      econstructor; eassumption.
    + intros (new & -> & Hp). inversion Hp as [|? ? ? s1 stored ? rs' Hf Hrest]; subst.
      rewrite Hf. apply IH. exists rs'. rewrite <- app_assoc. split; [reflexivity|].
      exact Hrest.
Qed.

(** The loop raises at the first file that does not go through. *)
Lemma loop_raise user pn files :
  forall acc s s' e,
    loop_ user pn files acc s = (s', Raise e) ->
    exists done f rest s1 rs1 exc,
      files = (done ++ f :: rest)%list /\
      processed user pn s done s1 rs1 /\
      process_ user pn f s1 = (s', Raise exc) /\
      e = Exn (HttpError 400)
              ("Failed to ingest " ++ uf_name f ++ ": " ++ exn_msg exc).
Proof.
  induction files as [|f rest IH]; intros acc s s' e.
  - unfold loop_. cbn [upload_loop]. discriminate.
  - rewrite loop_step.
    destruct (process_ user pn f s) as [s1 [stored|exc]] eqn:E.
    + intros H. apply IH in H.
      destruct H as (done & g & rest' & sa & rs1 & exc & -> & Hp & Hg & ->).
      exists (f :: done), g, rest', sa, (response_of stored :: rs1), exc.
      split; [reflexivity|]. split; [econstructor; eassumption|].
      split; [exact Hg | reflexivity].
    + intros H. inversion H; subst.
      exists [], f, rest, s, [], exc. split; [reflexivity|].
      split; [constructor|]. split; [exact E | reflexivity].
Qed.

Definition store_upload_ (f : UploadedFile) (pn ct : option string) (user : User)
  : M BrochureDocument :=
  store_upload storage_path storage_save read_file sha256 f pn ct user.

Lemma create_brochure_row_run pname oname ctype by_user (s : State) :
  exists row,
    create_brochure_row pname oname ctype by_user s
    = ({| clock := (clock s + 1)%Z; brochures := (brochures s ++ [row])%list;
          logs := logs s; vectors := vectors s |}, Ok row) /\
    id row = Orm.next_pk BrochureDocument id (brochures s) /\
    original_name row = oname /\ last_indexed_at row = None.
Proof. eexists. split; [reflexivity|]. repeat split. Qed.

Definition save_ (full : bool) (self : BrochureDocument) : M BrochureDocument :=
  save storage_path read_file sha256 full self.

Lemma save_full_ok (self r : BrochureDocument) (s s' : State) :
  save_ true self s = (s', Ok r) ->
  id r = id self /\ original_name r = original_name self /\
  last_indexed_at r = last_indexed_at self /\
  logs s' = logs s /\ vectors s' = vectors s /\
  (brochures s' = Orm.update BrochureDocument id (id self) (fun _ => r) (brochures s) \/
   brochures s' = (brochures s ++ [r])%list).
Proof.
  unfold save_, save, Eff.bind, Eff.lift, Eff.ret, Eff.raise, Eff.gets, Eff.modify.
  destruct (negb (is_empty (file self)) && is_empty (checksum self));
    [destruct (read_file _) as [content|e]; [|discriminate]|];
    cbn -[Orm.exists_pk Orm.update];
    destruct (Orm.exists_pk BrochureDocument id (id self) (brochures s));
    cbn -[Orm.update]; intros H; inversion H; subst; cbn -[Orm.update];
    repeat (split; [reflexivity|]); auto.
Qed.

(** A stored upload is a new row named after the file; the rows, logs and
    chunks that were there stay. *)
Lemma store_upload_ok f pn ct user (s s1 : State) (b : BrochureDocument) :
  store_upload_ f pn ct user s = (s1, Ok b) ->
  id b = Orm.next_pk BrochureDocument id (brochures s) /\
  original_name b = basename (uf_name f) /\
  last_indexed_at b = None /\
  In b (brochures s1) /\ incl (brochures s) (brochures s1) /\
  logs s1 = logs s /\ vectors s1 = vectors s.
Proof.
  unfold store_upload_, store_upload, atomic.
  match goal with
  | |- (match ?body s with _ => _ end) = _ -> _ =>
      destruct (body s) as [s' [b'|e]] eqn:Hbody; [|discriminate]
  end.
  intros H. inversion H; subst s' b'. clear H.
  unfold Eff.bind at 1 in Hbody.
  match type of Hbody with
  | context [create_brochure_row ?a ?b ?c ?d s] =>
      destruct (create_brochure_row_run a b c d s) as (row & Hrow & Hid & Hname & Hidx)
  end.
  rewrite Hrow in Hbody. clear Hrow.
  unfold Eff.bind at 1, Eff.lift at 1 in Hbody.
  destruct (storage_save _ _) as [stored|e]; [|discriminate].
  unfold Eff.bind at 1 in Hbody. fold (save_ true (set_file stored row)) in Hbody.
  match type of Hbody with
  | context [save_ true ?self ?st] =>
      destruct (save_ true self st) as [sb [r|e]] eqn:Hsave; [|discriminate]
  end.
  apply save_full_ok in Hsave.
  destruct Hsave as (Hrid & Hrname & Hridx & Hlogs & Hvec & Htable).
  cbn [id original_name last_indexed_at set_file logs vectors brochures] in *.
  unfold Eff.bind, Eff.gets, Eff.lift in Hbody.
  destruct (Orm.get BrochureDocument id (id r) (brochures sb)) as [got|e] eqn:Hget;
    inversion Hbody; subst; clear Hbody.
  apply OrmFacts.get_some in Hget. destruct Hget as [Hin Hgid].
  assert (Hfresh : forall x, In x (brochures s) -> id x <> id row).
  { intros x Hx. pose proof (OrmFacts.next_pk_fresh BrochureDocument id _ x Hx).
    rewrite Hid. lia. }
  assert (Hnew : forall x, In x (brochures s1) -> id x = id row ->
                           original_name x = basename (uf_name f) /\
                           last_indexed_at x = None).
  { intros x Hx Hxid. destruct Htable as [Ht|Ht]; rewrite Ht in Hx.
    - unfold Orm.update in Hx. apply in_map_iff in Hx.
      destruct Hx as (y & Hy & Hyin).
      destruct (id y =? id row)%Z eqn:E.
      + subst x. split; congruence.
      + subst x. apply Z.eqb_neq in E. contradiction.
    - apply in_app_or in Hx. destruct Hx as [Hx|[<-|[]]]; [|split; congruence].
      apply in_app_or in Hx. destruct Hx as [Hx|[<-|[]]]; [|split; congruence].
      exfalso. exact (Hfresh x Hx Hxid). }
  destruct (Hnew b Hin (eq_trans Hgid Hrid)) as [Hbn Hbi].
  split; [congruence|]. split; [exact Hbn|]. split; [exact Hbi|].
  split; [exact Hin|]. split; [|split; assumption].
  intros x Hx. destruct Htable as [Ht|Ht]; rewrite Ht.
  - apply OrmFacts.update_keeps_others; [apply in_or_app; left; exact Hx|].
    apply Hfresh. exact Hx.
  - apply in_or_app. left. apply in_or_app. left. exact Hx.
Qed.

Lemma store_upload_raise f pn ct user (s s1 : State) (e : exn) :
  store_upload_ f pn ct user s = (s1, Raise e) ->
  brochures s1 = brochures s /\ logs s1 = logs s /\ vectors s1 = vectors s.
Proof.
  unfold store_upload_, store_upload, atomic.
  match goal with
  | |- (match ?body s with _ => _ end) = _ -> _ =>
      destruct (body s) as [s' [b'|e']] eqn:Hbody; [discriminate|]
  end.
  intros H. inversion H; subst. clear H. cbn [brochures logs vectors].
  split; [reflexivity|]. split; [reflexivity|].
  unfold Eff.bind at 1 in Hbody.
  match type of Hbody with
  | context [create_brochure_row ?a ?b ?c ?d s] =>
      destruct (create_brochure_row_run a b c d s) as (row & Hrow & _)
  end.
  rewrite Hrow in Hbody. clear Hrow.
  unfold Eff.bind at 1, Eff.lift at 1 in Hbody.
  destruct (storage_save _ _) as [stored|e0]; [|inversion Hbody; reflexivity].
  unfold Eff.bind at 1 in Hbody. fold (save_ true (set_file stored row)) in Hbody.
  match type of Hbody with
  | context [save_ true ?self ?st] =>
      destruct (save_ true self st) as [sb [r|e0]] eqn:Hsave
  end.
  - apply save_full_ok in Hsave. destruct Hsave as (_ & _ & _ & _ & Hvec & _).
    unfold Eff.bind, Eff.gets, Eff.lift in Hbody.
    destruct (Orm.get _ _ _ _); inversion Hbody; subst. exact Hvec.
  - inversion Hbody; subst. clear Hbody.
    unfold save_, save, Eff.bind, Eff.lift, Eff.ret, Eff.raise, Eff.gets, Eff.modify
      in Hsave.
    destruct (negb (is_empty (file _)) && is_empty (checksum _));
      [destruct (read_file _) as [content|e1]; [|inversion Hsave; reflexivity]|];
      cbn -[Orm.exists_pk Orm.update] in Hsave;
      destruct (Orm.exists_pk _ _ _ _); cbn -[Orm.update] in Hsave;
      inversion Hsave; reflexivity.
Qed.

(** What an upload response stands for in the state: the file's row is in
    the brochure table with an indexing time, a "completed" log row counts
    its chunks, and that many chunks carrying its key are in the collection. *)
Definition ingested_as (f : UploadedFile) (resp : DocumentUploadResponse) (s : State)
  : Prop :=
  (exists b, In b (brochures s) /\ id b = r_document_id resp /\
             original_name b = basename (uf_name f) /\
             last_indexed_at b <> None) /\
  (exists log, In log (logs s) /\ document_id log = r_document_id resp /\
               status log = "completed" /\
               chunks_indexed log = r_chunks_indexed resp) /\
  (exists chunks,
     List.length chunks = r_chunks_indexed resp /\
     forall c, In c chunks ->
       In (r_collection_name resp, c) (vectors s) /\
       dict_get "document_id" EmptyString (Rag.metadata c)
       = str_of_Z (r_document_id resp)).

(** What one call of [ingest] does to the rest of the state, and what it
    leaves behind when it returns. *)
Lemma ingest_effect (b : BrochureDocument) (s s' : State) (r : result IngestionOutcome) :
  ingest_ b s = (s', r) ->
  incl (logs s) (logs s') /\
  others_kept b (vectors s) (vectors s') /\
  (forall row, In row (brochures s) -> id row <> id b -> In row (brochures s')) /\
  (forall o, r = Ok o ->
     exists chunks log t,
       o = {| outcome_chunks_indexed := List.length chunks;
              outcome_collection_name := _collection_name (project_name b) |} /\
       In log (logs s') /\ document_id log = id b /\ status log = "completed" /\
       chunks_indexed log = List.length chunks /\
       (forall row, In row (brochures s) -> id row = id b ->
                    In (set_last_indexed_at (Some t) row) (brochures s')) /\
       (forall c, In c chunks ->
          In (_collection_name (project_name b), c) (vectors s') /\
          dict_get "document_id" EmptyString (Rag.metadata c) = str_of_Z (id b))).
Proof.
  rewrite ingest_unfold.
  destruct (ingest_try_cases b (guess_type (file b)) s)
    as [(s1 & e & Hrun & Hb & Hl & Hk)
       | (s1 & chunks & log & Hrun & Hl & Hd & Hs & Hc & Hm & Hv & Hk & Hids)];
    rewrite Hrun; intros H; inversion H; subst; clear H.
  - cbn [logs brochures vectors]. rewrite Hl, Hb.
    split; [intros x Hx; apply in_or_app; left; exact Hx|].
    split; [exact Hk|]. split; [auto | discriminate].
  - destruct Hm as [Hrow [t Ht]]. destruct Hv as (kept & Hvec & _).
    split; [rewrite Hl; intros x Hx; apply in_or_app; left; exact Hx|].
    split; [exact Hk|]. split.
    + intros row Hin Hne. rewrite Ht.
      apply OrmFacts.update_keeps_others; assumption.
    + intros o Ho. inversion Ho; subst o. clear Ho.
      exists chunks, log, t. split; [reflexivity|].
      split; [rewrite Hl; apply in_or_app; right; left; reflexivity|].
      split; [exact Hd|]. split; [exact Hs|]. split; [exact Hc|]. split.
      * intros row Hin He. rewrite Ht. apply OrmFacts.update_hits; assumption.
      * intros c Hc'. split; [|exact (Hids c Hc')].
        rewrite Hvec. apply in_or_app. right. apply in_map_iff. exists c.
        split; [reflexivity | exact Hc'].
Qed.

Lemma process_unfold user pn f (s : State) :
  process_ user pn f s =
  match store_upload_ f pn (uf_content_type f) user s with
  | (s1, Ok b) =>
      match ingest_ b s1 with
      | (s2, Ok o) => (s2, Ok (b, o))
      | (s2, Raise e) => (s2, Raise e)
      end
  | (s1, Raise e) => (s1, Raise e)
  end.
Proof.
  unfold process_, store_and_ingest, store_upload_, ingest_, Eff.bind, Eff.ret.
  destruct (store_upload _ _ _ _ _ _ _ _ s) as [s1 [b|e]]; [|reflexivity].
  destruct (Ingestion.ingest _ _ _ _ _ _ _ _ b s1) as [s2 [o|e]]; reflexivity.
Qed.

(** A file that went through is ingested. *)
Lemma process_ok user pn f (s s' : State) stored :
  process_ user pn f s = (s', Ok stored) -> ingested_as f (response_of stored) s'.
Proof.
  rewrite process_unfold.
  destruct (store_upload_ f pn (uf_content_type f) user s) as [s1 [b|e]] eqn:Hup;
    [|discriminate].
  destruct (ingest_ b s1) as [s2 [o|e]] eqn:Hin; [|discriminate].
  intros H. inversion H; subst. clear H.
  apply store_upload_ok in Hup.
  destruct Hup as (_ & Hname & _ & Hb & _ & _ & _).
  apply ingest_effect in Hin. destruct Hin as (_ & _ & _ & Hok).
  destruct (Hok o eq_refl) as (chunks & log & t & -> & Hlog & Hd & Hs & Hc & Hrow & Hch).
  unfold ingested_as, response_of. cbn [fst snd r_document_id r_chunks_indexed
    r_collection_name outcome_chunks_indexed outcome_collection_name].
  split; [|split].
  - exists (set_last_indexed_at (Some t) b). split; [apply Hrow; auto|].
    cbn. split; [reflexivity|]. split; [exact Hname | discriminate].
  - exists log. auto.
  - exists chunks. split; [reflexivity | exact Hch].
Qed.

(** Processing a file, with or without success, undoes no earlier upload. *)
Lemma process_keeps user pn f (s s' : State) r g resp :
  process_ user pn f s = (s', r) -> ingested_as g resp s -> ingested_as g resp s'.
Proof.
  rewrite process_unfold.
  intros Hrun ((b0 & Hb0 & Hid0 & Hname0 & Hidx0) & (log & Hlog & Hlogp) &
               (chunks & Hlen & Hchunks)).
  destruct (store_upload_ f pn (uf_content_type f) user s) as [s1 [b|e]] eqn:Hup.
  - apply store_upload_ok in Hup.
    destruct Hup as (Hnew & _ & _ & _ & Hincl & Hlogs & Hvec).
    assert (Hne : r_document_id resp <> id b).
    { pose proof (OrmFacts.next_pk_fresh BrochureDocument id _ b0 Hb0). lia. }
    destruct (ingest_ b s1) as [s2 r2] eqn:Hin.
    apply ingest_effect in Hin. destruct Hin as (Hl2 & Hk & Hrows & _).
    assert (s' = s2) by (destruct r2; inversion Hrun; reflexivity). subst s2.
    split; [|split].
    + exists b0. split; [|auto]. apply Hrows; [apply Hincl; exact Hb0 | congruence].
    + exists log. split; [|exact Hlogp]. apply Hl2. rewrite Hlogs. exact Hlog.
    + exists chunks. split; [exact Hlen|]. intros c Hc.
      destruct (Hchunks c Hc) as [Hst Hdoc]. split; [|exact Hdoc].
      apply Hk; [rewrite Hvec; exact Hst|].
      cbn [snd]. rewrite Hdoc. intros E. apply str_of_Z_inj in E. contradiction.
  - apply store_upload_raise in Hup. destruct Hup as (Hb & Hl & Hv).
    inversion Hrun; subst. clear Hrun.
    split; [|split].
    + exists b0. rewrite Hb. auto.
    + exists log. rewrite Hl. auto.
    + exists chunks. rewrite Hv. auto.
Qed.

Lemma processed_ingested user pn s files s' rs :
  processed user pn s files s' rs ->
  Forall2 (fun f resp => ingested_as f resp s') files rs.
Proof.
  induction 1 as [s|s f rest s1 stored s2 rs Hf Hrest IH]; constructor.
  - apply process_ok in Hf. clear IH.
    induction Hrest as [s1|s1 g rest' sa st sb rs' Hg Hrest' IH']; [exact Hf|].
    apply IH'. eapply process_keeps; eassumption.
  - exact IH.
Qed.

Lemma Forall2_kept user pn f (s s' : State) r files rs :
  process_ user pn f s = (s', r) ->
  Forall2 (fun g resp => ingested_as g resp s) files rs ->
  Forall2 (fun g resp => ingested_as g resp s') files rs.
Proof.
  intros Hrun H. induction H; constructor; [|assumption].
  eapply process_keeps; eassumption.
Qed.

(** C6: when storing or ingesting a file raises, the endpoint raises HTTP
    400 with a message naming that file; the files before it went through
    and remain ingested in the state left behind, which is the state right
    after the failing file, so nothing is produced for it or for a later
    file; and when every file goes through, one response per file is
    returned, in upload order, each file being ingested. *)
Theorem upload_documents_outcomes (user : User) (files : list UploadedFile)
    (pn : option string) (s : State) :
  match upload_ user files pn s with
  | (s', Ok responses) =>
      processed user pn s files s' responses /\
      List.length responses = List.length files /\
      Forall2 (fun f resp => ingested_as f resp s') files responses
  | (s', Raise e) =>
      exists done f rest s1 responses exc,
        files = (done ++ f :: rest)%list /\
        processed user pn s done s1 responses /\
        process_ user pn f s1 = (s', Raise exc) /\
        e = Exn (HttpError 400)
                ("Failed to ingest " ++ uf_name f ++ ": " ++ exn_msg exc) /\
        Forall2 (fun g resp => ingested_as g resp s') done responses
  end.
Proof.
  unfold upload_, upload_documents. fold (loop_ user pn files [] s).
  destruct (loop_ user pn files [] s) as [s' [rs|e]] eqn:Hrun.
  - apply loop_ok in Hrun. destruct Hrun as (new & -> & Hp). cbn [app].
    split; [exact Hp|]. split; [eapply processed_length; exact Hp|].
    eapply processed_ingested; exact Hp.
  - apply loop_raise in Hrun.
    destruct Hrun as (done & f & rest & s1 & rs1 & exc & Hfiles & Hp & Hf & He).
    exists done, f, rest, s1, rs1, exc.
    split; [exact Hfiles|]. split; [exact Hp|]. split; [exact Hf|].
    split; [exact He|].
    eapply Forall2_kept; [exact Hf|]. eapply processed_ingested; exact Hp.
Qed.

End Service.

Module Demo.

Definition guess_type (name : string) : option string := None.
Definition storage_path (name : string) : string := "/srv/brochures/" ++ name.
Definition pdf_loader (path : string) : result (list Document) :=
  Raise (Exn ExternalError "not a PDF").
Definition text_loader (path : string) : result (list Document) :=
  if contains "bad" path then Raise (Exn ExternalError "cannot decode")
  else Ok [{| page_content := "Infinity pool"; Rag.metadata := [] |}].
Definition split_documents (docs : list Document) : result (list Document) := Ok docs.
Definition store_fault (op : store_op) : option exn := None.
Definition storage_save (name content : string) : result string := Ok name.
Definition read_file (path : string) : result string := Ok "bytes".
Definition sha256 (content : string) : string := "9f86d081".

Definition user : User := {| user_id := 1; is_authenticated := true |}.

Definition upload (name : string) : UploadedFile :=
  {| uf_name := name; uf_content_type := Some "text/plain"; uf_content := "bytes" |}.

Definition empty : State :=
  {| clock := 0%Z; brochures := []; logs := []; vectors := [] |}.

Definition run (files : list UploadedFile) : State * result (list DocumentUploadResponse) :=
  upload_documents guess_type storage_path pdf_loader text_loader split_documents
    store_fault storage_save read_file sha256 user files (Some "Altura") empty.

End Demo.

Example upload_stops_at_the_bad_file :
  let out := Demo.run [Demo.upload "good.txt"; Demo.upload "bad.txt";
                       Demo.upload "later.txt"] in
  snd out = Raise (Exn (HttpError 400) "Failed to ingest bad.txt: cannot decode") /\
  map original_name (brochures (fst out)) = ["good.txt"; "bad.txt"] /\
  map last_indexed_at (brochures (fst out)) = [Some 1%Z; None] /\
  map status (logs (fst out)) = ["completed"; "failed"] /\
  map chunks_indexed (logs (fst out)) = [1; 0]%nat /\
  List.length (vectors (fst out)) = 1%nat.
Proof. repeat split; reflexivity. Qed.

Example upload_answers_for_every_file :
  snd (Demo.run [Demo.upload "good.txt"; Demo.upload "more.txt"])
  = Ok [ {| r_document_id := 1; r_project_name := "Altura";
            r_chunks_indexed := 1; r_collection_name := "project_altura" |};
         {| r_document_id := 2; r_project_name := "Altura";
            r_chunks_indexed := 1; r_collection_name := "project_altura" |} ].
Proof. reflexivity. Qed.

End IngestionFacts.



(** * Further properties of the code *)

(** ** T2SQLAnswerFormatter.format: the message is never empty *)

Module FormatterMore.
Import T2SQL Formatter.

Lemma append_not_empty_r (s t : string) : t <> EmptyString -> s ++ t <> EmptyString.
Proof. destruct s; [auto | discriminate]. Qed.

Lemma append_not_empty_l (s t : string) : s <> EmptyString -> s ++ t <> EmptyString.
Proof. destruct s; [congruence | discriminate]. Qed.

Lemma join_head_not_empty (sep x : string) (rest : list string) :
  x <> EmptyString -> join sep (x :: rest) <> EmptyString.
Proof.
  intros H. destruct rest; cbn [join]; [exact H | apply append_not_empty_l; exact H].
Qed.

Lemma bullet_not_empty (r : row) : bullet r <> EmptyString.
Proof. unfold bullet. discriminate. Qed.

Lemma format_not_empty (question : string) (result : TextToSQLResult) :
  format question result <> EmptyString.
Proof.
  unfold format. destruct (rows result) as [|first rest]; [discriminate|].
  destruct ((List.length (first :: rest) =? 1)%nat && (List.length first =? 1)%nat).
  - destruct first as [|[key v] more].
    + cbn [firstn map]. destruct (5 <? _)%nat.
      * apply append_not_empty_l, join_head_not_empty, bullet_not_empty.
      * apply join_head_not_empty, bullet_not_empty.
    + apply append_not_empty_r. discriminate.
  - cbn [firstn map]. destruct (5 <? _)%nat.
    + apply append_not_empty_l, join_head_not_empty, bullet_not_empty.
    + apply join_head_not_empty, bullet_not_empty.
Qed.

(** X1: whatever the question and the result, [format] returns a
    non-empty text, so a caller's [result.get("message") or ...] always
    takes the message. *)
Theorem format_gives_a_message (question : string) (result : TextToSQLResult) :
  format question result <> EmptyString /\
  AgentApi.obj_truthy (Agent.OStr (format question result)) = true.
Proof.
  pose proof (format_not_empty question result) as H.
  split; [exact H|]. cbn. destruct (format question result); [congruence | reflexivity].
Qed.

End FormatterMore.


(** ** LeadNurtureAgent.run and the thread's checkpoint *)

Module AgentMore.
Import T2SQL Agent AgentFacts.

Section Graph.
Variable llm : string -> result string.
Variable t2sql_answer : string -> result TextToSQLResult.
Variable get_documents : string -> string -> result Rag.RetrievalResult.
Variable rag_prompt : Crm.Lead -> Campaign.t -> string -> string -> string.
Variable leads : list Crm.Lead.
Variable campaigns : list Campaign.t.

Lemma answer_sql_same saved saved' q cl tr :
  _answer_sql t2sql_answer leads campaigns (routed saved q cl "t2sql") tr =
  _answer_sql t2sql_answer leads campaigns (routed saved' q cl "t2sql") tr.
Proof. reflexivity. Qed.

Lemma answer_rag_same saved saved' q cl tr :
  _answer_rag llm get_documents rag_prompt leads campaigns (routed saved q cl "rag") tr =
  _answer_rag llm get_documents rag_prompt leads campaigns (routed saved' q cl "rag") tr.
Proof. reflexivity. Qed.

(** X2: what the checkpointer saved for the thread (an earlier route, an
    earlier response) has no influence on a run: the result and the calls
    made are those of a run on a fresh thread. *)
Theorem run_ignores_checkpoint (saved saved' : AgentState) (q : string)
    (cl : CampaignLead.t) (tr : list event) :
  run llm t2sql_answer get_documents rag_prompt leads campaigns saved q cl tr =
  run llm t2sql_answer get_documents rag_prompt leads campaigns saved' q cl tr.
Proof.
  destruct (RouterFacts.decide_route_cases llm q) as [E|E].
  - rewrite !(run_t2sql llm t2sql_answer get_documents rag_prompt leads campaigns
                _ q cl tr E).
    rewrite (answer_sql_same saved saved' q cl tr).
    destruct (answer_sql_cases t2sql_answer leads campaigns (routed saved' q cl "t2sql") tr)
      as [(e & tr' & Hrun & _) | (q' & res & _ & _ & Hrun)];
      rewrite Hrun; reflexivity.
  - rewrite !(run_rag llm t2sql_answer get_documents rag_prompt leads campaigns
                _ q cl tr E).
    rewrite (answer_rag_same saved saved' q cl tr).
    destruct (answer_rag_cases llm get_documents rag_prompt leads campaigns
                (routed saved' q cl "rag") tr)
      as [(e & tr' & Hrun & _) | (q' & p & a & _ & Hrun)];
      rewrite Hrun; reflexivity.
Qed.

End Graph.

End AgentMore.

(** ** agents/api.py: agent_query *)

Module AgentApiFacts.
Import T2SQL Agent AgentFacts AgentApi.

Lemma lookup_found (campaign_leads : list CampaignLead.t) (campaigns : list Campaign.t)
    (pk user : Z) (link : CampaignLead.t) :
  get_campaign_lead_or_404 campaign_leads campaigns pk user = Ok link ->
  In link campaign_leads /\ CampaignLead.id link = pk /\
  exists c, In c campaigns /\ Campaign.id c = CampaignLead.campaign_id link /\
            Campaign.created_by c = user.
Proof.
  unfold get_campaign_lead_or_404.
  destruct (find _ campaign_leads) as [l|] eqn:F; [|discriminate].
  intros H. inversion H; subst l. apply find_some in F. destruct F as [Hin Hb].
  apply andb_prop in Hb. destruct Hb as [Hpk Hex].
  apply existsb_exists in Hex. destruct Hex as (c & Hc & Hcb).
  apply andb_prop in Hcb. destruct Hcb as [H1 H2].
  split; [exact Hin|]. split; [apply Z.eqb_eq; exact Hpk|].
  exists c. split; [exact Hc|]. split; apply Z.eqb_eq; assumption.
Qed.

Lemma lookup_missing (campaign_leads : list CampaignLead.t) (campaigns : list Campaign.t)
    (pk user : Z) :
  (forall link, In link campaign_leads -> CampaignLead.id link = pk ->
     forall c, In c campaigns -> Campaign.id c = CampaignLead.campaign_id link ->
               Campaign.created_by c <> user) ->
  get_campaign_lead_or_404 campaign_leads campaigns pk user
  = Raise (Exn (HttpError 404) "Not Found").
Proof.
  intros H. unfold get_campaign_lead_or_404.
  destruct (find _ campaign_leads) as [l|] eqn:F; [|reflexivity].
  exfalso. apply find_some in F. destruct F as [Hin Hb].
  apply andb_prop in Hb. destruct Hb as [Hpk Hex].
  apply existsb_exists in Hex. destruct Hex as (c & Hc & Hcb).
  apply andb_prop in Hcb. destruct Hcb as [H1 H2].
  apply Z.eqb_eq in Hpk, H1, H2.
  exact (H l Hin Hpk c Hc H1 H2).
Qed.

Section Endpoint.
Variable llm : string -> result string.
Variable t2sql_answer : string -> result TextToSQLResult.
Variable get_documents : string -> string -> result Rag.RetrievalResult.
Variable rag_prompt : Crm.Lead -> Campaign.t -> string -> string -> string.
Variable leads : list Crm.Lead.
Variable campaigns : list Campaign.t.
Variable campaign_leads : list CampaignLead.t.
Variable checkpoints : string -> AgentState.
Variable get_agent : result unit.

Definition agent_query_ (user : Z) (payload : AgentQueryRequest) : M AgentQueryResponse :=
  agent_query llm t2sql_answer get_documents rag_prompt leads campaigns
    campaign_leads checkpoints get_agent user payload.

Definition run_ (link : CampaignLead.t) (q : string) : M Dict :=
  Agent.run llm t2sql_answer get_documents rag_prompt leads campaigns
    (checkpoints (thread_id link)) q link.

Lemma agent_query_unfold (user : Z) (payload : AgentQueryRequest) (tr : list event)
    (link : CampaignLead.t) :
  get_campaign_lead_or_404 campaign_leads campaigns (campaign_lead_id payload) user
  = Ok link ->
  get_agent = Ok tt ->
  agent_query_ user payload tr =
  match run_ link (query payload) tr with
  | (tr', Ok result) =>
      match get_or "message" "answer" result with
      | Some (OStr (String c t)) =>
          (tr', Ok {| route := match as_str (lookup "route" result) with
                               | Some r => r
                               | None => "rag"
                               end;
                      reply := String c t;
                      sql := as_str (lookup "sql" result);
                      rows := as_rows (lookup "rows" result);
                      sources := as_str_list (lookup "sources" result) |})
      | Some (ORows (_ :: _)) | Some (OStrList (_ :: _)) =>
          (tr', Raise (Exn ValidationError "reply: str type expected"))
      | _ => (tr', Raise (Exn (HttpError 500) "Unable to generate agent response."))
      end
  | (tr', Raise e) => (tr', Raise e)
  end.
Proof.
  intros Hl Ha. unfold agent_query_, agent_query, run_. unfold Eff.bind at 1, Eff.lift.
  rewrite Hl, Ha. unfold Eff.bind.
  destruct (Agent.run _ _ _ _ _ _ _ _ _ tr) as [tr' [result|e]]; [|reflexivity].
  destruct (get_or "message" "answer" result) as [[[|c t]|[|r rs]|[|x l]]|];
    reflexivity.
Qed.

(** X3: a user reaches the agent only through a link of a campaign they
    created: when no link with the requested key belongs to such a campaign
    the endpoint answers 404 and calls no service, whether or not the agent
    is available; and a link the lookup yields has the requested key and a
    campaign created by the user. *)
Theorem agent_query_checks_ownership (user : Z) (payload : AgentQueryRequest)
    (tr : list event) :
  ((forall link, In link campaign_leads ->
      CampaignLead.id link = campaign_lead_id payload ->
      forall c, In c campaigns -> Campaign.id c = CampaignLead.campaign_id link ->
                Campaign.created_by c <> user) ->
   agent_query_ user payload tr = (tr, Raise (Exn (HttpError 404) "Not Found"))) /\
  (forall link,
     get_campaign_lead_or_404 campaign_leads campaigns (campaign_lead_id payload) user
     = Ok link ->
     In link campaign_leads /\
     CampaignLead.id link = campaign_lead_id payload /\
     exists c, In c campaigns /\ Campaign.id c = CampaignLead.campaign_id link /\
               Campaign.created_by c = user).
Proof.
  split.
  - intros H. unfold agent_query_, agent_query, Eff.bind, Eff.lift.
    rewrite (lookup_missing _ _ _ _ H). reflexivity.
  - intros link Hl. exact (lookup_found _ _ _ _ _ Hl).
Qed.

(** X4: for a link of the user, with the agent available, the endpoint
    forwards an exception of the run unchanged; on the "t2sql" route it
    always answers, with the formatted message as reply, the SQL and the
    rows, and no sources; on the "rag" route it answers with the document
    answer and its sources, and with HTTP 500 exactly when that answer is
    empty. *)
Theorem agent_query_by_route (user : Z) (payload : AgentQueryRequest)
    (link : CampaignLead.t) :
  get_campaign_lead_or_404 campaign_leads campaigns (campaign_lead_id payload) user
  = Ok link ->
  get_agent = Ok tt ->
  let q := query payload in
  match run_ link q [] with
  | (tr', Raise e) => agent_query_ user payload [] = (tr', Raise e)
  | (tr', Ok result) =>
      (Router.decide llm q = "t2sql" /\
       exists res,
         t2sql_answer q = Ok res /\
         agent_query_ user payload [] =
         (tr', Ok {| route := "t2sql"; reply := Formatter.format q res;
                     sql := Some (T2SQL.sql res); rows := Some (T2SQL.rows res);
                     sources := None |})) \/
      (Router.decide llm q = "rag" /\
       exists a,
         result = rag_response a /\
         agent_query_ user payload [] =
         (tr', if is_empty (answer a)
               then Raise (Exn (HttpError 500) "Unable to generate agent response.")
               else Ok {| route := "rag"; reply := answer a; sql := None;
                          rows := None; sources := Some (Agent.sources a) |}))
  end.
Proof.
  intros Hl Ha q. rewrite (agent_query_unfold user payload [] link Hl Ha). fold q.
  pose proof (run_has_shape llm t2sql_answer get_documents rag_prompt leads campaigns
                (checkpoints (thread_id link)) q link) as Hshape.
  fold (run_ link q) in Hshape.
  destruct (run_ link q []) as [tr' [result|e]]; [|reflexivity].
  inversion Hshape as [| res Hres Hd Hout | | p a Hd Hout]; subst.
  - left. split; [reflexivity|]. exists res. split; [exact Hres|].
    unfold get_or, sql_response. cbn [lookup String.eqb Ascii.eqb Bool.eqb].
    cbn -[Formatter.format].
    pose proof (FormatterMore.format_not_empty q res) as Hne.
    destruct (Formatter.format q res) as [|c t] eqn:E; [congruence|].
    reflexivity.
  - right. split; [reflexivity|]. exists a. split; [reflexivity|].
    unfold get_or, rag_response. cbn.
    destruct (answer a) as [|c t]; reflexivity.
Qed.

End Endpoint.

Definition demo_links : list CampaignLead.t :=
  [ CampaignLeadFacts.sample_link 1 "goal_met"; CampaignLeadFacts.sample_link 2 "sent" ].

Definition demo_query : AgentQueryRequest :=
  {| campaign_lead_id := 2; query := "How many leads have status connected?" |}.

Lemma agent_query_checks_ownership_witness :
  agent_query_ demo_llm demo_t2sql demo_documents demo_prompt CrmFacts.sample_leads
    demo_campaigns demo_links (fun _ => empty_state) (Ok tt) 9 demo_query []
  = ([], Raise (Exn (HttpError 404) "Not Found")).
Proof.
  apply (proj1 (agent_query_checks_ownership demo_llm demo_t2sql demo_documents
                  demo_prompt CrmFacts.sample_leads demo_campaigns demo_links
                  (fun _ => empty_state) (Ok tt) 9 demo_query [])).
  intros link _ _ c Hc _. destruct Hc as [<-|[]]. cbn. discriminate.
Defined.

Lemma agent_query_by_route_witness :
  exists tr' response,
    agent_query_ demo_llm demo_t2sql demo_documents demo_prompt CrmFacts.sample_leads
      demo_campaigns demo_links (fun _ => empty_state) (Ok tt) 1 demo_query []
    = (tr', Ok response) /\
    route response = "t2sql".
Proof.
  pose proof (agent_query_by_route demo_llm demo_t2sql demo_documents demo_prompt
                CrmFacts.sample_leads demo_campaigns demo_links (fun _ => empty_state)
                (Ok tt) 1 demo_query (CampaignLeadFacts.sample_link 2 "sent")
                eq_refl eq_refl) as H.
  vm_compute in H. destruct H as [(_ & res & _ & Hq)|(Hd & _)]; [|discriminate Hd].
  eexists. eexists. split; [exact Hq | reflexivity].
Defined.

End AgentApiFacts.

(** ** campaigns/services.py: _goal_from_intent *)

Module GoalFacts.
Import Conversation.

Lemma lower_char_idem (c : ascii) : lower_char (lower_char c) = lower_char c.
Proof.
  destruct c as [b0 b1 b2 b3 b4 b5 b6 b7].
  destruct b0, b1, b2, b3, b4, b5, b6, b7; reflexivity.
Qed.

Lemma lower_idem (s : string) : lower (lower s) = lower s.
Proof. induction s as [|c s IH]; cbn; [reflexivity|]. rewrite lower_char_idem, IH. reflexivity. Qed.

(** Some keyword of the list occurs in the lowercased text. *)
Definition mentions (keywords : list string) (text : string) : Prop :=
  exists k, In k keywords /\ contains k (lower text) = true.

Lemma any_mentions (keywords : list string) (text : string) :
  any (fun keyword => contains keyword (lower text)) keywords = true <->
  mentions keywords text.
Proof. unfold any, mentions. apply existsb_exists. Qed.


End GoalFacts.

(** ** campaigns/services.py: ConversationService.handle_customer_message *)

Module EffFacts.

Lemma bind_ok {S A B} (m : Eff.M S A) (k : A -> Eff.M S B) (s s' : S) (a : A) :
  m s = (s', Ok a) -> Eff.bind m k s = k a s'.
Proof. intros H. unfold Eff.bind. rewrite H. reflexivity. Qed.

Lemma bind_raise {S A B} (m : Eff.M S A) (k : A -> Eff.M S B) (s s' : S) (e : exn) :
  m s = (s', Raise e) -> Eff.bind m k s = (s', Raise e).
Proof. intros H. unfold Eff.bind. rewrite H. reflexivity. Qed.

End EffFacts.

Module ConversationFacts.
Import Db Conversation CampaignLeadMethods.

Lemma exists_pk_update (key key' : Z) (f : CampaignLead.t -> CampaignLead.t)
    (table : list CampaignLead.t) :
  (forall r, CampaignLead.id (f r) = CampaignLead.id r) ->
  Orm.exists_pk CampaignLead.t CampaignLead.id key
    (Orm.update CampaignLead.t CampaignLead.id key' f table)
  = Orm.exists_pk CampaignLead.t CampaignLead.id key table.
Proof.
  intros Hf. unfold Orm.exists_pk, Orm.update.
  induction table as [|r table IH]; [reflexivity|].
  cbn [map existsb]. rewrite IH. f_equal.
  destruct (CampaignLead.id r =? key')%Z; [rewrite Hf|]; reflexivity.
Qed.

Lemma update_update (key : Z) (f g : CampaignLead.t -> CampaignLead.t)
    (table : list CampaignLead.t) :
  (forall r, CampaignLead.id (g r) = CampaignLead.id r) ->
  Orm.update CampaignLead.t CampaignLead.id key f
    (Orm.update CampaignLead.t CampaignLead.id key g table)
  = Orm.update CampaignLead.t CampaignLead.id key (fun r => f (g r)) table.
Proof.
  intros Hg. unfold Orm.update. rewrite map_map. apply map_ext. intros r.
  destruct (CampaignLead.id r =? key)%Z eqn:E.
  - rewrite Hg, E. reflexivity.
  - rewrite E. reflexivity.
Qed.

(** What [mark_goal] computes when the row is in the table. *)
Lemma mark_goal_run (outcome : string) (scheduled_for : option Time)
    (self : CampaignLead.t) (s : State) :
  Orm.exists_pk CampaignLead.t CampaignLead.id (CampaignLead.id self) (campaign_leads s)
  = true ->
  let self' :=
    CampaignLead.set_updated_at (clock s + 1)%Z
      (CampaignLead.set_last_agent_message_at (Some (clock s))
         (CampaignLead.set_scheduled_datetime scheduled_for
            (CampaignLead.set_status MessageStatus.GOAL_MET
               (CampaignLead.set_goal_outcome outcome self)))) in
  mark_goal outcome scheduled_for self s =
  ({| clock := (clock s + 1 + 1)%Z; leads := leads s; campaigns := campaigns s;
      campaign_leads :=
        Orm.update CampaignLead.t CampaignLead.id (CampaignLead.id self)
          (fun row =>
             CampaignLead.copy CampaignLead.F_goal_outcome self'
               (CampaignLead.copy CampaignLead.F_status self'
                  (CampaignLead.copy CampaignLead.F_scheduled_datetime self'
                     (CampaignLead.copy CampaignLead.F_last_agent_message_at self'
                        (CampaignLead.copy CampaignLead.F_updated_at self' row)))))
          (campaign_leads s);
      messages := messages s; outbox := outbox s |},
   Ok self').
Proof.
  intros H. cbv zeta.
  unfold mark_goal, save, Eff.bind, Eff.gets, Eff.modify, Eff.ret, now.
  cbn -[Orm.exists_pk Orm.update String.eqb Z.add]. rewrite H.
  reflexivity.
Qed.

(** What [touch_agent_message] computes when the row is in the table. *)
Lemma touch_agent_message_run (self : CampaignLead.t) (s : State) :
  Orm.exists_pk CampaignLead.t CampaignLead.id (CampaignLead.id self) (campaign_leads s)
  = true ->
  let self' :=
    CampaignLead.set_updated_at (clock s + 1)%Z
      (CampaignLead.set_last_agent_message_at (Some (clock s)) self) in
  touch_agent_message self s =
  ({| clock := (clock s + 1 + 1)%Z; leads := leads s; campaigns := campaigns s;
      campaign_leads :=
        Orm.update CampaignLead.t CampaignLead.id (CampaignLead.id self)
          (fun row =>
             CampaignLead.copy CampaignLead.F_last_agent_message_at self'
               (CampaignLead.copy CampaignLead.F_updated_at self' row))
          (campaign_leads s);
      messages := messages s; outbox := outbox s |},
   Ok self').
Proof.
  intros H. cbv zeta.
  unfold touch_agent_message, save, Eff.bind, Eff.gets, Eff.modify, Eff.ret, now.
  cbn -[Orm.exists_pk Orm.update String.eqb Z.add]. rewrite H.
  reflexivity.
Qed.

(** The columns no method of the conversation changes. *)
Definition keeps_identity (f : CampaignLead.t -> CampaignLead.t) : Prop :=
  forall r,
    CampaignLead.id (f r) = CampaignLead.id r /\
    CampaignLead.campaign_id (f r) = CampaignLead.campaign_id r /\
    CampaignLead.lead_id (f r) = CampaignLead.lead_id r /\
    CampaignLead.personalized_message (f r) = CampaignLead.personalized_message r.

(** The tables a step leaves alone. *)
Definition same_rest (a b : State) : Prop :=
  leads a = leads b /\ campaigns a = campaigns b /\ outbox a = outbox b.

Lemma create_message_step (cl : Z) (sender message intent : string)
    (metadata : list (string * json)) (s : State) :
  exists s1 m,
    CampaignService.create_message_row cl sender message intent metadata s = (s1, Ok m) /\
    messages s1 = (messages s ++ [m])%list /\
    campaign_leads s1 = campaign_leads s /\ same_rest s1 s /\
    ConversationMessage.campaign_lead_id m = cl /\
    ConversationMessage.sender m = sender /\
    ConversationMessage.message m = message /\
    ConversationMessage.intent m = intent.
Proof.
  eexists. eexists. split; [reflexivity|]. repeat split.
Qed.

Lemma mark_responded_step (self : CampaignLead.t) (s : State) :
  Orm.exists_pk CampaignLead.t CampaignLead.id (CampaignLead.id self) (campaign_leads s)
  = true ->
  exists s1 self1 f,
    mark_responded self s = (s1, Ok self1) /\
    messages s1 = messages s /\ same_rest s1 s /\
    campaign_leads s1
    = Orm.update CampaignLead.t CampaignLead.id (CampaignLead.id self) f (campaign_leads s) /\
    keeps_identity f /\
    (forall r, CampaignLead.status (f r) = CampaignLead.status self1 /\
               CampaignLead.goal_outcome (f r) = CampaignLead.goal_outcome r /\
               CampaignLead.scheduled_datetime (f r) = CampaignLead.scheduled_datetime r) /\
    CampaignLead.id self1 = CampaignLead.id self /\
    CampaignLead.lead_id self1 = CampaignLead.lead_id self /\
    CampaignLead.campaign_id self1 = CampaignLead.campaign_id self /\
    CampaignLead.status self1 =
      (if String.eqb (CampaignLead.status self) MessageStatus.GOAL_MET
       then MessageStatus.GOAL_MET else MessageStatus.RESPONDED).
Proof.
  intros H. pose proof (CampaignLeadFacts.mark_responded_run self s H) as Hrun.
  cbv zeta in Hrun.
  eexists. eexists. eexists. split; [exact Hrun|].
  cbn -[String.eqb Orm.update].
  split; [reflexivity|]. split; [repeat split|]. split; [reflexivity|].
  split; [intros r; repeat split|]. split; [intros r; repeat split|].
  repeat (split; [reflexivity|]).
  destruct (String.eqb (CampaignLead.status self) MessageStatus.GOAL_MET) eqn:E;
    [apply String.eqb_eq in E; exact E | reflexivity].
Qed.

Lemma mark_goal_step (outcome : string) (scheduled_for : option Time)
    (self : CampaignLead.t) (s : State) :
  Orm.exists_pk CampaignLead.t CampaignLead.id (CampaignLead.id self) (campaign_leads s)
  = true ->
  exists s1 self1 f,
    mark_goal outcome scheduled_for self s = (s1, Ok self1) /\
    messages s1 = messages s /\ same_rest s1 s /\
    campaign_leads s1
    = Orm.update CampaignLead.t CampaignLead.id (CampaignLead.id self) f (campaign_leads s) /\
    keeps_identity f /\
    (forall r, CampaignLead.status (f r) = MessageStatus.GOAL_MET /\
               CampaignLead.goal_outcome (f r) = outcome /\
               CampaignLead.scheduled_datetime (f r) = scheduled_for) /\
    CampaignLead.id self1 = CampaignLead.id self /\
    CampaignLead.lead_id self1 = CampaignLead.lead_id self /\
    CampaignLead.campaign_id self1 = CampaignLead.campaign_id self.
Proof.
  intros H. pose proof (mark_goal_run outcome scheduled_for self s H) as Hrun.
  cbv zeta in Hrun.
  eexists. eexists. eexists. split; [exact Hrun|].
  cbn -[String.eqb Orm.update].
  split; [reflexivity|]. split; [repeat split|]. split; [reflexivity|].
  split; [intros r; repeat split|]. split; [intros r; repeat split|].
  repeat split.
Qed.

Lemma touch_step (self : CampaignLead.t) (s : State) :
  Orm.exists_pk CampaignLead.t CampaignLead.id (CampaignLead.id self) (campaign_leads s)
  = true ->
  exists s1 self1 f,
    touch_agent_message self s = (s1, Ok self1) /\
    messages s1 = messages s /\ same_rest s1 s /\
    campaign_leads s1
    = Orm.update CampaignLead.t CampaignLead.id (CampaignLead.id self) f (campaign_leads s) /\
    keeps_identity f /\
    (forall r, CampaignLead.status (f r) = CampaignLead.status r /\
               CampaignLead.goal_outcome (f r) = CampaignLead.goal_outcome r /\
               CampaignLead.scheduled_datetime (f r) = CampaignLead.scheduled_datetime r).
Proof.
  intros H. pose proof (touch_agent_message_run self s H) as Hrun.
  cbv zeta in Hrun.
  eexists. eexists. eexists. split; [exact Hrun|].
  cbn -[String.eqb Orm.update].
  split; [reflexivity|]. split; [repeat split|]. split; [reflexivity|].
  split; intros r; repeat split.
Qed.

Section Service.
Variable strftime : Time -> string.
Variable text_of : Agent.obj -> string.

Definition handle_ (agent_run : string -> CampaignLead.t -> string -> result Agent.Dict)
    (link : CampaignLead.t) (payload : AgentResponseRequest) : M AgentResponseSchema :=
  handle_customer_message agent_run strftime text_of link payload.

(** The row of the link is in the table, with its lead and its campaign. *)
Definition link_stored (link : CampaignLead.t) (s : State) : Prop :=
  Orm.exists_pk CampaignLead.t CampaignLead.id (CampaignLead.id link) (campaign_leads s)
  = true /\
  (exists lead, Orm.get Crm.Lead Crm.id (CampaignLead.lead_id link) (leads s) = Ok lead) /\
  (exists c, Orm.get Campaign.t Campaign.id (CampaignLead.campaign_id link) (campaigns s)
             = Ok c).

Lemma confirmation_step (self : CampaignLead.t) (g : goal) (schedule : option Time)
    (s : State) (lead : Crm.Lead) (c : Campaign.t) :
  Orm.get Crm.Lead Crm.id (CampaignLead.lead_id self) (leads s) = Ok lead ->
  Orm.get Campaign.t Campaign.id (CampaignLead.campaign_id self) (campaigns s) = Ok c ->
  exists text,
    _goal_confirmation_message strftime self g schedule s = (s, Ok text) /\
    text <> EmptyString /\
    contains (Crm.first_name lead) text = true /\
    contains (Campaign.project_name c) text = true.
Proof.
  intros Hl Hc. unfold _goal_confirmation_message, Eff.bind, Eff.gets, Eff.lift, Eff.ret.
  rewrite Hl, Hc. destruct (goal_eqb g G_VISIT).
  - eexists. split; [reflexivity|]. split; [discriminate|]. split.
    + apply (contains_middle (Crm.first_name lead) "Wonderful news, ").
    + match goal with
      | |- contains ?p (?a ++ ?b ++ ?c ++ ?d ++ ?e ++ ?p ++ ?r) = true =>
          replace (a ++ b ++ c ++ d ++ e ++ p ++ r)
            with ((a ++ b ++ c ++ d ++ e) ++ p ++ r)
            by (rewrite !append_assoc; reflexivity)
      end.
      apply contains_middle.
  - eexists. split; [reflexivity|]. split; [discriminate|]. split.
    + apply (contains_middle (Crm.first_name lead) "Great, ").
    + match goal with
      | |- contains ?p (?a ++ ?b ++ ?c ++ ?d ++ ?e ++ ?p ++ ?r) = true =>
          replace (a ++ b ++ c ++ d ++ e ++ p ++ r)
            with ((a ++ b ++ c ++ d ++ e) ++ p ++ r)
            by (rewrite !append_assoc; reflexivity)
      end.
      apply contains_middle.
Qed.

Lemma confirmation_total (self : CampaignLead.t) (g : goal) (schedule : option Time)
    (s : State) :
  exists r, _goal_confirmation_message strftime self g schedule s = (s, r).
Proof.
  unfold _goal_confirmation_message, Eff.bind, Eff.gets, Eff.lift, Eff.ret.
  destruct (Orm.get Crm.Lead Crm.id (CampaignLead.lead_id self) (leads s));
    [|eexists; reflexivity].
  destruct (Orm.get Campaign.t Campaign.id (CampaignLead.campaign_id self) (campaigns s));
    [|eexists; reflexivity].
  destruct (goal_eqb g G_VISIT); eexists; reflexivity.
Qed.

Lemma goal_value_not_empty (g : goal) : is_empty (goal_value g) = false.
Proof. destruct g; reflexivity. Qed.

Lemma same_rest_trans (a b c : State) : same_rest a b -> same_rest b c -> same_rest a c.
Proof.
  intros (A1 & A2 & A3) (B1 & B2 & B3). repeat split; congruence.
Qed.

Lemma keeps_identity_comp (f g : CampaignLead.t -> CampaignLead.t) :
  keeps_identity f -> keeps_identity g -> keeps_identity (fun r => f (g r)).
Proof.
  intros Hf Hg r. destruct (Hf (g r)) as (A1 & A2 & A3 & A4).
  destruct (Hg r) as (B1 & B2 & B3 & B4). repeat split; congruence.
Qed.

(** A message that states a goal: the link is marked and the confirmation is
    written without the agent. *)
Lemma goal_path_run agent_run link payload s lead c :
  goal_of payload <> G_NONE ->
  Orm.exists_pk CampaignLead.t CampaignLead.id (CampaignLead.id link) (campaign_leads s)
  = true ->
  Orm.get Crm.Lead Crm.id (CampaignLead.lead_id link) (leads s) = Ok lead ->
  Orm.get Campaign.t Campaign.id (CampaignLead.campaign_id link) (campaigns s) = Ok c ->
  exists s' m1 m2 f,
    handle_ agent_run link payload s
    = (s', Ok {| reply := ConversationMessage.message m2;
                 intent := goal_value (goal_of payload);
                 goal_outcome := goal_of payload;
                 scheduled_time := proposed_schedule payload |}) /\
    messages s' = (messages s ++ [m1; m2])%list /\
    campaign_leads s'
    = Orm.update CampaignLead.t CampaignLead.id (CampaignLead.id link) f (campaign_leads s) /\
    same_rest s' s /\
    keeps_identity f /\
    (forall r, CampaignLead.status (f r) = MessageStatus.GOAL_MET /\
               CampaignLead.goal_outcome (f r) = goal_value (goal_of payload) /\
               CampaignLead.scheduled_datetime (f r) = proposed_schedule payload) /\
    (ConversationMessage.campaign_lead_id m1 = CampaignLead.id link /\
     ConversationMessage.sender m1 = SenderType.CUSTOMER /\
     ConversationMessage.message m1 = customer_message payload /\
     ConversationMessage.intent m1 = goal_value (goal_of payload)) /\
    (ConversationMessage.campaign_lead_id m2 = CampaignLead.id link /\
     ConversationMessage.sender m2 = SenderType.AGENT /\
     ConversationMessage.intent m2 = goal_value (goal_of payload) /\
     ConversationMessage.message m2 <> EmptyString /\
     contains (Crm.first_name lead) (ConversationMessage.message m2) = true /\
     contains (Campaign.project_name c) (ConversationMessage.message m2) = true).
Proof.
  intros Hg Hrow Hlead Hc.
  assert (Hnot : negb (goal_eqb (goal_of payload) G_NONE) = true)
    by (destruct (goal_of payload); [congruence | reflexivity | reflexivity]).
  unfold handle_, handle_customer_message. cbv zeta.
  rewrite goal_value_not_empty, Hnot.
  destruct (create_message_step (CampaignLead.id link) SenderType.CUSTOMER
              (customer_message payload) (goal_value (goal_of payload)) [] s)
    as (s1 & m1 & E1 & Hm1 & Hcl1 & Hr1 & M1a & M1b & M1c & M1d).
  assert (Hrow1 : Orm.exists_pk CampaignLead.t CampaignLead.id (CampaignLead.id link)
                    (campaign_leads s1) = true) by (rewrite Hcl1; exact Hrow).
  destruct (mark_responded_step link s1 Hrow1)
    as (s2 & link2 & f2 & E2 & Hm2 & Hr2 & Hcl2 & Hk2 & Hf2 & I2 & L2 & C2 & S2).
  assert (Hrow2 : Orm.exists_pk CampaignLead.t CampaignLead.id (CampaignLead.id link2)
                    (campaign_leads s2) = true).
  { rewrite Hcl2, I2, exists_pk_update; [exact Hrow1 | intros r; apply Hk2]. }
  destruct (mark_goal_step (goal_value (goal_of payload)) (proposed_schedule payload)
              link2 s2 Hrow2)
    as (s3 & link3 & f3 & E3 & Hm3 & Hr3 & Hcl3 & Hk3 & Hf3 & I3 & L3 & C3).
  assert (Hlead3 : Orm.get Crm.Lead Crm.id (CampaignLead.lead_id link3) (leads s3)
                   = Ok lead).
  { destruct Hr3 as (A & _), Hr2 as (B & _), Hr1 as (C & _).
    rewrite L3, L2, A, B, C. exact Hlead. }
  assert (Hc3 : Orm.get Campaign.t Campaign.id (CampaignLead.campaign_id link3)
                  (campaigns s3) = Ok c).
  { destruct Hr3 as (_ & A & _), Hr2 as (_ & B & _), Hr1 as (_ & C & _).
    rewrite C3, C2, A, B, C. exact Hc. }
  destruct (confirmation_step link3 (goal_of payload) (proposed_schedule payload) s3
              lead c Hlead3 Hc3) as (text & E4 & T0 & T1 & T2).
  destruct (create_message_step (CampaignLead.id link3) SenderType.AGENT text
              (goal_value (goal_of payload)) [("route", JStr "goal_confirmation")] s3)
    as (s5 & m2 & E5 & Hm5 & Hcl5 & Hr5 & M2a & M2b & M2c & M2d).
  exists s5, m1, m2, (fun r => f3 (f2 r)).
  split.
  { apply CampaignServiceFacts.atomic_ok.
    rewrite (EffFacts.bind_ok _ _ _ _ _ E1).
    rewrite (EffFacts.bind_ok _ _ _ _ _ E2).
    rewrite (EffFacts.bind_ok _ _ _ _ _ E3).
    rewrite (EffFacts.bind_ok _ _ _ _ _ E4).
    rewrite (EffFacts.bind_ok _ _ _ _ _ E5).
    unfold Eff.ret. rewrite M2c. reflexivity. }
  split. { rewrite Hm5, Hm3, Hm2, Hm1, <- app_assoc. reflexivity. }
  split.
  { rewrite Hcl5, Hcl3, Hcl2, Hcl1, I2. apply update_update. intros r; apply Hk2. }
  split.
  { eapply same_rest_trans; [exact Hr5|]. eapply same_rest_trans; [exact Hr3|].
    eapply same_rest_trans; [exact Hr2 | exact Hr1]. }
  split. { apply keeps_identity_comp; assumption. }
  split. { intros r. apply Hf3. }
  split. { repeat split; assumption. }
  rewrite M2a, M2c, I3, I2. repeat split; assumption.
Qed.

Lemma handle_rows_goal agent_run link payload s :
  goal_of payload <> G_NONE ->
  Orm.exists_pk CampaignLead.t CampaignLead.id (CampaignLead.id link) (campaign_leads s)
  = true ->
  same_rest (fst (handle_ agent_run link payload s)) s /\
  (campaign_leads (fst (handle_ agent_run link payload s)) = campaign_leads s \/
   exists f,
     campaign_leads (fst (handle_ agent_run link payload s))
     = Orm.update CampaignLead.t CampaignLead.id (CampaignLead.id link) f
         (campaign_leads s) /\
     keeps_identity f /\
     ((forall r, CampaignLead.status (f r) = MessageStatus.GOAL_MET /\
                 Orm.text_in (CampaignLead.goal_outcome (f r))
                   [GoalOutcome.CALL; GoalOutcome.VISIT] = true) \/
      (forall r, CampaignLead.status (f r) =
                   (if String.eqb (CampaignLead.status link) MessageStatus.GOAL_MET
                    then MessageStatus.GOAL_MET else MessageStatus.RESPONDED) /\
                 CampaignLead.goal_outcome (f r) = CampaignLead.goal_outcome r))).
Proof.
  intros Hg Hrow.
  assert (Hnot : negb (goal_eqb (goal_of payload) G_NONE) = true)
    by (destruct (goal_of payload); [congruence | reflexivity | reflexivity]).
  assert (Hin : Orm.text_in (goal_value (goal_of payload))
                  [GoalOutcome.CALL; GoalOutcome.VISIT] = true)
    by (destruct (goal_of payload); [congruence | reflexivity | reflexivity]).
  unfold handle_, handle_customer_message. cbv zeta.
  rewrite goal_value_not_empty, Hnot.
  destruct (create_message_step (CampaignLead.id link) SenderType.CUSTOMER
              (customer_message payload) (goal_value (goal_of payload)) [] s)
    as (s1 & m1 & E1 & Hm1 & Hcl1 & Hr1 & _).
  assert (Hrow1 : Orm.exists_pk CampaignLead.t CampaignLead.id (CampaignLead.id link)
                    (campaign_leads s1) = true) by (rewrite Hcl1; exact Hrow).
  destruct (mark_responded_step link s1 Hrow1)
    as (s2 & link2 & f2 & E2 & Hm2 & Hr2 & Hcl2 & Hk2 & Hf2 & I2 & L2 & C2 & S2).
  assert (Hrow2 : Orm.exists_pk CampaignLead.t CampaignLead.id (CampaignLead.id link2)
                    (campaign_leads s2) = true).
  { rewrite Hcl2, I2, exists_pk_update; [exact Hrow1 | intros r; apply Hk2]. }
  destruct (mark_goal_step (goal_value (goal_of payload)) (proposed_schedule payload)
              link2 s2 Hrow2)
    as (s3 & link3 & f3 & E3 & Hm3 & Hr3 & Hcl3 & Hk3 & Hf3 & I3 & L3 & C3).
  destruct (confirmation_total link3 (goal_of payload) (proposed_schedule payload) s3)
    as ([text|e] & E4).
  - destruct (create_message_step (CampaignLead.id link3) SenderType.AGENT text
                (goal_value (goal_of payload)) [("route", JStr "goal_confirmation")] s3)
      as (s5 & m2 & E5 & Hm5 & Hcl5 & Hr5 & _).
    match goal with
    | |- same_rest (fst (atomic ?body s)) s /\ _ =>
        assert (Hbody : body s = (s5, Ok {| reply := text;
                                            intent := goal_value (goal_of payload);
                                            goal_outcome := goal_of payload;
                                            scheduled_time := proposed_schedule payload |}))
    end.
    { rewrite (EffFacts.bind_ok _ _ _ _ _ E1).
      rewrite (EffFacts.bind_ok _ _ _ _ _ E2).
      rewrite (EffFacts.bind_ok _ _ _ _ _ E3).
      rewrite (EffFacts.bind_ok _ _ _ _ _ E4).
      rewrite (EffFacts.bind_ok _ _ _ _ _ E5).
      reflexivity. }
    rewrite (CampaignServiceFacts.atomic_ok _ _ _ _ Hbody). cbn [fst].
    split.
    { eapply same_rest_trans; [exact Hr5|]. eapply same_rest_trans; [exact Hr3|].
      eapply same_rest_trans; [exact Hr2 | exact Hr1]. }
    right. exists (fun r => f3 (f2 r)). split.
    { rewrite Hcl5, Hcl3, Hcl2, Hcl1, I2. apply update_update. intros r; apply Hk2. }
    split. { apply keeps_identity_comp; assumption. }
    left. intros r. destruct (Hf3 (f2 r)) as (A & B & _). split; [exact A|].
    rewrite B. exact Hin.
  - match goal with
    | |- same_rest (fst (atomic ?body s)) s /\ _ =>
        assert (Hbody : body s = (s3, Raise e))
    end.
    { rewrite (EffFacts.bind_ok _ _ _ _ _ E1).
      rewrite (EffFacts.bind_ok _ _ _ _ _ E2).
      rewrite (EffFacts.bind_ok _ _ _ _ _ E3).
      rewrite (EffFacts.bind_raise _ _ _ _ _ E4).
      reflexivity. }
    unfold atomic. rewrite Hbody. cbn [fst leads campaigns outbox campaign_leads].
    split; [|left; reflexivity].
    unfold same_rest. cbn [leads campaigns outbox]. split; [reflexivity|].
    split; [reflexivity|].
    destruct Hr3 as (_ & _ & A), Hr2 as (_ & _ & B), Hr1 as (_ & _ & C). congruence.
Qed.

(** A message that states no goal: the agent is asked, with the link as
    [mark_responded] left it. *)
Lemma question_path_run agent_run link payload s :
  goal_of payload = G_NONE ->
  Orm.exists_pk CampaignLead.t CampaignLead.id (CampaignLead.id link) (campaign_leads s)
  = true ->
  exists link1,
    CampaignLead.id link1 = CampaignLead.id link /\
    CampaignLead.status link1 =
      (if String.eqb (CampaignLead.status link) MessageStatus.GOAL_MET
       then MessageStatus.GOAL_MET else MessageStatus.RESPONDED) /\
    ((exists answer s' m1 m2 f,
        agent_run (customer_message payload) link1
          ("campaign-lead-" ++ str_of_Z (CampaignLead.id link)) = Ok answer /\
        handle_ agent_run link payload s
        = (s', Ok {| reply := reply_text_of text_of answer;
                     intent := GoalOutcome.NONE;
                     goal_outcome := G_NONE;
                     scheduled_time := None |}) /\
        messages s' = (messages s ++ [m1; m2])%list /\
        campaign_leads s'
        = Orm.update CampaignLead.t CampaignLead.id (CampaignLead.id link) f
            (campaign_leads s) /\
        same_rest s' s /\
        keeps_identity f /\
        (forall r, CampaignLead.status (f r) = CampaignLead.status link1 /\
                   CampaignLead.goal_outcome (f r) = CampaignLead.goal_outcome r /\
                   CampaignLead.scheduled_datetime (f r)
                   = CampaignLead.scheduled_datetime r) /\
        (ConversationMessage.campaign_lead_id m1 = CampaignLead.id link /\
         ConversationMessage.sender m1 = SenderType.CUSTOMER /\
         ConversationMessage.message m1 = customer_message payload /\
         ConversationMessage.intent m1 = GoalOutcome.NONE) /\
        (ConversationMessage.campaign_lead_id m2 = CampaignLead.id link /\
         ConversationMessage.sender m2 = SenderType.AGENT /\
         ConversationMessage.message m2 = reply_text_of text_of answer /\
         ConversationMessage.intent m2 = GoalOutcome.NONE))
     \/
     (exists e s',
        agent_run (customer_message payload) link1
          ("campaign-lead-" ++ str_of_Z (CampaignLead.id link)) = Raise e /\
        handle_ agent_run link payload s = (s', Raise e) /\
        same_tables s' s /\ outbox s' = outbox s)).
Proof.
  intros Hg Hrow.
  unfold handle_, handle_customer_message. cbv zeta.
  rewrite Hg. cbn [goal_eqb negb goal_value]. 
  change (is_empty GoalOutcome.NONE) with false. cbv iota.
  destruct (create_message_step (CampaignLead.id link) SenderType.CUSTOMER
              (customer_message payload) GoalOutcome.NONE [] s)
    as (s1 & m1 & E1 & Hm1 & Hcl1 & Hr1 & M1a & M1b & M1c & M1d).
  assert (Hrow1 : Orm.exists_pk CampaignLead.t CampaignLead.id (CampaignLead.id link)
                    (campaign_leads s1) = true) by (rewrite Hcl1; exact Hrow).
  destruct (mark_responded_step link s1 Hrow1)
    as (s2 & link2 & f2 & E2 & Hm2 & Hr2 & Hcl2 & Hk2 & Hf2 & I2 & L2 & C2 & S2).
  assert (Hrow2 : Orm.exists_pk CampaignLead.t CampaignLead.id (CampaignLead.id link2)
                    (campaign_leads s2) = true).
  { rewrite Hcl2, I2, exists_pk_update; [exact Hrow1 | intros r; apply Hk2]. }
  exists link2. split; [exact I2|]. split; [exact S2|].
  destruct (agent_run (customer_message payload) link2
              ("campaign-lead-" ++ str_of_Z (CampaignLead.id link)))
    as [answer|e] eqn:Eagent.
  - left.
    destruct (create_message_step (CampaignLead.id link2) SenderType.AGENT
                (reply_text_of text_of answer) GoalOutcome.NONE
                [ ("route", match Agent.lookup "route" answer with
                            | Some v => json_of text_of (Some v)
                            | None => JStr "rag"
                            end);
                  ("sources", json_of text_of (Agent.lookup "sources" answer));
                  ("sql", json_of text_of (Agent.lookup "sql" answer)) ] s2)
      as (s3 & m2 & E3 & Hm3 & Hcl3 & Hr3 & M2a & M2b & M2c & M2d).
    rewrite I2 in M2a.
    assert (Hrow3 : Orm.exists_pk CampaignLead.t CampaignLead.id (CampaignLead.id link2)
                      (campaign_leads s3) = true) by (rewrite Hcl3; exact Hrow2).
    destruct (touch_step link2 s3 Hrow3)
      as (s4 & link4 & f4 & E4 & Hm4 & Hr4 & Hcl4 & Hk4 & Hf4).
    exists answer, s4, m1, m2, (fun r => f4 (f2 r)).
    split; [reflexivity|]. split.
    { apply CampaignServiceFacts.atomic_ok.
      rewrite (EffFacts.bind_ok _ _ _ _ _ E1).
      rewrite (EffFacts.bind_ok _ _ _ _ _ E2).
      assert (El : Eff.lift (S := State)
                     (agent_run (customer_message payload) link2
                        (_build_thread_id link2)) s2
                   = (s2, Ok answer))
        by (unfold Eff.lift, _build_thread_id; rewrite I2, Eagent; reflexivity).
      rewrite (EffFacts.bind_ok _ _ _ _ _ El).
      rewrite (EffFacts.bind_ok _ _ _ _ _ E3).
      rewrite (EffFacts.bind_ok _ _ _ _ _ E4).
      reflexivity. }
    split. { rewrite Hm4, Hm3, Hm2, Hm1, <- app_assoc. reflexivity. }
    split.
    { rewrite Hcl4, Hcl3, Hcl2, Hcl1, I2. apply update_update. intros r; apply Hk2. }
    split.
    { eapply same_rest_trans; [exact Hr4|]. eapply same_rest_trans; [exact Hr3|].
      eapply same_rest_trans; [exact Hr2 | exact Hr1]. }
    split. { apply keeps_identity_comp; assumption. }
    split.
    { intros r. destruct (Hf4 (f2 r)) as (A1 & A2 & A3).
      destruct (Hf2 r) as (B1 & B2 & B3). repeat split; congruence. }
    split. { repeat split; assumption. }
    repeat split; assumption.
  - right. exists e.
    assert (El : Eff.lift (S := State)
                   (agent_run (customer_message payload) link2
                      (_build_thread_id link2)) s2
                 = (s2, Raise e))
      by (unfold Eff.lift, _build_thread_id; rewrite I2, Eagent; reflexivity).
    match goal with
    | |- exists s', _ /\ atomic ?body s = _ /\ _ =>
        assert (Hbody : body s = (s2, Raise e))
    end.
    { rewrite (EffFacts.bind_ok _ _ _ _ _ E1).
      rewrite (EffFacts.bind_ok _ _ _ _ _ E2).
      rewrite (EffFacts.bind_raise _ _ _ _ _ El). reflexivity. }
    eexists. split; [reflexivity|]. split.
    + unfold atomic. rewrite Hbody. reflexivity.
    + split; [repeat split|]. cbn [outbox].
      destruct Hr2 as (_ & _ & A), Hr1 as (_ & _ & B). congruence.
Qed.

(** What a call does to the rows of the links, whatever its outcome: nothing,
    or one update of the row of the link, which either sets the status
    [goal_met] and a goal, or sets the status [mark_responded] chose and
    keeps the goal. *)
Lemma handle_rows agent_run link payload s :
  Orm.exists_pk CampaignLead.t CampaignLead.id (CampaignLead.id link) (campaign_leads s)
  = true ->
  same_rest (fst (handle_ agent_run link payload s)) s /\
  (campaign_leads (fst (handle_ agent_run link payload s)) = campaign_leads s \/
   exists f,
     campaign_leads (fst (handle_ agent_run link payload s))
     = Orm.update CampaignLead.t CampaignLead.id (CampaignLead.id link) f
         (campaign_leads s) /\
     keeps_identity f /\
     ((forall r, CampaignLead.status (f r) = MessageStatus.GOAL_MET /\
                 Orm.text_in (CampaignLead.goal_outcome (f r))
                   [GoalOutcome.CALL; GoalOutcome.VISIT] = true) \/
      (forall r, CampaignLead.status (f r) =
                   (if String.eqb (CampaignLead.status link) MessageStatus.GOAL_MET
                    then MessageStatus.GOAL_MET else MessageStatus.RESPONDED) /\
                 CampaignLead.goal_outcome (f r) = CampaignLead.goal_outcome r))).
Proof.
  intros Hrow. destruct (goal_of payload) eqn:Hg.
  - destruct (question_path_run agent_run link payload s Hg Hrow)
      as (link1 & I1 & S1 & [ (answer & s' & m1 & m2 & f & _ & Hrun & _ & Hcl & Hr & Hk & Hf & _)
                            | (e & s' & _ & Hrun & Hsame & Hout) ]).
    + rewrite Hrun. cbn [fst]. split; [exact Hr|]. right. exists f.
      split; [exact Hcl|]. split; [exact Hk|]. right. intros r.
      destruct (Hf r) as (A & B & _). rewrite <- S1. split; assumption.
    + rewrite Hrun. cbn [fst]. destruct Hsame as (A & B & C & D).
      split; [repeat split; assumption|]. left. exact C.
  - apply handle_rows_goal; [rewrite Hg; discriminate | exact Hrow].
  - apply handle_rows_goal; [rewrite Hg; discriminate | exact Hrow].
Qed.

(** X6. When the customer's message states a goal (asked for in the request,
    or else read from the words of the message), for a stored link whose
    lead and campaign exist, [handle_customer_message] does not consult the
    agent: it returns the same for any two agents.  It records exactly two
    messages, the customer's and then the agent's confirmation, both with
    the goal as intent; the reply is the text of the confirmation, which is
    not empty and names the lead and the project; the row of the link, and no other row,
    is rewritten with status [goal_met], the goal and the proposed time;
    leads, campaigns and mail are untouched. *)
Theorem stated_goal_is_confirmed agent_run agent_run' link payload s :
  goal_of payload <> G_NONE ->
  link_stored link s ->
  handle_ agent_run' link payload s = handle_ agent_run link payload s /\
  exists s' m1 m2 f lead c,
    Orm.get Crm.Lead Crm.id (CampaignLead.lead_id link) (leads s) = Ok lead /\
    Orm.get Campaign.t Campaign.id (CampaignLead.campaign_id link) (campaigns s) = Ok c /\
    handle_ agent_run link payload s
    = (s', Ok {| reply := ConversationMessage.message m2;
                 intent := goal_value (goal_of payload);
                 goal_outcome := goal_of payload;
                 scheduled_time := proposed_schedule payload |}) /\
    messages s' = (messages s ++ [m1; m2])%list /\
    campaign_leads s'
    = Orm.update CampaignLead.t CampaignLead.id (CampaignLead.id link) f (campaign_leads s) /\
    same_rest s' s /\
    keeps_identity f /\
    (forall r, CampaignLead.status (f r) = MessageStatus.GOAL_MET /\
               CampaignLead.goal_outcome (f r) = goal_value (goal_of payload) /\
               CampaignLead.scheduled_datetime (f r) = proposed_schedule payload) /\
    (ConversationMessage.campaign_lead_id m1 = CampaignLead.id link /\
     ConversationMessage.sender m1 = SenderType.CUSTOMER /\
     ConversationMessage.message m1 = customer_message payload /\
     ConversationMessage.intent m1 = goal_value (goal_of payload)) /\
    (ConversationMessage.campaign_lead_id m2 = CampaignLead.id link /\
     ConversationMessage.sender m2 = SenderType.AGENT /\
     ConversationMessage.intent m2 = goal_value (goal_of payload) /\
     ConversationMessage.message m2 <> EmptyString /\
     contains (Crm.first_name lead) (ConversationMessage.message m2) = true /\
     contains (Campaign.project_name c) (ConversationMessage.message m2) = true).
Proof.
  intros Hg (Hrow & (lead & Hlead) & (c & Hc)). split.
  - assert (Hnot : negb (goal_eqb (goal_of payload) G_NONE) = true)
      by (destruct (goal_of payload); [congruence | reflexivity | reflexivity]).
    unfold handle_, handle_customer_message. cbv zeta. rewrite Hnot. reflexivity.
  - destruct (goal_path_run agent_run link payload s lead c Hg Hrow Hlead Hc)
      as (s' & m1 & m2 & f & H).
    exists s', m1, m2, f, lead, c. split; [exact Hlead|]. split; [exact Hc|]. exact H.
Qed.

(** X7. When the message states no goal, for a stored link, the agent is
    asked once: with the customer's message, the link as [mark_responded]
    left it (status [goal_met] if it was, else [responded]) and the thread
    "campaign-lead-<id>".  If it answers, the customer's message and the
    reply ([message], else [answer], else the fixed fallback text) are
    recorded in this order with intent "none", the reply is returned with
    goal "none" and no time, and the row of the link keeps its goal and its
    time.  If it raises, the exception is forwarded and every table is as
    before: not even the customer's message is recorded, and no mail has
    been sent. *)
Theorem question_goes_to_the_agent agent_run link payload s :
  goal_of payload = G_NONE ->
  Orm.exists_pk CampaignLead.t CampaignLead.id (CampaignLead.id link) (campaign_leads s)
  = true ->
  exists link1,
    CampaignLead.id link1 = CampaignLead.id link /\
    CampaignLead.status link1 =
      (if String.eqb (CampaignLead.status link) MessageStatus.GOAL_MET
       then MessageStatus.GOAL_MET else MessageStatus.RESPONDED) /\
    ((exists answer s' m1 m2 f,
        agent_run (customer_message payload) link1
          ("campaign-lead-" ++ str_of_Z (CampaignLead.id link)) = Ok answer /\
        handle_ agent_run link payload s
        = (s', Ok {| reply := reply_text_of text_of answer;
                     intent := GoalOutcome.NONE;
                     goal_outcome := G_NONE;
                     scheduled_time := None |}) /\
        messages s' = (messages s ++ [m1; m2])%list /\
        campaign_leads s'
        = Orm.update CampaignLead.t CampaignLead.id (CampaignLead.id link) f
            (campaign_leads s) /\
        same_rest s' s /\
        keeps_identity f /\
        (forall r, CampaignLead.status (f r) = CampaignLead.status link1 /\
                   CampaignLead.goal_outcome (f r) = CampaignLead.goal_outcome r /\
                   CampaignLead.scheduled_datetime (f r)
                   = CampaignLead.scheduled_datetime r) /\
        (ConversationMessage.campaign_lead_id m1 = CampaignLead.id link /\
         ConversationMessage.sender m1 = SenderType.CUSTOMER /\
         ConversationMessage.message m1 = customer_message payload /\
         ConversationMessage.intent m1 = GoalOutcome.NONE) /\
        (ConversationMessage.campaign_lead_id m2 = CampaignLead.id link /\
         ConversationMessage.sender m2 = SenderType.AGENT /\
         ConversationMessage.message m2 = reply_text_of text_of answer /\
         ConversationMessage.intent m2 = GoalOutcome.NONE))
     \/
     (exists e s',
        agent_run (customer_message payload) link1
          ("campaign-lead-" ++ str_of_Z (CampaignLead.id link)) = Raise e /\
        handle_ agent_run link payload s = (s', Raise e) /\
        same_tables s' s /\ outbox s' = outbox s)).
Proof. exact (question_path_run agent_run link payload s). Qed.

End Service.

(** A campaign with two links, one of which reached its goal. *)
Definition demo_state : State :=
  {| clock := 10%Z; leads := CrmFacts.sample_leads;
     campaigns := AgentFacts.demo_campaigns;
     campaign_leads := [ CampaignLeadFacts.sample_link 1 "goal_met";
                         CampaignLeadFacts.sample_link 2 "sent" ];
     messages := []; outbox := [] |}.

Definition demo_strftime (t : Time) : string := "Friday, 06 November at 10:00".

Definition demo_text_of (v : Agent.obj) : string := "[...]".

Definition offline_agent (query : string) (link : CampaignLead.t) (thread : string)
  : result Agent.Dict :=
  Raise (Exn ExternalError "agent offline").

Definition demo_agent (query : string) (link : CampaignLead.t) (thread : string)
  : result Agent.Dict :=
  Ok [ ("route", Agent.OStr "rag");
       ("answer", Agent.OStr ("On " ++ thread ++ ": the tower has an infinity pool.")) ].

Definition visit_request : AgentResponseRequest :=
  {| campaign_lead_id := 2; customer_message := "Could I come for a viewing?";
     requested_goal := None; proposed_schedule := Some 42%Z |}.

Definition question_request : AgentResponseRequest :=
  {| campaign_lead_id := 2; customer_message := "Which amenities does it have?";
     requested_goal := None; proposed_schedule := None |}.

Lemma stated_goal_is_confirmed_witness :
  exists s' resp,
    handle_ demo_strftime demo_text_of offline_agent
      (CampaignLeadFacts.sample_link 2 "sent") visit_request demo_state
    = (s', Ok resp) /\
    goal_outcome resp = G_VISIT /\ List.length (messages s') = 2%nat.
Proof.
  destruct (stated_goal_is_confirmed demo_strftime demo_text_of offline_agent demo_agent
              (CampaignLeadFacts.sample_link 2 "sent") visit_request demo_state)
    as (_ & s' & m1 & m2 & f & lead & c & _ & _ & Hrun & Hm & _).
  - vm_compute. discriminate.
  - split; [reflexivity|]. split; eexists; reflexivity.
  - eexists. eexists. split; [exact Hrun|]. split; [reflexivity|].
    rewrite Hm. reflexivity.
Defined.

Lemma question_goes_to_the_agent_witness :
  exists s' resp,
    handle_ demo_strftime demo_text_of demo_agent
      (CampaignLeadFacts.sample_link 2 "sent") question_request demo_state
    = (s', Ok resp) /\
    reply resp = "On campaign-lead-2: the tower has an infinity pool." /\
    List.length (messages s') = 2%nat.
Proof.
  destruct (question_goes_to_the_agent demo_strftime demo_text_of demo_agent
              (CampaignLeadFacts.sample_link 2 "sent") question_request demo_state
              eq_refl eq_refl)
    as (link1 & _ & _ & [ (answer & s' & m1 & m2 & f & Hagent & Hrun & Hm & _)
                        | (e & s' & Hagent & _) ]).
  - eexists. eexists. split; [exact Hrun|]. split.
    + cbn [reply]. unfold demo_agent in Hagent. inversion Hagent. reflexivity.
    + rewrite Hm. reflexivity.
  - discriminate Hagent.
Defined.

End ConversationFacts.

(** ** campaigns/api.py: the reply endpoint and the dashboard *)

Module CampaignApiFacts.
Import Db Conversation CampaignApi Dashboard ConversationFacts.

(** A goal, once recorded, shows in the status. *)
Definition goal_recorded (r : CampaignLead.t) : Prop :=
  Orm.text_in (CampaignLead.goal_outcome r) [GoalOutcome.CALL; GoalOutcome.VISIT] = true ->
  CampaignLead.status r = MessageStatus.GOAL_MET.

Definition has_responded (r : CampaignLead.t) : bool :=
  Orm.text_in (CampaignLead.status r) [MessageStatus.RESPONDED; MessageStatus.GOAL_MET].

Definition has_goal (r : CampaignLead.t) : bool :=
  Orm.text_in (CampaignLead.goal_outcome r) [GoalOutcome.CALL; GoalOutcome.VISIT].

(** What a request may do to a row. *)
Definition row_step (r r' : CampaignLead.t) : Prop :=
  CampaignLead.id r' = CampaignLead.id r /\
  CampaignLead.campaign_id r' = CampaignLead.campaign_id r /\
  CampaignLead.lead_id r' = CampaignLead.lead_id r /\
  CampaignLead.personalized_message r' = CampaignLead.personalized_message r /\
  (has_responded r = true -> has_responded r' = true) /\
  (has_goal r = true -> has_goal r' = true).

Lemma row_step_refl (r : CampaignLead.t) : row_step r r.
Proof. repeat split; auto. Qed.

Lemma filter_length_le {A} (p : A -> bool) (l : list A) :
  (List.length (filter p l) <= List.length l)%nat.
Proof.
  induction l as [|x l IH]; [apply le_n|].
  cbn [filter]. destruct (p x); cbn [List.length]; lia.
Qed.

Lemma filter_length_mono {A} (p q : A -> bool) (l : list A) :
  (forall x, In x l -> p x = true -> q x = true) ->
  (List.length (filter p l) <= List.length (filter q l))%nat.
Proof.
  induction l as [|x l IH]; intros H; [apply le_n|].
  assert (IH' := IH (fun y Hy => H y (or_intror Hy))).
  cbn [filter]. destruct (p x) eqn:P.
  - rewrite (H x (or_introl eq_refl) P). cbn [List.length]. lia.
  - destruct (q x); cbn [List.length]; lia.
Qed.

Lemma count_step (p q : CampaignLead.t -> bool) (c : Campaign.t)
    (t t' : list CampaignLead.t) :
  Forall2 (fun r r' => CampaignLead.campaign_id r' = CampaignLead.campaign_id r /\
                       (p r = true -> q r' = true)) t t' ->
  (List.length (filter p (lead_links c t)) <= List.length (filter q (lead_links c t')))%nat.
Proof.
  unfold lead_links. induction 1 as [|r r' t t' (Hc & Hp) _ IH]; [apply le_n|].
  cbn [filter]. rewrite Hc.
  destruct (CampaignLead.campaign_id r =? Campaign.id c)%Z; [|exact IH].
  cbn [filter]. destruct (p r) eqn:P.
  - rewrite (Hp eq_refl). cbn [List.length]. lia.
  - destruct (q r'); cbn [List.length]; lia.
Qed.

Lemma count_same (p : CampaignLead.t -> bool) (c : Campaign.t)
    (t t' : list CampaignLead.t) :
  Forall2 (fun r r' => CampaignLead.campaign_id r' = CampaignLead.campaign_id r /\
                       p r' = p r) t t' ->
  List.length (filter p (lead_links c t')) = List.length (filter p (lead_links c t)).
Proof.
  unfold lead_links. induction 1 as [|r r' t t' (Hc & Hp) _ IH]; [reflexivity|].
  cbn [filter]. rewrite Hc.
  destruct (CampaignLead.campaign_id r =? Campaign.id c)%Z; [|exact IH].
  cbn [filter]. rewrite Hp. destruct (p r); cbn [List.length]; congruence.
Qed.

Lemma links_same (c : Campaign.t) (t t' : list CampaignLead.t) :
  Forall2 (fun r r' => CampaignLead.campaign_id r' = CampaignLead.campaign_id r) t t' ->
  List.length (lead_links c t') = List.length (lead_links c t).
Proof.
  unfold lead_links. induction 1 as [|r r' t t' Hc _ IH]; [reflexivity|].
  cbn [filter]. rewrite Hc.
  destruct (CampaignLead.campaign_id r =? Campaign.id c)%Z; [|exact IH].
  cbn [List.length]. congruence.
Qed.

Lemma Forall2_weaken {A B} (R R' : A -> B -> Prop) (l : list A) (l' : list B) :
  (forall a b, R a b -> R' a b) -> Forall2 R l l' -> Forall2 R' l l'.
Proof. intros H. induction 1; constructor; auto. Qed.

Lemma Forall2_same {A} (R : A -> A -> Prop) (l : list A) :
  (forall a, R a a) -> Forall2 R l l.
Proof. intros H. induction l; constructor; auto. Qed.

Lemma update_Forall2 (R : CampaignLead.t -> CampaignLead.t -> Prop) (key : Z)
    (f : CampaignLead.t -> CampaignLead.t) (table : list CampaignLead.t) :
  (forall r, R r r) ->
  (forall r, In r table -> CampaignLead.id r = key -> R r (f r)) ->
  Forall2 R table (Orm.update CampaignLead.t CampaignLead.id key f table).
Proof.
  intros Hrefl Hf. unfold Orm.update. apply CampaignLeadFacts.Forall2_map_r.
  intros r Hin. destruct (CampaignLead.id r =? key)%Z eqn:E.
  - apply Hf; [exact Hin | apply Z.eqb_eq; exact E].
  - apply Hrefl.
Qed.

Lemma unique_row (table : list CampaignLead.t) (a b : CampaignLead.t) :
  NoDup (map CampaignLead.id table) ->
  In a table -> In b table -> CampaignLead.id a = CampaignLead.id b -> a = b.
Proof.
  induction table as [|x table IH]; intros Hnd Ha Hb E; [destruct Ha|].
  cbn [map] in Hnd. inversion Hnd as [|? ? Hx Hnd']; subst.
  destruct Ha as [->|Ha], Hb as [->|Hb].
  - reflexivity.
  - exfalso. apply Hx. rewrite E. apply in_map. exact Hb.
  - exfalso. apply Hx. rewrite <- E. apply in_map. exact Ha.
  - apply IH; assumption.
Qed.

Lemma found_is_stored (table : list CampaignLead.t) (link : CampaignLead.t) :
  In link table ->
  Orm.exists_pk CampaignLead.t CampaignLead.id (CampaignLead.id link) table = true.
Proof.
  intros H. unfold Orm.exists_pk. apply existsb_exists. exists link.
  split; [exact H | apply Z.eqb_refl].
Qed.

Lemma insert_link_In (x y : CampaignLead.t) (l : list CampaignLead.t) :
  In y (insert_link x l) <-> y = x \/ In y l.
Proof.
  induction l as [|z l IH]; cbn [insert_link].
  - cbn. intuition.
  - destruct (CampaignLead.shortlisted_at z <=? CampaignLead.shortlisted_at x)%Z.
    + cbn. intuition.
    + cbn [In]. rewrite IH. intuition.
Qed.

Lemma insert_link_length (x : CampaignLead.t) (l : list CampaignLead.t) :
  List.length (insert_link x l) = S (List.length l).
Proof.
  induction l as [|z l IH]; cbn [insert_link]; [reflexivity|].
  destruct (CampaignLead.shortlisted_at z <=? CampaignLead.shortlisted_at x)%Z;
    cbn [List.length]; [reflexivity | rewrite IH; reflexivity].
Qed.

Lemma newest_first_In (y : CampaignLead.t) (l : list CampaignLead.t) :
  In y (newest_first l) <-> In y l.
Proof.
  unfold newest_first. induction l as [|x l IH]; cbn [fold_right]; [reflexivity|].
  rewrite insert_link_In, IH. cbn. intuition.
Qed.

Lemma newest_first_length (l : list CampaignLead.t) :
  List.length (newest_first l) = List.length l.
Proof.
  unfold newest_first. induction l as [|x l IH]; cbn [fold_right]; [reflexivity|].
  rewrite insert_link_length, IH. reflexivity.
Qed.

(** Listed newest first. *)
Fixpoint descending (l : list CampaignLead.t) : Prop :=
  match l with
  | [] => True
  | x :: rest =>
      (forall y, In y rest ->
         (CampaignLead.shortlisted_at y <= CampaignLead.shortlisted_at x)%Z) /\
      descending rest
  end.

Lemma insert_link_descending (x : CampaignLead.t) (l : list CampaignLead.t) :
  descending l -> descending (insert_link x l).
Proof.
  induction l as [|z l IH]; intros H; cbn [insert_link].
  - cbn. split; [intros y []|exact I].
  - destruct H as (Hz & Hl).
    destruct (CampaignLead.shortlisted_at z <=? CampaignLead.shortlisted_at x)%Z eqn:E.
    + apply Z.leb_le in E. cbn [descending]. split; [|split; assumption].
      intros y [<-|Hy]; [exact E|]. specialize (Hz y Hy). lia.
    + apply Z.leb_gt in E. cbn [descending]. split; [|exact (IH Hl)].
      intros y Hy. apply insert_link_In in Hy. destruct Hy as [->|Hy]; [lia|].
      exact (Hz y Hy).
Qed.

Lemma newest_first_descending (l : list CampaignLead.t) : descending (newest_first l).
Proof.
  unfold newest_first. induction l as [|x l IH]; cbn [fold_right]; [exact I|].
  apply insert_link_descending. exact IH.
Qed.

Section Endpoint.
Variable get_agent : result (string -> CampaignLead.t -> string -> result Agent.Dict).
Variable strftime : Time -> string.
Variable text_of : Agent.obj -> string.

Definition respond_ (user campaign_lead_id : Z) (payload : AgentResponseRequest)
  : M AgentResponseSchema :=
  agent_respond get_agent strftime text_of user campaign_lead_id payload.

Lemma respond_unfold (user pk : Z) (payload : AgentResponseRequest) (s : State) :
  respond_ user pk payload s =
  match AgentApi.get_campaign_lead_or_404 (campaign_leads s) (campaigns s) pk user with
  | Ok link =>
      match get_agent with
      | Ok agent_run => handle_ strftime text_of agent_run link payload s
      | Raise e => (s, Raise e)
      end
  | Raise e => (s, Raise e)
  end.
Proof.
  unfold respond_, agent_respond, handle_, Eff.bind, Eff.gets, Eff.lift.
  destruct (AgentApi.get_campaign_lead_or_404 (campaign_leads s) (campaigns s) pk user);
    [|reflexivity].
  destruct get_agent; reflexivity.
Qed.

(** The request either leaves the links alone or updates the row found. *)
Lemma respond_rows (user pk : Z) (payload : AgentResponseRequest) (s : State) :
  same_rest (fst (respond_ user pk payload s)) s /\
  (campaign_leads (fst (respond_ user pk payload s)) = campaign_leads s \/
   exists link f,
     In link (campaign_leads s) /\ CampaignLead.id link = pk /\
     campaign_leads (fst (respond_ user pk payload s))
     = Orm.update CampaignLead.t CampaignLead.id pk f (campaign_leads s) /\
     keeps_identity f /\
     ((forall r, CampaignLead.status (f r) = MessageStatus.GOAL_MET /\
                 has_goal (f r) = true) \/
      (forall r, CampaignLead.status (f r) =
                   (if String.eqb (CampaignLead.status link) MessageStatus.GOAL_MET
                    then MessageStatus.GOAL_MET else MessageStatus.RESPONDED) /\
                 CampaignLead.goal_outcome (f r) = CampaignLead.goal_outcome r))).
Proof.
  rewrite respond_unfold.
  destruct (AgentApi.get_campaign_lead_or_404 (campaign_leads s) (campaigns s) pk user)
    as [link|e] eqn:Hl.
  - destruct get_agent as [agent_run|e];
      [|cbn [fst]; split; [repeat split | left; reflexivity]].
    destruct (AgentApiFacts.lookup_found _ _ _ _ _ Hl) as (Hin & Hid & _).
    destruct (handle_rows strftime text_of agent_run link payload s
                (found_is_stored _ _ Hin)) as (Hrest & Hrows).
    split; [exact Hrest|].
    destruct Hrows as [Hsame|(f & Hup & Hk & Hf)]; [left; exact Hsame|].
    right. exists link, f. rewrite <- Hid. repeat split; try assumption.
    apply Hk. apply Hk. apply Hk. apply Hk.
  - cbn [fst]. split; [repeat split | left; reflexivity].
Qed.

Lemma respond_row_steps (user pk : Z) (payload : AgentResponseRequest) (s : State) :
  Forall2 row_step (campaign_leads s) (campaign_leads (fst (respond_ user pk payload s))).
Proof.
  destruct (respond_rows user pk payload s) as (_ & [Hsame|(link & f & _ & _ & Hup & Hk & Hf)]).
  - rewrite Hsame. apply Forall2_same. apply row_step_refl.
  - rewrite Hup. apply update_Forall2; [apply row_step_refl|].
    intros r _ _. destruct (Hk r) as (A & B & C & D).
    split; [exact A|]. split; [exact B|]. split; [exact C|]. split; [exact D|].
    destruct Hf as [Hf|Hf].
    + destruct (Hf r) as (St & G). split; intros _.
      * unfold has_responded. rewrite St. reflexivity.
      * exact G.
    + destruct (Hf r) as (St & G). split.
      * intros _. unfold has_responded. rewrite St.
        destruct (String.eqb (CampaignLead.status link) MessageStatus.GOAL_MET);
          reflexivity.
      * unfold has_goal. rewrite G. auto.
Qed.

(** X8. Whatever the request and its outcome (a reply, 404, no agent, an
    exception of the agent), [agent_respond] neither adds, removes nor reorders links and
    never moves a link to another campaign or lead or changes the message
    sent to it; so for every campaign [total_leads] and [messages_sent] are
    as before, and [responses_received] and [goals_completed] never
    decrease.  Leads, campaigns and mail are untouched. *)
Theorem respond_keeps_counters (user pk : Z) (payload : AgentResponseRequest)
    (s : State) (c : Campaign.t) :
  let s' := fst (respond_ user pk payload s) in
  Forall2 row_step (campaign_leads s) (campaign_leads s') /\
  total_leads c (campaign_leads s') = total_leads c (campaign_leads s) /\
  messages_sent c (campaign_leads s') = messages_sent c (campaign_leads s) /\
  (responses_received c (campaign_leads s) <= responses_received c (campaign_leads s'))%nat /\
  (goals_completed c (campaign_leads s) <= goals_completed c (campaign_leads s'))%nat /\
  leads s' = leads s /\ campaigns s' = campaigns s /\ outbox s' = outbox s.
Proof.
  cbv zeta. pose proof (respond_row_steps user pk payload s) as Hsteps.
  destruct (respond_rows user pk payload s) as ((Hl & Hc & Ho) & _).
  split; [exact Hsteps|].
  split.
  { unfold total_leads. apply links_same. eapply Forall2_weaken; [|exact Hsteps].
    intros a b (_ & H & _). exact H. }
  split.
  { unfold messages_sent. apply count_same. eapply Forall2_weaken; [|exact Hsteps].
    intros a b (_ & H & _ & Hm & _). split; [exact H|]. cbv beta. rewrite Hm. reflexivity. }
  split.
  { unfold responses_received. apply count_step. eapply Forall2_weaken; [|exact Hsteps].
    intros a b (_ & H & _ & _ & Hr & _). split; [exact H | exact Hr]. }
  split.
  { unfold goals_completed. apply count_step. eapply Forall2_weaken; [|exact Hsteps].
    intros a b (_ & H & _ & _ & _ & Hg). split; [exact H | exact Hg]. }
  repeat split; assumption.
Qed.

(** X9. When the keys of the links are unique, [agent_respond] never takes
    back a goal: a link with status [goal_met] keeps it, whatever the
    request; and the rule "a link with goal call or visit has status
    goal_met" carries over from the table before to the table after. *)
Theorem respond_keeps_goals (user pk : Z) (payload : AgentResponseRequest) (s : State) :
  NoDup (map CampaignLead.id (campaign_leads s)) ->
  Forall2 (fun r r' =>
             CampaignLead.id r' = CampaignLead.id r /\
             (CampaignLead.status r = MessageStatus.GOAL_MET ->
              CampaignLead.status r' = MessageStatus.GOAL_MET) /\
             (goal_recorded r -> goal_recorded r'))
          (campaign_leads s) (campaign_leads (fst (respond_ user pk payload s))).
Proof.
  intros Hnd.
  destruct (respond_rows user pk payload s)
    as (_ & [Hsame|(link & f & Hin & Hid & Hup & Hk & Hf)]).
  - rewrite Hsame. apply Forall2_same. intros a. repeat split; auto.
  - rewrite Hup. apply update_Forall2; [intros a; repeat split; auto|].
    intros r Hr Hrid. split; [apply Hk|].
    assert (r = link) by (apply (unique_row _ _ _ Hnd Hr Hin); congruence). subst r.
    destruct Hf as [Hf|Hf].
    + destruct (Hf link) as (St & _). split; intros _; [exact St | intros _; exact St].
    + destruct (Hf link) as (St & G). split.
      * intros Hgm. rewrite St, Hgm. reflexivity.
      * intros Hrec Hgoal. rewrite G in Hgoal. rewrite St, (Hrec Hgoal). reflexivity.
Qed.

End Endpoint.

Lemma respond_keeps_goals_witness :
  Forall2 (fun r r' =>
             CampaignLead.id r' = CampaignLead.id r /\
             (CampaignLead.status r = MessageStatus.GOAL_MET ->
              CampaignLead.status r' = MessageStatus.GOAL_MET) /\
             (goal_recorded r -> goal_recorded r'))
          (campaign_leads demo_state)
          (campaign_leads
             (fst (respond_ (Ok demo_agent) demo_strftime demo_text_of 1 1
                     question_request demo_state))).
Proof.
  apply (respond_keeps_goals (Ok demo_agent) demo_strftime demo_text_of 1 1
           question_request demo_state).
  cbn. constructor; [cbn; intros [H|[]]; discriminate H|].
  constructor; [intros []|constructor].
Defined.

(** X10. The dashboard endpoint reports a campaign only to the user who
    created it (404 otherwise, exactly when the user has no campaign with
    this key) and reads only: the links listed are exactly the links of this
    campaign, newest first, [total_leads] is their number, no other counter
    exceeds it,
    and when every recorded goal shows in the status, [goals_completed] is
    at most [leads_responded]. *)
Theorem campaign_dashboard_reports_own_campaign (user campaign_id : Z) (s : State) :
  match campaign_dashboard user campaign_id s with
  | (s', Ok (c, m, links)) =>
      s' = s /\ In c (campaigns s) /\
      Campaign.id c = campaign_id /\ Campaign.created_by c = user /\
      (forall l, In l links <->
                 In l (campaign_leads s) /\ CampaignLead.campaign_id l = campaign_id) /\
      descending links /\
      m_total_leads m = List.length links /\
      (m_messages_sent m <= m_total_leads m)%nat /\
      (m_leads_responded m <= m_total_leads m)%nat /\
      (m_goals_completed m <= m_total_leads m)%nat /\
      (Forall goal_recorded (campaign_leads s) ->
       (m_goals_completed m <= m_leads_responded m)%nat)
  | (s', Raise e) =>
      s' = s /\ e = Exn (HttpError 404) "Not Found" /\
      forall c, In c (campaigns s) -> Campaign.id c = campaign_id ->
                Campaign.created_by c <> user
  end.
Proof.
  unfold campaign_dashboard, Eff.bind, Eff.gets, Eff.lift, get_campaign_or_404.
  destruct (find _ (campaigns s)) as [c|] eqn:F.
  - apply find_some in F. destruct F as (Hin & Hb).
    apply andb_prop in Hb. destruct Hb as (H1 & H2).
    apply Z.eqb_eq in H1, H2.
    cbn [get_dashboard Eff.ret m_total_leads m_messages_sent m_leads_responded
         m_goals_completed]. unfold Eff.ret.
    split; [reflexivity|]. split; [exact Hin|]. split; [exact H1|]. split; [exact H2|].
    split.
    { intros l. rewrite newest_first_In. unfold lead_links.
      rewrite filter_In, Z.eqb_eq, H1. tauto. }
    split; [apply newest_first_descending|].
    split; [unfold total_leads; rewrite newest_first_length; reflexivity|].
    split; [apply filter_length_le|]. split; [apply filter_length_le|].
    split; [apply filter_length_le|].
    intros Hrec. unfold goals_completed, responses_received.
    apply filter_length_mono. intros l Hl Hgoal.
    apply filter_In in Hl. destruct Hl as (Hl & _).
    rewrite Forall_forall in Hrec. rewrite (Hrec l Hl Hgoal). reflexivity.
  - split; [reflexivity|]. split; [reflexivity|].
    intros c Hin Hid Hu.
    apply (find_none _ _ F) in Hin. rewrite Hid, Hu, !Z.eqb_refl in Hin. discriminate.
Qed.

End CampaignApiFacts.

(** ** campaigns/services.py: the mail a campaign sends *)

Module MailFacts.
Import Db CampaignService.

(** A computation adds at most [n] mails to the outbox, all satisfying [P],
    whatever its outcome. *)
Definition sends {A} (P : Email -> Prop) (n : nat) (m : M A) : Prop :=
  forall s, exists sent,
    outbox (fst (m s)) = (outbox s ++ sent)%list /\ Forall P sent /\
    (List.length sent <= n)%nat.

Lemma sends_nothing {A} (P : Email -> Prop) (m : M A) :
  (forall s, outbox (fst (m s)) = outbox s) -> sends P 0 m.
Proof.
  intros H s. exists []. rewrite H, app_nil_r. split; [reflexivity|].
  split; [constructor | apply le_n].
Qed.

Lemma sends_bind {A B} (P : Email -> Prop) (n1 n2 : nat) (m : M A) (k : A -> M B) :
  sends P n1 m -> (forall a, sends P n2 (k a)) -> sends P (n1 + n2) (Eff.bind m k).
Proof.
  intros Hm Hk s. destruct (Hm s) as (sent1 & E1 & F1 & L1).
  unfold Eff.bind. destruct (m s) as [s1 [a|e]]; cbn [fst] in E1.
  - destruct (Hk a s1) as (sent2 & E2 & F2 & L2).
    exists (sent1 ++ sent2)%list. rewrite E2, E1, app_assoc.
    split; [reflexivity|]. split; [apply Forall_app; split; assumption|].
    rewrite length_app. lia.
  - exists sent1. cbn [fst]. split; [exact E1|]. split; [exact F1 | lia].
Qed.

Lemma sends_lift {A B} (P : Email -> Prop) (n : nat) (r : result A) (k : A -> M B) :
  (forall a, r = Ok a -> sends P n (k a)) -> sends P n (Eff.bind (Eff.lift r) k).
Proof.
  intros Hk s. unfold Eff.bind, Eff.lift. destruct r as [a|e].
  - exact (Hk a eq_refl s).
  - exists []. cbn [fst]. rewrite app_nil_r. split; [reflexivity|].
    split; [constructor | apply Nat.le_0_l].
Qed.

Lemma sends_impl {A} (P Q : Email -> Prop) (n n' : nat) (m : M A) :
  (forall mail, P mail -> Q mail) -> (n <= n')%nat -> sends P n m -> sends Q n' m.
Proof.
  intros HPQ Hn Hm s. destruct (Hm s) as (sent & E & F & L).
  exists sent. split; [exact E|]. split; [|lia].
  eapply Forall_impl; [|exact F]. exact HPQ.
Qed.

Lemma sends_atomic {A} (P : Email -> Prop) (n : nat) (m : M A) :
  sends P n m -> sends P n (atomic m).
Proof.
  intros Hm s. destruct (Hm s) as (sent & E & F & L). exists sent.
  unfold atomic. destruct (m s) as [s1 [a|e]]; cbn [fst outbox] in *; auto.
Qed.

Lemma atomic_outbox {A} (m : M A) (s : State) :
  outbox (fst (atomic m s)) = outbox (fst (m s)).
Proof. unfold atomic. destruct (m s) as [s1 [a|e]]; reflexivity. Qed.

Section Service.
Variable settings : Settings.
Variable generate : Campaign.t -> Crm.Lead -> option string -> result PersonalizedMessage.
Variable send_mail : Email -> result unit.

(** A mail of the campaign [c] to one of the leads [found]: addressed to the
    configured test inbox and to nobody else, accepted by [send_mail], and
    carrying the message generated for that lead. *)
Definition campaign_mail (c : Campaign.t) (offer : option string)
    (found : list Crm.Lead) (mail : Email) : Prop :=
  recipient_list mail = [CAMPAIGN_EMAIL_OVERRIDE settings] /\
  CAMPAIGN_EMAIL_OVERRIDE settings <> EmptyString /\
  EMAIL_HOST_USER settings <> EmptyString /\
  EMAIL_HOST_PASSWORD settings <> EmptyString /\
  from_email mail = DEFAULT_FROM_EMAIL settings /\
  send_mail mail = Ok tt /\
  exists lead msg,
    In lead found /\ generate c lead offer = Ok msg /\
    body_text mail = body msg /\
    subject mail = "[" ++ Campaign.project_name c ++ "] Personalized follow-up for "
                   ++ full_name lead.

Lemma dispatch_sends (c : Campaign.t) (offer : option string) (lead : Crm.Lead)
    (msg : PersonalizedMessage) :
  generate c lead offer = Ok msg ->
  sends (campaign_mail c offer [lead]) 1 (_dispatch_email settings send_mail c lead (body msg)).
Proof.
  intros Hgen s. unfold _dispatch_email, Eff.raise, Eff.ret, Eff.modify.
  destruct (CAMPAIGN_EMAIL_OVERRIDE settings) as [|r0 r] eqn:Er; cbn [is_empty].
  { exists []. cbn [fst]. rewrite app_nil_r. repeat constructor. }
  destruct (EMAIL_HOST_USER settings) as [|u0 u] eqn:Eu; cbn [is_empty orb].
  { exists []. cbn [fst]. rewrite app_nil_r. repeat constructor. }
  destruct (EMAIL_HOST_PASSWORD settings) as [|p0 p] eqn:Ep; cbn [is_empty orb].
  { exists []. cbn [fst]. rewrite app_nil_r. repeat constructor. }
  match goal with |- context [send_mail ?m] => set (mail := m) end.
  destruct (send_mail mail) as [[]|e] eqn:Es.
  - exists [mail]. cbn [fst outbox set_outbox]. split; [reflexivity|].
    split; [|apply le_n]. constructor; [|constructor].
    unfold campaign_mail. rewrite Er, Eu, Ep.
    split; [reflexivity|]. split; [discriminate|]. split; [discriminate|].
    split; [discriminate|]. split; [reflexivity|]. split; [exact Es|].
    exists lead, msg. split; [left; reflexivity|]. split; [exact Hgen|].
    split; reflexivity.
  - exists []. rewrite app_nil_r.
    destruct (DEBUG settings); cbn [fst]; repeat constructor.
Qed.

Lemma create_campaign_lead_sends (c : Campaign.t) (offer : option string)
    (lead : Crm.Lead) (msg : PersonalizedMessage) :
  generate c lead offer = Ok msg ->
  sends (campaign_mail c offer [lead]) 1
        (_create_campaign_lead settings send_mail c lead msg).
Proof.
  intros Hgen. unfold _create_campaign_lead.
  apply (sends_bind _ 0 1); [apply sends_nothing; reflexivity|]. intros dispatched.
  apply (sends_bind _ 0 1); [apply sends_nothing; reflexivity|]. intros link.
  apply (sends_bind _ 0 1); [apply sends_nothing; reflexivity|]. intros _.
  apply (sends_bind _ 1 0); [exact (dispatch_sends c offer lead msg Hgen)|]. intros _.
  apply sends_nothing; reflexivity.
Qed.

Lemma for_each_lead_sends (c : Campaign.t) (offer : option string)
    (found : list Crm.Lead) :
  sends (campaign_mail c offer found) (List.length found)
        (for_each_lead settings generate send_mail c offer found).
Proof.
  induction found as [|lead rest IH]; cbn [for_each_lead List.length].
  - apply sends_nothing; reflexivity.
  - apply (sends_lift _ (S (List.length rest))). intros msg Hgen.
    apply (sends_bind _ 1 (List.length rest)).
    + eapply sends_impl;
        [| apply le_n | exact (create_campaign_lead_sends c offer lead msg Hgen)].
      intros mail (A & B & C & D & E & F & l & m & Hin & G).
      repeat (split; [assumption|]). exists l, m.
      split; [destruct Hin as [<-|[]]; left; reflexivity | exact G].
    + intros _. eapply sends_impl; [| apply le_n | exact IH].
      intros mail (A & B & C & D & E & F & l & m & Hin & G).
      repeat (split; [assumption|]). exists l, m.
      split; [right; exact Hin | exact G].
Qed.

Lemma create_campaign_outbox (user : Z) (payload : CampaignCreateRequest)
    (s : State) :
  let found := leads_with_ids (lead_ids payload) (leads s) in
  let s' := fst (create_campaign settings generate send_mail user payload s) in
  exists sent,
    outbox s' = (outbox s ++ sent)%list /\
    (List.length sent <= List.length found)%nat /\
    Forall (fun mail =>
              exists c,
                Campaign.project_name c = project_name payload /\
                Campaign.created_by c = user /\
                campaign_mail c (offer_details payload) found mail)
           sent.
Proof.
  cbv zeta. unfold create_campaign. rewrite atomic_outbox.
  destruct (lead_ids payload) as [|i0 ids] eqn:Eids.
  { exists []. cbn [fst Eff.raise]. rewrite app_nil_r. split; [reflexivity|].
    split; [apply Nat.le_0_l | constructor]. }
  unfold Eff.bind at 1, Eff.gets at 1.
  destruct (missing_ids (i0 :: ids) (leads_with_ids (i0 :: ids) (leads s))) as [|j0 js].
  2:{ exists []. cbn [fst Eff.raise]. rewrite app_nil_r. split; [reflexivity|].
      split; [apply Nat.le_0_l | constructor]. }
  unfold Eff.bind at 1.
  destruct (create_campaign_row (name payload) (project_name payload)
              (MessageChannel.value (message_channel payload))
              (str_or (offer_details payload) EmptyString)
              (dict_or_empty (filters_snapshot payload)) user s)
    as [s1 [c|e]] eqn:Ec.
  2:{ unfold create_campaign_row, Eff.bind, now in Ec. discriminate Ec. }
  assert (Hc : outbox s1 = outbox s /\ Campaign.project_name c = project_name payload /\
               Campaign.created_by c = user).
  { unfold create_campaign_row, Eff.bind, now in Ec. inversion Ec; subst.
    repeat split. }
  destruct Hc as (Ho & Hp & Hu).
  destruct (for_each_lead_sends c (offer_details payload)
              (leads_with_ids (i0 :: ids) (leads s)) s1) as (sent & E & F & L).
  exists sent. unfold Eff.bind, Eff.ret.
  destruct (for_each_lead settings generate send_mail c (offer_details payload)
              (leads_with_ids (i0 :: ids) (leads s)) s1) as [s2 [[]|e]];
    cbn [fst] in *; rewrite E, Ho;
    (split; [reflexivity|]); (split; [exact L|]);
    (eapply Forall_impl; [|exact F]); intros mail Hm; exists c; auto.
Qed.

(** X11. Whatever the request and its outcome, the mails [create_campaign]
    sends are appended to those already sent, at most one per requested lead
    that exists; each goes to [CAMPAIGN_EMAIL_OVERRIDE] and to no other
    address, is sent only with the override and
    the credentials configured, comes from [DEFAULT_FROM_EMAIL], and carries
    the message generated for one of these leads under the project of the
    request. *)
Theorem campaign_mail_goes_to_the_override (user : Z) (payload : CampaignCreateRequest)
    (s : State) :
  let found := leads_with_ids (lead_ids payload) (leads s) in
  let s' := fst (create_campaign settings generate send_mail user payload s) in
  exists sent,
    outbox s' = (outbox s ++ sent)%list /\
    (List.length sent <= List.length found)%nat /\
    Forall (fun mail =>
              exists c,
                Campaign.project_name c = project_name payload /\
                Campaign.created_by c = user /\
                campaign_mail c (offer_details payload) found mail)
           sent.
Proof. exact (create_campaign_outbox user payload s). Qed.

(** With the mail settings complete and a mail server that accepts every
    mail, the mail step sends one mail. *)
Definition mail_works : Prop :=
  CAMPAIGN_EMAIL_OVERRIDE settings <> EmptyString /\
  EMAIL_HOST_USER settings <> EmptyString /\
  EMAIL_HOST_PASSWORD settings <> EmptyString /\
  forall mail, send_mail mail = Ok tt.

Lemma create_campaign_lead_sent (c : Campaign.t) (lead : Crm.Lead)
    (msg : PersonalizedMessage) (s : State) :
  mail_works ->
  exists s' link mail,
    _create_campaign_lead settings send_mail c lead msg s = (s', Ok link) /\
    outbox s' = (outbox s ++ [mail])%list.
Proof.
  intros (Hr & Hu & Hp & Hs).
  unfold _create_campaign_lead, create_campaign_lead_row, create_message_row,
    _dispatch_email, Eff.bind, Eff.ret, Eff.modify, now.
  destruct (CAMPAIGN_EMAIL_OVERRIDE settings) as [|r0 r]; [congruence|].
  destruct (EMAIL_HOST_USER settings) as [|u0 u]; [congruence|].
  destruct (EMAIL_HOST_PASSWORD settings) as [|p0 p]; [congruence|].
  cbn [is_empty orb]. rewrite Hs.
  eexists. eexists. eexists. split; reflexivity.
Qed.

Lemma for_each_lead_stops (c : Campaign.t) (offer : option string)
    (pre : list Crm.Lead) (bad : Crm.Lead) (post : list Crm.Lead) (e : exn) :
  mail_works ->
  (forall lead, In lead pre -> exists msg, generate c lead offer = Ok msg) ->
  generate c bad offer = Raise e ->
  forall s, exists s' sent,
    for_each_lead settings generate send_mail c offer (pre ++ bad :: post)%list s
    = (s', Raise e) /\
    outbox s' = (outbox s ++ sent)%list /\ List.length sent = List.length pre.
Proof.
  intros Hw Hpre Hbad. induction pre as [|lead pre IH]; intros s.
  - exists s, []. cbn [app for_each_lead]. unfold Eff.bind, Eff.lift. rewrite Hbad.
    rewrite app_nil_r. repeat split.
  - destruct (Hpre lead (or_introl eq_refl)) as (msg & Hgen).
    destruct (create_campaign_lead_sent c lead msg s Hw) as (s1 & link & mail & Hrun & Ho).
    destruct (IH (fun l Hl => Hpre l (or_intror Hl)) s1) as (s' & sent & Hrest & Ho' & Hlen).
    exists s', (mail :: sent).
    cbn [app for_each_lead]. unfold Eff.bind, Eff.lift. rewrite Hgen, Hrun, Hrest.
    split; [reflexivity|]. split.
    + rewrite Ho', Ho, <- app_assoc. reflexivity.
    + cbn [List.length]. rewrite Hlen. reflexivity.
Qed.

(** X12. The mails of a campaign are not part of its transaction.  With the
    mail settings complete and a server that accepts every mail, when every
    requested key has a lead and message generation fails at one of the
    leads after succeeding for those before it, [create_campaign] raises
    that exception and restores every table (no campaign, no link, no
    conversation entry is left), yet one mail per earlier lead has been
    sent. *)
Theorem campaign_mail_survives_rollback (user : Z) (payload : CampaignCreateRequest)
    (s : State) (pre : list Crm.Lead) (bad : Crm.Lead) (post : list Crm.Lead) (e : exn) :
  mail_works ->
  (forall i, In i (lead_ids payload) -> exists l, In l (leads s) /\ Crm.id l = i) ->
  leads_with_ids (lead_ids payload) (leads s) = (pre ++ bad :: post)%list ->
  (forall c lead, In lead pre -> exists msg, generate c lead (offer_details payload) = Ok msg) ->
  (forall c, generate c bad (offer_details payload) = Raise e) ->
  exists s' sent,
    create_campaign settings generate send_mail user payload s = (s', Raise e) /\
    same_tables s' s /\
    outbox s' = (outbox s ++ sent)%list /\
    List.length sent = List.length pre.
Proof.
  intros Hw Hall Hfound Hpre Hbad.
  unfold create_campaign, atomic.
  destruct (lead_ids payload) as [|i0 ids] eqn:Eids.
  { cbn in Hfound. unfold leads_with_ids in Hfound.
    assert (Hin : In bad (filter (fun lead => id_in [] (Crm.id lead)) (leads s)))
      by (rewrite Hfound; apply in_or_app; right; left; reflexivity).
    apply filter_In in Hin. destruct Hin as (_ & Hin). discriminate Hin. }
  unfold Eff.bind at 1, Eff.gets at 1.
  rewrite (CampaignServiceFacts.missing_ids_nil (i0 :: ids) (leads s) Hall).
  unfold Eff.bind at 1.
  destruct (create_campaign_row (name payload) (project_name payload)
              (MessageChannel.value (message_channel payload))
              (str_or (offer_details payload) EmptyString)
              (dict_or_empty (filters_snapshot payload)) user s)
    as [s1 [c|e1]] eqn:Ec.
  2:{ unfold create_campaign_row, Eff.bind, now in Ec. discriminate Ec. }
  assert (Ho : outbox s1 = outbox s).
  { unfold create_campaign_row, Eff.bind, now in Ec. inversion Ec; subst. reflexivity. }
  rewrite Hfound.
  destruct (for_each_lead_stops c (offer_details payload) pre bad post e Hw
              (Hpre c) (Hbad c) s1) as (s2 & sent & Hrun & Ho2 & Hlen).
  unfold Eff.bind. rewrite Hrun.
  eexists. exists sent. split; [reflexivity|]. split; [repeat split|].
  cbn [outbox]. rewrite Ho2, Ho. split; [reflexivity | exact Hlen].
Qed.

End Service.

(** The generator fails at the lead with key 3. *)
Definition failing_generate (c : Campaign.t) (lead : Crm.Lead) (offer : option string)
  : result PersonalizedMessage :=
  if (Crm.id lead =? 3)%Z
  then Raise (Exn ExternalError "model unavailable")
  else CampaignServiceFacts.demo_generate c lead offer.

Definition two_leads : CampaignCreateRequest :=
  {| name := "Nurturing Campaign 2"; project_name := "Altura";
     message_channel := MessageChannel.EMAIL; offer_details := None;
     lead_ids := [2%Z; 3%Z]; filters_snapshot := None |}.

Lemma campaign_mail_survives_rollback_witness :
  exists s' sent,
    create_campaign (CampaignServiceFacts.settings_with_recipient "inbox@example.com")
      failing_generate CampaignServiceFacts.demo_send_mail 7 two_leads
      CampaignServiceFacts.demo_state
    = (s', Raise (Exn ExternalError "model unavailable")) /\
    campaigns s' = [] /\ campaign_leads s' = [] /\
    outbox s' = sent /\ List.length sent = 1%nat.
Proof.
  destruct (campaign_mail_survives_rollback
              (CampaignServiceFacts.settings_with_recipient "inbox@example.com")
              failing_generate CampaignServiceFacts.demo_send_mail 7 two_leads
              CampaignServiceFacts.demo_state
              [CrmFacts.sample_lead 2 (Some 500000%Q) (Some 800000%Q)]
              (CrmFacts.sample_lead 3 (Some 500000%Q) None) []
              (Exn ExternalError "model unavailable"))
    as (s' & sent & Hrun & (_ & Hc & Hcl & _) & Ho & Hlen).
  - repeat split; discriminate.
  - intros i [<-|[<-|[]]].
    + exists (CrmFacts.sample_lead 2 (Some 500000%Q) (Some 800000%Q)).
      split; [right; left; reflexivity | reflexivity].
    + exists (CrmFacts.sample_lead 3 (Some 500000%Q) None).
      split; [right; right; left; reflexivity | reflexivity].
  - reflexivity.
  - intros c lead [<-|[]]. eexists. reflexivity.
  - intros c. reflexivity.
  - exists s', sent. split; [exact Hrun|]. split; [exact Hc|]. split; [exact Hcl|].
    split; [exact Ho | exact Hlen].
Defined.

End MailFacts.

(** ** crm/api.py: the shortlist endpoint *)

Module CrmApiFacts.
Import Crm CrmApi.

(** The leads the filters of a request select. *)
Definition selected (all_leads : list Lead) (c : LeadFilterRequest) : list Lead :=
  shortlist all_leads (f_project_names c) (f_unit_types c) (f_lead_status c)
            (f_last_conversation_from c) (f_last_conversation_to c)
            (f_budget_min c) (f_budget_max c).


End CrmApiFacts.

(** ** agents/ingestion.py and agents/rag.py: the name of a collection *)

Module CollectionFacts.

Lemma lower_char_replace (c : ascii) :
  lower_char (if Ascii.eqb c " " then "_"%char else c)
  = if Ascii.eqb (lower_char c) " " then "_"%char else lower_char c.
Proof.
  destruct c as [b0 b1 b2 b3 b4 b5 b6 b7].
  destruct b0, b1, b2, b3, b4, b5, b6, b7; reflexivity.
Qed.

Lemma lower_replace (s : string) :
  lower (replace_char " " "_" s) = replace_char " " "_" (lower s).
Proof.
  induction s as [|c s IH]; [reflexivity|].
  cbn [replace_char lower]. rewrite IH, lower_char_replace. reflexivity.
Qed.

Lemma replace_replace (s : string) :
  replace_char " " "_" (replace_char " " "_" s) = replace_char " " "_" s.
Proof.
  induction s as [|c s IH]; [reflexivity|].
  cbn [replace_char]. rewrite IH. f_equal.
  destruct (Ascii.eqb c " ") eqn:E; [reflexivity | rewrite E; reflexivity].
Qed.

Lemma replace_no_space (s : string) :
  contains " " (replace_char " " "_" s) = false.
Proof.
  induction s as [|c s IH]; [reflexivity|].
  cbn [replace_char contains]. rewrite IH, orb_false_r.
  destruct (Ascii.eqb c " ") eqn:E.
  - reflexivity.
  - cbn [prefix]. destruct (ascii_dec " " c) as [<-|_]; [|reflexivity].
    rewrite Ascii.eqb_refl in E. discriminate E.
Qed.

Lemma is_empty_lower (s : string) : is_empty (lower s) = is_empty s.
Proof. destruct s; reflexivity. Qed.

Lemma is_empty_replace (a b : ascii) (s : string) :
  is_empty (replace_char a b s) = is_empty s.
Proof. destruct s; reflexivity. Qed.

(** X14. The collection a brochure is indexed in, as a function of its
    project name: "projects" exactly for the empty name; otherwise
    "project_" followed by a non-empty normal form, so never the default
    collection.  The name never holds a space, is in lower case, and is the
    same for two project names that differ only in case or in spaces written
    as underscores.  Retrieval with the default collection "projects" reads
    the very collection ingestion writes. *)
Theorem collection_name_normal_form (project_name : string) :
  (project_name = EmptyString <-> Ingestion._collection_name project_name = "projects") /\
  (project_name <> EmptyString ->
   exists normalized,
     normalized <> EmptyString /\
     Ingestion._collection_name project_name = "project_" ++ normalized) /\
  contains " " (Ingestion._collection_name project_name) = false /\
  lower (Ingestion._collection_name project_name)
  = Ingestion._collection_name project_name /\
  Ingestion._collection_name (lower project_name)
  = Ingestion._collection_name project_name /\
  Ingestion._collection_name (replace_char " " "_" project_name)
  = Ingestion._collection_name project_name /\
  RagService._collection_name "projects" (Some project_name)
  = Ingestion._collection_name project_name /\
  RagService._collection_name "projects" None = "projects".
Proof.
  unfold Ingestion._collection_name, RagService._collection_name.
  destruct project_name as [|c t].
  - cbn. repeat split; try reflexivity; try congruence.
  - cbn [is_empty negb RagService.named RagService.text].
    split.
    { split; [discriminate|]. cbn [lower replace_char append]. intros H.
      apply (f_equal (fun s => String.get 7 s)) in H. cbn in H.
      destruct t; discriminate H. }
    split.
    { intros _. eexists. split; [|reflexivity]. discriminate. }
    split.
    { change (contains " " ("project_" ++ replace_char " " "_" (lower (String c t))))
        with (contains " " (replace_char " " "_" (lower (String c t)))) at 1.
      apply replace_no_space. }
    split.
    { change (lower ("project_" ++ replace_char " " "_" (lower (String c t))))
        with ("project_" ++ lower (replace_char " " "_" (lower (String c t)))).
      rewrite lower_replace, GoalFacts.lower_idem. reflexivity. }
    split.
    { rewrite is_empty_lower. cbn [is_empty negb].
      rewrite GoalFacts.lower_idem. reflexivity. }
    split.
    { rewrite is_empty_replace. cbn [is_empty negb].
      rewrite lower_replace, replace_replace. reflexivity. }
    split; reflexivity.
Qed.

End CollectionFacts.

(** ** agents/ingestion.py: _detect_project_name *)

Module DetectFacts.
Import Crm.

Definition all_projects : list ProjectName :=
  [ALTURA; BEACHGATE; DAMAC_BAY; DLF_WEST_PARK;
   GODREJ_VISTAS; LUMINA_GRAND; SOBHA_CREST; SOBHA_WAVES].

(** The file name as it is searched: lower case, "-" and "_" read as
    spaces. *)
Definition normalized (filename : string) : string :=
  replace_char "_" " " (replace_char "-" " " (lower filename)).

(** The label of the project occurs in the file name. *)
Definition named_in (filename : string) (p : ProjectName) : bool :=
  contains (lower (project_value p)) (normalized filename).

Lemma lower_char_dash (c : ascii) :
  lower_char (if Ascii.eqb c "-" then " "%char else c)
  = if Ascii.eqb (lower_char c) "-" then " "%char else lower_char c.
Proof.
  destruct c as [b0 b1 b2 b3 b4 b5 b6 b7].
  destruct b0, b1, b2, b3, b4, b5, b6, b7; reflexivity.
Qed.

Lemma lower_char_underscore (c : ascii) :
  lower_char (if Ascii.eqb c "_" then " "%char else c)
  = if Ascii.eqb (lower_char c) "_" then " "%char else lower_char c.
Proof.
  destruct c as [b0 b1 b2 b3 b4 b5 b6 b7].
  destruct b0, b1, b2, b3, b4, b5, b6, b7; reflexivity.
Qed.

Lemma separators_once (c : ascii) :
  let dash x := if Ascii.eqb x "-" then " "%char else x in
  let under x := if Ascii.eqb x "_" then " "%char else x in
  under (dash (dash c)) = under (dash c) /\
  under (dash (under c)) = under (dash c).
Proof.
  destruct c as [b0 b1 b2 b3 b4 b5 b6 b7].
  destruct b0, b1, b2, b3, b4, b5, b6, b7; split; reflexivity.
Qed.

Lemma normalized_lower (filename : string) :
  normalized (lower filename) = normalized filename.
Proof. unfold normalized. rewrite GoalFacts.lower_idem. reflexivity. Qed.

Lemma normalized_dash (filename : string) :
  normalized (replace_char "-" " " filename) = normalized filename.
Proof.
  unfold normalized. induction filename as [|c t IH]; [reflexivity|].
  cbn [replace_char lower]. rewrite IH. f_equal.
  rewrite lower_char_dash. apply (proj1 (separators_once (lower_char c))).
Qed.

Lemma normalized_underscore (filename : string) :
  normalized (replace_char "_" " " filename) = normalized filename.
Proof.
  unfold normalized. induction filename as [|c t IH]; [reflexivity|].
  cbn [replace_char lower]. rewrite IH. f_equal.
  rewrite lower_char_underscore. apply (proj2 (separators_once (lower_char c))).
Qed.

Lemma detect_of_normalized (filename : string) :
  Ingestion._detect_project_name filename =
  match find (named_in filename) all_projects with
  | Some p => project_value p
  | None => EmptyString
  end.
Proof.
  unfold Ingestion._detect_project_name, project_choices, all_projects, named_in.
  fold (normalized filename). cbn [map find].
  repeat match goal with
         | |- context [contains ?l (normalized filename)] =>
             destruct (contains l (normalized filename)); [reflexivity|]
         end.
  reflexivity.
Qed.


End DetectFacts.

(** ** agents/rag.py: retrieval and its fallbacks *)

Module RagFacts.
Import Rag RagService.

Definition document_of (pair : string * option (list (string * string))) : Document :=
  {| page_content := fst pair; metadata := list_or_empty (snd pair) |}.

Lemma collect_firstn (limit : Z) (pairs : list (string * option (list (string * string)))) :
  forall result,
    collect limit pairs result =
    (result ++ firstn (Z.to_nat (Z.max 1 (limit - Z.of_nat (List.length result))))
                      (map document_of pairs))%list.
Proof.
  induction pairs as [|[content meta] rest IH]; intros result.
  - cbn [collect map]. rewrite firstn_nil, app_nil_r. reflexivity.
  - cbn [collect map]. rewrite length_app. cbn [List.length].
    destruct (Z.of_nat (List.length result + 1) >=? limit)%Z eqn:E.
    + apply Z.geb_le in E.
      replace (Z.max 1 (limit - Z.of_nat (List.length result)))%Z with 1%Z by lia.
      reflexivity.
    + assert (E' : (Z.of_nat (List.length result + 1) < limit)%Z).
      { destruct (Z.geb_spec (Z.of_nat (List.length result + 1)) limit); [discriminate | lia]. }
      rewrite IH, length_app. cbn [List.length].
      replace (Z.to_nat (Z.max 1 (limit - Z.of_nat (List.length result))))
        with (S (Z.to_nat (Z.max 1 (limit - Z.of_nat (List.length result + 1))))) by lia.
      cbn [firstn]. rewrite <- app_assoc. reflexivity.
Qed.

Section Service.
Variable default_collection : string.
Variable for_collection : string -> result unit.
Variable similarity_search : string -> string -> Z -> result (list Document).
Variable store_get : string -> option string -> option Z -> result Raw.

Definition fallback_ := _fallback_documents store_get.
Definition get_ := get_documents default_collection for_collection similarity_search store_get.

(** X16. [_fallback_documents] asks the store once, filtered on the project
    and limited only when a project is named, pairs contents with metadata
    up to the shorter of the two lists, and keeps the first max(1, limit)
    pairs in their order: with a limit of 0 or less it still returns one
    document when the store has any.  A failure of the store is
    forwarded. *)
Theorem fallback_keeps_the_first_documents (store : string)
    (project_name : option string) (limit : Z) :
  let where_ := if named project_name then project_name else None in
  let asked := store_get store where_ (if named project_name then Some limit else None) in
  match fallback_ store project_name limit with
  | Ok docs =>
      exists raw,
        asked = Ok raw /\
        docs = firstn (Z.to_nat (Z.max 1 limit))
                 (map document_of (combine (list_or_empty (raw_documents raw))
                                           (list_or_empty (raw_metadatas raw)))) /\
        (Z.of_nat (List.length docs) <= Z.max 1 limit)%Z /\
        (list_or_empty (raw_documents raw) <> [] ->
         list_or_empty (raw_metadatas raw) <> [] -> docs <> [])
  | Raise e => asked = Raise e
  end.
Proof.
  cbv zeta. unfold fallback_, _fallback_documents.
  assert (Hw : match (if named project_name then project_name else None) with
               | Some _ => Some limit
               | None => None
               end = if named project_name then Some limit else None).
  { destruct project_name as [p|]; [|reflexivity]. cbn [named].
    destruct (negb (is_empty p)); reflexivity. }
  rewrite Hw.
  destruct (store_get store _ _) as [raw|e]; cbn [and_then]; [|reflexivity].
  exists raw. split; [reflexivity|].
  rewrite collect_firstn. cbn [app List.length]. rewrite Z.sub_0_r.
  split; [reflexivity|]. split.
  - rewrite length_firstn. lia.
  - destruct (list_or_empty (raw_documents raw)) as [|d ds]; [congruence|].
    destruct (list_or_empty (raw_metadatas raw)) as [|m ms]; [congruence|].
    intros _ _. cbn [combine map].
    destruct (Z.to_nat (Z.max 1 limit)) eqn:E; [lia|]. discriminate.
Qed.

(** X17. [get_documents] first searches the collection of the project with
    the query itself: when that store opens and answers a non-empty query
    with documents, exactly these are returned.  It returns no documents
    only if the search of that collection and the raw fallback on it both
    came back empty.  A failure to open the collection is forwarded. *)
Theorem get_documents_prefers_the_project (project_name : option string)
    (query : string) (limit : Z) :
  let collection := _collection_name default_collection project_name in
  (forall docs,
     for_collection collection = Ok tt ->
     query <> EmptyString ->
     similarity_search collection query limit = Ok docs -> docs <> [] ->
     get_ project_name query limit = Ok {| documents := docs |}) /\
  (forall r,
     get_ project_name query limit = Ok r -> documents r = [] ->
     _similarity_search_with_variants similarity_search collection project_name query limit
     = Ok [] /\
     fallback_ collection project_name limit = Ok []) /\
  (forall e, for_collection collection = Raise e ->
             get_ project_name query limit = Raise e).
Proof.
  cbv zeta. unfold get_, get_documents, fallback_.
  set (collection := _collection_name default_collection project_name).
  split; [|split].
  - intros docs Hopen Hq Hs Hne. rewrite Hopen. cbn [and_then].
    unfold _similarity_search_with_variants at 1, search_prompts.
    destruct query as [|c t]; [congruence|]. cbn [search is_empty].
    rewrite Hs. cbn [and_then]. destruct docs as [|d ds]; [congruence|].
    reflexivity.
  - intros r. destruct (for_collection collection) as [[]|e]; cbn [and_then]; [|discriminate].
    destruct (_similarity_search_with_variants similarity_search collection
                project_name query limit) as [[|d ds]|e]; cbn [and_then is_nil andb];
      [| |discriminate].
    + destruct (named project_name).
      * destruct (for_collection default_collection) as [[]|e]; cbn [and_then];
          [|discriminate].
        destruct (_similarity_search_with_variants similarity_search default_collection
                    None query limit) as [[|d ds]|e]; cbn [and_then is_nil];
          [| intros H; inversion H; subst; discriminate | discriminate].
        destruct (_fallback_documents store_get default_collection project_name limit)
          as [[|d ds]|e]; cbn [and_then is_nil];
          [| intros H; inversion H; subst; discriminate | discriminate].
        destruct (_fallback_documents store_get collection project_name limit)
          as [[|d ds]|e]; cbn [and_then];
          [ auto | intros H; inversion H; subst; discriminate | discriminate ].
      * cbn [and_then is_nil].
        destruct (_fallback_documents store_get collection project_name limit)
          as [[|d ds]|e]; cbn [and_then];
          [ auto | intros H; inversion H; subst; discriminate | discriminate ].
    + intros H; inversion H; subst; discriminate.
  - intros e He. rewrite He. reflexivity.
Qed.

End Service.

Definition demo_store (collection prompt : string) (k : Z) : result (list Document) :=
  if String.eqb collection "project_sobha_waves"
  then Ok [{| page_content := "Sea-facing towers."; metadata := [("source", "waves.pdf")] |}]
  else Ok [].

Lemma get_documents_prefers_the_project_witness :
  get_ "projects" (fun _ => Ok tt) demo_store
    (fun _ _ _ => Ok {| raw_documents := None; raw_metadatas := None |})
    (Some "Sobha Waves") "amenities" 4
  = Ok {| documents := [{| page_content := "Sea-facing towers.";
                           metadata := [("source", "waves.pdf")] |}] |}.
Proof.
  apply (proj1 (get_documents_prefers_the_project "projects" (fun _ => Ok tt) demo_store
                  (fun _ _ _ => Ok {| raw_documents := None; raw_metadatas := None |})
                  (Some "Sobha Waves") "amenities" 4)).
  - reflexivity.
  - discriminate.
  - reflexivity.
  - discriminate.
Defined.

End RagFacts.

(** ** agents/t2sql.py: the result of a run of the SQL agent *)

Module T2SQLServiceFacts.
Import T2SQL T2SQLService.

(** The last execution of the SQL tool among the steps. *)
Fixpoint last_executed (steps : list step) : option (string * ToolResult) :=
  match steps with
  | [] => None
  | Executed args_sql result :: rest =>
      match last_executed rest with
      | Some later => Some later
      | None => Some (args_sql, result)
      end
  | Yielded _ :: rest => last_executed rest
  end.

(** The non-empty texts yielded, in order. *)
Fixpoint texts (steps : list step) : list string :=
  match steps with
  | [] => []
  | Yielded (Some (String c t)) :: rest => String c t :: texts rest
  | _ :: rest => texts rest
  end.

(** The rows recorded of one execution: the results of the metadata when
    they are a non-empty list, else the rows of the UI component when there
    is one, and nothing when what is found is not a list. *)
Definition recorded_rows (result : ToolResult) : list row :=
  match metadata_results result with
  | Some (RowsList (r :: rs)) => r :: rs
  | found =>
      if rows_truthy found then []
      else match ui_component result with
           | Some (Some (RowsList l)) => l
           | _ => []
           end
  end.

Lemma execute_rows (args_sql : string) (result : ToolResult) (st : ServiceState) :
  _last_rows (execute args_sql result st) = recorded_rows result.
Proof.
  unfold execute, recorded_rows. cbn [_last_rows].
  destruct (metadata_results result) as [[[|r rs]|[|]]|]; cbn [rows_truthy negb];
    try reflexivity;
    destruct (ui_component result) as [[[l|b]|]|]; reflexivity.
Qed.

Lemma iterate_spec (steps : list step) :
  forall st parts,
    iterate steps st parts =
    (match last_executed steps with
     | Some (args_sql, result) =>
         {| _last_sql := Some args_sql; _last_rows := recorded_rows result;
            _last_message := result_for_llm result |}
     | None => st
     end,
     (parts ++ texts steps)%list).
Proof.
  induction steps as [|[args_sql result|text] rest IH]; intros st parts.
  - cbn. rewrite app_nil_r. reflexivity.
  - cbn [iterate last_executed texts]. rewrite IH.
    destruct (last_executed rest) as [[q r]|]; [reflexivity|].
    f_equal. unfold execute at 1.
    rewrite <- (execute_rows args_sql result st). reflexivity.
  - cbn [iterate last_executed texts]. rewrite IH.
    destruct text as [[|c t]|]; [reflexivity| |reflexivity].
    rewrite <- app_assoc. reflexivity.
Qed.

Lemma filter_texts (steps : list step) :
  filter (fun part => negb (is_empty part)) (texts steps) = texts steps.
Proof.
  induction steps as [|[q r|[[|c t]|]] rest IH]; cbn [texts filter]; try exact IH.
  - reflexivity.
  - cbn [is_empty negb]. rewrite IH. reflexivity.
Qed.

Section Service.
Variable send_message : string -> list step * option exn.


End Service.

Definition demo_steps : list step :=
  [ Yielded None;
    Executed "SELECT COUNT(*) AS n FROM crm_lead"
      {| metadata_results := Some (RowsList [[("n", VInt 7)]]);
         ui_component := None; result_for_llm := "1 row" |};
    Yielded (Some "There are 7 leads.") ].


End T2SQLServiceFacts.

(** ** agents/ingestion.py: what ingest leaves in the vector store *)

Module IngestionMore.
Import Rag Ingestion.

(** The entry is a chunk of this document in this collection. *)
Definition own (collection document_id : string) (entry : string * Document) : bool :=
  String.eqb (fst entry) collection
  && String.eqb (dict_get "document_id" EmptyString (Rag.metadata (snd entry)))
                document_id.

Lemma filter_filter {A} (p : A -> bool) (l : list A) :
  filter p (filter p l) = filter p l.
Proof.
  induction l as [|x l IH]; [reflexivity|]. cbn [filter].
  destruct (p x) eqn:E; [cbn [filter]; rewrite E, IH; reflexivity | exact IH].
Qed.

Lemma filter_all {A} (p : A -> bool) (l : list A) :
  (forall x, In x l -> p x = true) -> filter p l = l.
Proof.
  induction l as [|x l IH]; intros H; [reflexivity|]. cbn [filter].
  rewrite (H x (or_introl eq_refl)), IH; [reflexivity|].
  intros y Hy. apply H. right. exact Hy.
Qed.

Lemma filter_not_then {A} (p : A -> bool) (l : list A) :
  filter p (filter (fun x => negb (p x)) l) = [].
Proof.
  induction l as [|x l IH]; [reflexivity|]. cbn [filter].
  destruct (p x) eqn:E; cbn [negb filter]; [exact IH | rewrite E; exact IH].
Qed.

Lemma new_chunks_own (b : BrochureDocument) (chunks : list Document) (entry : string * Document) :
  In entry (map (fun c => (_collection_name (project_name b), c))
                (annotate_all b 0 chunks)) ->
  own (_collection_name (project_name b)) (str_of_Z (id b)) entry = true.
Proof.
  intros H. apply in_map_iff in H. destruct H as (c & <- & Hc). unfold own. cbn [fst snd].
  rewrite (IngestionFacts.annotate_all_document_id b chunks 0 c Hc), !String.eqb_refl.
  reflexivity.
Qed.

Lemma annotate_all_same (b b' : BrochureDocument) (chunks : list Document) :
  id b' = id b -> project_name b' = project_name b -> file b' = file b ->
  forall idx, annotate_all b' idx chunks = annotate_all b idx chunks.
Proof.
  intros Hid Hp Hf. induction chunks as [|x chunks IH]; intros idx; [reflexivity|].
  cbn [annotate_all]. rewrite IH. f_equal.
  unfold annotate. rewrite Hid, Hp, Hf. reflexivity.
Qed.

Lemma annotate_all_nth (b : BrochureDocument) (chunks : list Document) :
  forall idx i c,
    nth_error (annotate_all b idx chunks) i = Some c ->
    exists chunk,
      nth_error chunks i = Some chunk /\ c = annotate b (idx + i) chunk.
Proof.
  induction chunks as [|x chunks IH]; intros idx i c H.
  - destruct i; discriminate H.
  - destruct i as [|i]; cbn [annotate_all nth_error] in H.
    + inversion H; subst. exists x. rewrite Nat.add_0_r. split; reflexivity.
    + destruct (IH (S idx) i c H) as (chunk & Hn & ->). exists chunk.
      split; [exact Hn|]. f_equal. lia.
Qed.

Section Service.
Variable guess_type : string -> option string.
Variable storage_path : string -> string.
Variable pdf_loader : string -> result (list Document).
Variable text_loader : string -> result (list Document).
Variable split_documents : list Document -> result (list Document).
Variable store_fault : store_op -> option exn.
Variable read_file : string -> result string.
Variable sha256 : string -> string.

Definition ingest_ : BrochureDocument -> M IngestionOutcome :=
  Ingestion.ingest guess_type storage_path pdf_loader text_loader split_documents
    store_fault read_file sha256.

(** The chunks [ingest] computes for a brochure. *)
Definition chunks_of (b : BrochureDocument) : result (list Document) :=
  match _load_documents pdf_loader text_loader (storage_path (file b))
          (first_truthy (content_type b) (guess_type (file b))) with
  | Ok documents =>
      match split_documents documents with
      | Ok chunks => Ok (annotate_all b 0 chunks)
      | Raise e => Raise e
      end
  | Raise e => Raise e
  end.

Lemma ingest_ok (b : BrochureDocument) (s s' : State) (o : IngestionOutcome) :
  ingest_ b s = (s', Ok o) ->
  exists chunks,
    chunks_of b = Ok chunks /\
    o = {| outcome_chunks_indexed := List.length chunks;
           outcome_collection_name := _collection_name (project_name b) |} /\
    vectors s' =
      (filter (fun entry =>
                 negb (own (_collection_name (project_name b)) (str_of_Z (id b)) entry))
              (vectors s)
       ++ map (fun c => (_collection_name (project_name b), c)) chunks)%list.
Proof.
  intros H. unfold ingest_, ingest, Eff.try_except in H.
  unfold chunks_of.
  destruct (ingest_try _ _ _ _ _ _ _ _ _ s) as [s1 [o1|e]] eqn:Htry.
  2:{ unfold ingest_except, create_log, now, Eff.bind, Eff.raise in H. discriminate H. }
  inversion H; subst; clear H.
  unfold ingest_try, mark_indexed, save, create_log,
    store_delete, store_add, guard, now, Eff.bind, Eff.lift, Eff.ret, Eff.raise,
    Eff.gets, Eff.modify in Htry.
  destruct (_load_documents _ _ _ _) as [docs|e]; [|discriminate Htry].
  destruct (split_documents docs) as [chunks|e]; [|discriminate Htry].
  destruct (store_fault (ForCollection _)) as [e|]; [discriminate Htry|].
  destruct (store_fault (Delete _ _)) as [e|]; [discriminate Htry|].
  destruct (store_fault (AddDocuments _ _)) as [e|]; [discriminate Htry|].
  cbn -[Orm.exists_pk Orm.update Orm.next_pk append str_of_nat str_of_Z
        _collection_name Z.add filter] in Htry.
  destruct (store_fault (Persist _)) as [e|]; [discriminate Htry|].
  cbn -[Orm.exists_pk Orm.update Orm.next_pk append str_of_nat str_of_Z
        _collection_name Z.add filter] in Htry.
  exists (annotate_all b 0 chunks). split; [reflexivity|].
  destruct (negb (is_empty (file b)) && is_empty (checksum b));
    [destruct (read_file _) as [content|e]; [|discriminate Htry]|];
    cbn -[Orm.exists_pk Orm.update Orm.next_pk append str_of_nat str_of_Z
          _collection_name Z.add filter] in Htry;
    (destruct (Orm.exists_pk BrochureDocument id (id b) (brochures s)) eqn:Hrow;
     cbn -[Orm.exists_pk Orm.update Orm.next_pk append str_of_nat str_of_Z
           _collection_name Z.add filter] in Htry; [|discriminate Htry]);
    inversion Htry; subst; clear Htry; split; reflexivity.
Qed.

(** X19. When [ingest] returns, the vector store holds what it held, minus
    the entries of this document in the project's collection, plus the new
    chunks at the end: the document's entries in that collection are exactly
    the new chunks (re-indexing replaces, it never duplicates), as many as
    the outcome reports; chunk number i carries the document's key, project
    and file name and the index i.  Ingesting again a brochure with the same
    key, project, file and content type leaves the store as it is. *)
Theorem ingest_replaces_the_chunks (b : BrochureDocument) (s s' : State)
    (o : IngestionOutcome) :
  ingest_ b s = (s', Ok o) ->
  let collection := _collection_name (project_name b) in
  let mine := own collection (str_of_Z (id b)) in
  exists chunks,
    outcome_chunks_indexed o = List.length chunks /\
    outcome_collection_name o = collection /\
    vectors s' = (filter (fun entry => negb (mine entry)) (vectors s)
                  ++ map (fun c => (collection, c)) chunks)%list /\
    filter mine (vectors s') = map (fun c => (collection, c)) chunks /\
    (forall i c,
       nth_error chunks i = Some c ->
       dict_get "document_id" EmptyString (Rag.metadata c) = str_of_Z (id b) /\
       dict_get "project_name" EmptyString (Rag.metadata c) = project_name b /\
       dict_get "source" EmptyString (Rag.metadata c) = file b /\
       dict_get "chunk_index" EmptyString (Rag.metadata c) = str_of_nat i) /\
    (forall b' s2 o2,
       id b' = id b -> project_name b' = project_name b -> file b' = file b ->
       content_type b' = content_type b ->
       ingest_ b' s' = (s2, Ok o2) ->
       vectors s2 = vectors s' /\ o2 = o).
Proof.
  intros H. cbv zeta. destruct (ingest_ok b s s' o H) as (chunks & Hchunks & -> & Hv).
  exists chunks. split; [reflexivity|]. split; [reflexivity|]. split; [exact Hv|].
  assert (Hown : forall entry,
            In entry (map (fun c => (_collection_name (project_name b), c)) chunks) ->
            own (_collection_name (project_name b)) (str_of_Z (id b)) entry = true).
  { unfold chunks_of in Hchunks.
    destruct (_load_documents _ _ _ _) as [docs|e]; [|discriminate Hchunks].
    destruct (split_documents docs) as [raw|e]; [|discriminate Hchunks].
    inversion Hchunks; subst. apply new_chunks_own. }
  assert (Hmine : filter (own (_collection_name (project_name b)) (str_of_Z (id b)))
                    (vectors s')
                  = map (fun c => (_collection_name (project_name b), c)) chunks).
  { rewrite Hv, filter_app, filter_not_then. cbn [app]. apply filter_all. exact Hown. }
  split; [exact Hmine|]. split.
  - intros i c Hn. unfold chunks_of in Hchunks.
    destruct (_load_documents _ _ _ _) as [docs|e]; [|discriminate Hchunks].
    destruct (split_documents docs) as [raw|e]; [|discriminate Hchunks].
    inversion Hchunks; subst. clear Hchunks.
    destruct (annotate_all_nth b raw 0 i c Hn) as (chunk & _ & ->).
    cbn [Nat.add]. unfold annotate. cbn [Rag.metadata].
    split.
    { rewrite !IngestionFacts.dict_get_set_other by discriminate.
      apply IngestionFacts.dict_get_set_same. }
    split.
    { rewrite !IngestionFacts.dict_get_set_other by discriminate.
      apply IngestionFacts.dict_get_set_same. }
    split.
    { rewrite !IngestionFacts.dict_get_set_other by discriminate.
      apply IngestionFacts.dict_get_set_same. }
    apply IngestionFacts.dict_get_set_same.
  - intros b' s2 o2 Hid Hp Hf Hc H2.
    destruct (ingest_ok b' s' s2 o2 H2) as (chunks' & Hchunks' & -> & Hv').
    assert (chunks' = chunks).
    { unfold chunks_of in Hchunks, Hchunks'. rewrite Hf, Hc in Hchunks'.
      destruct (_load_documents _ _ _ _) as [docs|e]; [|discriminate Hchunks].
      destruct (split_documents docs) as [raw|e]; [|discriminate Hchunks].
      inversion Hchunks; inversion Hchunks'; subst.
      apply annotate_all_same; assumption. }
    subst chunks'. rewrite Hp, Hid in *. split; [|reflexivity].
    rewrite Hv'. rewrite Hv at 1.
    rewrite filter_app.
    rewrite (CampaignServiceFacts.filter_none _ (map _ chunks)).
    + rewrite app_nil_r, filter_filter. symmetry. exact Hv.
    + intros entry Hin. rewrite (Hown entry Hin). reflexivity.
Qed.

(** X20. The vector store is not restored when indexing fails half-way:
    when the chunks are computed, the collection opens and the old entries
    are deleted, but adding the new chunks fails, [ingest] logs the failure
    and raises that exception, the brochure's row is untouched, and the
    document is left with no entry at all in its collection, whatever it had
    before. *)
Theorem failed_add_loses_the_chunks (b : BrochureDocument) (s : State)
    (chunks : list Document) (exc : exn) :
  let collection := _collection_name (project_name b) in
  let mine := own collection (str_of_Z (id b)) in
  chunks_of b = Ok chunks ->
  store_fault (ForCollection collection) = None ->
  store_fault (Delete collection (str_of_Z (id b))) = None ->
  store_fault (AddDocuments collection chunks) = Some exc ->
  exists s' log,
    ingest_ b s = (s', Raise exc) /\
    vectors s' = filter (fun entry => negb (mine entry)) (vectors s) /\
    filter mine (vectors s') = [] /\
    brochures s' = brochures s /\
    logs s' = (logs s ++ [log])%list /\
    document_id log = id b /\ status log = "failed" /\ detail log = exn_msg exc.
Proof.
  cbv zeta. intros Hchunks Hopen Hdel Hadd.
  unfold chunks_of in Hchunks.
  unfold ingest_, ingest, Eff.try_except, ingest_try, ingest_except, create_log,
    store_delete, store_add, guard, now, Eff.bind, Eff.lift, Eff.ret, Eff.raise,
    Eff.gets, Eff.modify.
  destruct (_load_documents _ _ _ _) as [docs|e]; [|discriminate Hchunks].
  destruct (split_documents docs) as [raw|e]; [|discriminate Hchunks].
  inversion Hchunks; subst; clear Hchunks.
  rewrite Hopen, Hdel. 
  cbn -[Orm.next_pk append str_of_nat str_of_Z _collection_name Z.add filter].
  rewrite Hadd.
  cbn -[Orm.next_pk append str_of_nat str_of_Z _collection_name Z.add filter].
  eexists. eexists. split; [reflexivity|].
  cbn -[Orm.next_pk append str_of_nat str_of_Z _collection_name Z.add filter].
  split; [reflexivity|]. split; [apply filter_not_then|].
  repeat split.
Qed.

End Service.

Definition demo_brochure : BrochureDocument :=
  {| id := 1; project_name := "Altura"; original_name := "altura.txt";
     file := "altura.txt"; checksum := "9f86d081"; content_type := "text/plain";
     metadata := []; uploaded_by := Some 1%Z; uploaded_at := 0%Z;
     last_indexed_at := None |}.

(** The store holds one chunk of an earlier indexing of the brochure. *)
Definition demo_state : State :=
  {| clock := 5%Z; brochures := [demo_brochure]; logs := [];
     vectors := [("project_altura",
                  {| page_content := "Old text";
                     Rag.metadata := [("document_id", "1")] |})] |}.

Definition demo_ingest : State * result IngestionOutcome :=
  ingest_ IngestionFacts.Demo.guess_type IngestionFacts.Demo.storage_path
    IngestionFacts.Demo.pdf_loader IngestionFacts.Demo.text_loader
    IngestionFacts.Demo.split_documents IngestionFacts.Demo.store_fault
    IngestionFacts.Demo.read_file IngestionFacts.Demo.sha256 demo_brochure demo_state.

Lemma ingest_replaces_the_chunks_witness :
  snd demo_ingest = Ok {| outcome_chunks_indexed := 1;
                          outcome_collection_name := "project_altura" |} /\
  List.length (vectors (fst demo_ingest)) = 1%nat.
Proof.
  destruct (ingest_replaces_the_chunks
              IngestionFacts.Demo.guess_type IngestionFacts.Demo.storage_path
              IngestionFacts.Demo.pdf_loader IngestionFacts.Demo.text_loader
              IngestionFacts.Demo.split_documents IngestionFacts.Demo.store_fault
              IngestionFacts.Demo.read_file IngestionFacts.Demo.sha256
              demo_brochure demo_state (fst demo_ingest)
              {| outcome_chunks_indexed := 1;
                 outcome_collection_name := "project_altura" |} eq_refl)
    as (chunks & Hn & _ & Hv & _).
  split; [reflexivity|]. rewrite Hv, length_app, length_map, <- Hn. reflexivity.
Defined.

(** A store that refuses every addition. *)
Definition full_store (op : store_op) : option exn :=
  match op with
  | AddDocuments _ _ => Some (Exn ExternalError "disk full")
  | _ => None
  end.

Lemma failed_add_loses_the_chunks_witness :
  exists s',
    ingest_ IngestionFacts.Demo.guess_type IngestionFacts.Demo.storage_path
      IngestionFacts.Demo.pdf_loader IngestionFacts.Demo.text_loader
      IngestionFacts.Demo.split_documents full_store
      IngestionFacts.Demo.read_file IngestionFacts.Demo.sha256 demo_brochure demo_state
    = (s', Raise (Exn ExternalError "disk full")) /\
    vectors s' = [].
Proof.
  destruct (failed_add_loses_the_chunks
              IngestionFacts.Demo.guess_type IngestionFacts.Demo.storage_path
              IngestionFacts.Demo.pdf_loader IngestionFacts.Demo.text_loader
              IngestionFacts.Demo.split_documents full_store
              IngestionFacts.Demo.read_file IngestionFacts.Demo.sha256
              demo_brochure demo_state
              (annotate_all demo_brochure 0
                 [{| page_content := "Infinity pool"; Rag.metadata := [] |}])
              (Exn ExternalError "disk full") eq_refl eq_refl eq_refl eq_refl)
    as (s' & log & Hrun & Hv & _).
  exists s'. split; [exact Hrun|]. rewrite Hv. reflexivity.
Defined.

End IngestionMore.

(** ** The conversation service over the LangGraph agent *)

Module ConversationAgentFacts.
Import Db Conversation ConversationFacts.

Section Service.
Variable llm : string -> result string.
Variable t2sql_answer : string -> result T2SQL.TextToSQLResult.
Variable get_documents : string -> string -> result Rag.RetrievalResult.
Variable rag_prompt : Crm.Lead -> Campaign.t -> string -> string -> string.
Variable checkpoints : string -> Agent.AgentState.
Variable strftime : Time -> string.
Variable text_of : Agent.obj -> string.

(** [self.agent], the agent of [get_agent()], reading the leads and the
    campaigns of the state; handling a message changes neither table. *)
Definition graph_agent (s : State) (query : string) (campaign_lead : CampaignLead.t)
    (thread_id : string) : result Agent.Dict :=
  snd (Agent.run llm t2sql_answer get_documents rag_prompt (leads s) (campaigns s)
         (checkpoints thread_id) query campaign_lead []).

Definition respond_with_agent (link : CampaignLead.t) (payload : AgentResponseRequest)
    (s : State) : State * result AgentResponseSchema :=
  handle_ strftime text_of (graph_agent s) link payload s.


End Service.

(** A model that answers the document prompt with blanks only. *)
Definition blank_llm (prompt : string) : result string := Ok "   ".


End ConversationAgentFacts.

(** ** campaigns/api.py: creating a campaign over HTTP *)

Module CampaignEndpointFacts.
Import Db CampaignService CampaignServiceFacts.

Section Service.
Variable settings : Settings.
Variable generate : Campaign.t -> Crm.Lead -> option string -> result PersonalizedMessage.
Variable send_mail : Email -> result unit.

Lemma create_campaign_lead_inv c lead msg (s s' : State) (link : CampaignLead.t) :
  _create_campaign_lead settings send_mail c lead msg s = (s', Ok link) ->
  exists m,
    campaign_leads s' = (campaign_leads s ++ [link])%list /\
    messages s' = (messages s ++ [m])%list /\
    campaigns s' = campaigns s /\ leads s' = leads s /\
    (link_of c lead msg link /\ CampaignLead.goal_outcome link = GoalOutcome.NONE) /\
    opening_message link m.
Proof.
  unfold _create_campaign_lead, create_campaign_lead_row, create_message_row,
    Eff.bind, Eff.ret, now.
  cbn -[_dispatch_email Orm.next_pk Z.add].
  match goal with
  | |- context [_dispatch_email _ _ _ _ _ ?st] =>
      destruct (_dispatch_email settings send_mail c lead (body msg) st)
        as [s2 [[]|e]] eqn:E; [|discriminate];
      destruct (dispatch_tables settings send_mail c lead (body msg) st s2 (Ok tt) E)
        as [(Hl & Hc & Hcl & Hm) _]
  end.
  cbn in Hl, Hc, Hcl, Hm. intros H. inversion H; subst; clear H.
  eexists. split; [exact Hcl|]. split; [exact Hm|]. split; [exact Hc|].
  split; [exact Hl|]. split; repeat split. discriminate.
Qed.

Lemma for_each_lead_inv c offer (found : list Crm.Lead) :
  forall s s',
    for_each_lead settings generate send_mail c offer found s = (s', Ok tt) ->
    exists new_links new_messages,
      campaign_leads s' = (campaign_leads s ++ new_links)%list /\
      messages s' = (messages s ++ new_messages)%list /\
      campaigns s' = campaigns s /\ leads s' = leads s /\
      Forall2 (fun lead link =>
                 exists msg, generate c lead offer = Ok msg /\ link_of c lead msg link /\
                             CampaignLead.goal_outcome link = GoalOutcome.NONE)
              found new_links /\
      Forall2 opening_message new_links new_messages.
Proof.
  induction found as [|lead rest IH]; intros s s' H.
  - cbn [for_each_lead] in H. inversion H; subst. exists [], [].
    rewrite !app_nil_r. repeat split; constructor.
  - cbn [for_each_lead] in H. unfold Eff.bind, Eff.lift in H.
    destruct (generate c lead offer) as [msg|e] eqn:Hgen; [|discriminate H].
    destruct (_create_campaign_lead settings send_mail c lead msg s)
      as [s1 [link|e]] eqn:Hrun; [|discriminate H].
    destruct (create_campaign_lead_inv c lead msg s s1 link Hrun)
      as (m & Hcl & Hm & Hc & Hl & Hlink & Hopen).
    destruct (IH s1 s' H) as (links & msgs & Hcl' & Hm' & Hc' & Hl' & Hlinks & Hmsgs).
    exists (link :: links), (m :: msgs).
    split; [rewrite Hcl', Hcl, <- app_assoc; reflexivity|].
    split; [rewrite Hm', Hm, <- app_assoc; reflexivity|].
    split; [congruence|]. split; [congruence|].
    destruct Hlink as (Hlink & Hgoal).
    split; constructor; eauto.
Qed.

Lemma create_campaign_inv (user : Z) (payload : CampaignCreateRequest)
    (s s' : State) (r : CampaignCreationResult) :
  create_campaign settings generate send_mail user payload s = (s', Ok r) ->
  exists new_links new_messages,
    campaigns s' = (campaigns s ++ [campaign r])%list /\
    Campaign.id (campaign r) = Orm.next_pk Campaign.t Campaign.id (campaigns s) /\
    Campaign.created_by (campaign r) = user /\
    Campaign.project_name (campaign r) = project_name payload /\
    campaign_leads s' = (campaign_leads s ++ new_links)%list /\
    messages s' = (messages s ++ new_messages)%list /\
    leads s' = leads s /\
    Forall2 (fun lead link =>
               exists msg, generate (campaign r) lead (offer_details payload) = Ok msg /\
                           link_of (campaign r) lead msg link /\
                           CampaignLead.goal_outcome link = GoalOutcome.NONE)
            (leads_with_ids (lead_ids payload) (leads s)) new_links /\
    Forall2 opening_message new_links new_messages.
Proof.
  unfold create_campaign, atomic.
  destruct (lead_ids payload) as [|i0 ids] eqn:Eids; [discriminate|].
  unfold Eff.bind at 1, Eff.gets at 1.
  destruct (missing_ids (i0 :: ids) (leads_with_ids (i0 :: ids) (leads s))) as [|j0 js];
    [|discriminate].
  unfold Eff.bind at 1.
  destruct (create_campaign_row (name payload) (project_name payload)
              (MessageChannel.value (message_channel payload))
              (str_or (offer_details payload) EmptyString)
              (dict_or_empty (filters_snapshot payload)) user s)
    as [s1 [c|e]] eqn:Ec.
  2:{ unfold create_campaign_row, Eff.bind, now in Ec. discriminate Ec. }
  assert (Hrow : campaigns s1 = (campaigns s ++ [c])%list /\
                 campaign_leads s1 = campaign_leads s /\ messages s1 = messages s /\
                 leads s1 = leads s /\
                 Campaign.id c = Orm.next_pk Campaign.t Campaign.id (campaigns s) /\
                 Campaign.created_by c = user /\
                 Campaign.project_name c = project_name payload).
  { unfold create_campaign_row, Eff.bind, now in Ec. inversion Ec; subst.
    repeat split. }
  destruct Hrow as (R1 & R2 & R3 & R4 & R5 & R6 & R7).
  unfold Eff.bind, Eff.ret.
  destruct (for_each_lead settings generate send_mail c (offer_details payload)
              (leads_with_ids (i0 :: ids) (leads s)) s1) as [s2 [[]|e]] eqn:Hloop;
    [|discriminate].
  intros H. injection H as Hs Hr. subst s2 r. cbn [campaign].
  destruct (for_each_lead_inv c (offer_details payload) _ s1 s' Hloop)
    as (links & msgs & Hcl & Hm & Hc & Hl & Hlinks & Hmsgs).
  exists links, msgs.
  split; [congruence|]. split; [exact R5|]. split; [exact R6|]. split; [exact R7|].
  split; [congruence|]. split; [congruence|]. split; [congruence|].
  split; assumption.
Qed.

End Service.

Section Endpoint.
Variable settings : Settings.
Variable message_generator :
  result (Campaign.t -> Crm.Lead -> option string -> result PersonalizedMessage).
Variable send_mail : Email -> result unit.
Variable str_of_exn : exn -> string.

Definition endpoint_ (user : Z) (payload : CampaignCreateRequest)
  : M (Campaign.t * list CampaignLead.t) :=
  CampaignApi.create_campaign settings message_generator send_mail str_of_exn user payload.


End Endpoint.


End CampaignEndpointFacts.

(** ** agents/personalization.py: the generated message *)

Module PersonalizationFacts.
Import Rag RagService Personalization.

Lemma rstrip_rstrip (s : string) : rstrip (rstrip s) = rstrip s.
Proof.
  induction s as [|c s IH]; [reflexivity|]. cbn [rstrip].
  destruct (is_space c && is_empty (rstrip s)) eqn:E; [reflexivity|].
  cbn [rstrip]. rewrite IH, E. reflexivity.
Qed.

Lemma lstrip_head (s : string) :
  lstrip s = EmptyString \/ exists c t, lstrip s = String c t /\ is_space c = false.
Proof.
  induction s as [|c s IH]; [left; reflexivity|]. cbn [lstrip].
  destruct (is_space c) eqn:E; [exact IH|]. right. exists c, s. split; [reflexivity | exact E].
Qed.

Lemma lstrip_strip (s : string) : lstrip (strip s) = strip s.
Proof.
  unfold strip. destruct (lstrip_head s) as [->|(c & t & -> & Hc)]; [reflexivity|].
  cbn [rstrip]. rewrite Hc. cbn [andb lstrip]. rewrite Hc. reflexivity.
Qed.

Lemma rstrip_strip (s : string) : rstrip (strip s) = strip s.
Proof. unfold strip. apply rstrip_rstrip. Qed.

Lemma substring_length (n : nat) (s : string) :
  (String.length (substring 0 n s) <= n)%nat.
Proof.
  revert s. induction n as [|n IH]; intros s.
  - destruct s; cbn; lia.
  - destruct s as [|c s]; cbn [substring String.length]; [lia|].
    specialize (IH s). lia.
Qed.

Section Generator.
Variable default_collection : string.
Variable for_collection : string -> result unit.
Variable similarity_search : string -> string -> Z -> result (list Document).
Variable store_get : string -> option string -> option Z -> result Raw.
Variable str_of_decimal : Q -> string.
Variable message_prompt : Campaign.t -> Crm.Lead -> string -> string -> string.
Variable llm_invoke : string -> result string.

Definition generate_ : Campaign.t -> Crm.Lead -> option string -> result PersonalizedMessage :=
  generate default_collection for_collection similarity_search store_get str_of_decimal
    message_prompt llm_invoke.

(** The question put to the retrieval for a campaign and a lead. *)
Definition query_for (campaign : Campaign.t) (lead : Crm.Lead) : string :=
  "Key selling points for " ++ Campaign.project_name campaign
  ++ " relevant to " ++ Crm.unit_type lead ++ " and budget "
  ++ budget_text str_of_decimal (Crm.budget_min lead) ++ "-"
  ++ budget_text str_of_decimal (Crm.budget_max lead).

Definition retrieve (campaign : Campaign.t) (lead : Crm.Lead) : result RetrievalResult :=
  get_documents default_collection for_collection similarity_search store_get
    (Some (Campaign.project_name campaign)) (query_for campaign lead) 4.


End Generator.

End PersonalizationFacts.

(** ** agents/ingestion.py: what store_upload records *)

Module UploadFacts.
Import Rag Ingestion.

Lemma update_new_row (old : list BrochureDocument) (row r : BrochureDocument) :
  (forall x, In x old -> id x <> id row) ->
  Orm.update BrochureDocument id (id row) (fun _ => r) (old ++ [row])%list
  = (old ++ [r])%list.
Proof.
  intros Hfresh. unfold Orm.update. rewrite map_app. cbn [map].
  rewrite Z.eqb_refl. f_equal.
  rewrite <- (map_id old) at 2. apply map_ext_in. intros x Hx.
  destruct (id x =? id row)%Z eqn:E; [|reflexivity].
  apply Z.eqb_eq in E. exfalso. exact (Hfresh x Hx E).
Qed.

Lemma exists_new_row (old : list BrochureDocument) (row : BrochureDocument) :
  Orm.exists_pk BrochureDocument id (id row) (old ++ [row])%list = true.
Proof. apply OrmFacts.exists_pk_last. Qed.

Lemma get_new_row (old : list BrochureDocument) (r : BrochureDocument) :
  (forall x, In x old -> id x <> id r) ->
  Orm.get BrochureDocument id (id r) (old ++ [r])%list = Ok r.
Proof.
  intros Hfresh. unfold Orm.get.
  assert (H : find (fun x => (id x =? id r)%Z) (old ++ [r])%list = Some r).
  { induction old as [|x old IH]; cbn [app find].
    - rewrite Z.eqb_refl. reflexivity.
    - destruct (id x =? id r)%Z eqn:E.
      + apply Z.eqb_eq in E. exfalso. exact (Hfresh x (or_introl eq_refl) E).
      + apply IH. intros y Hy. apply Hfresh. right. exact Hy. }
  rewrite H. reflexivity.
Qed.

Section Service.
Variable storage_path : string -> string.
Variable storage_save : string -> string -> result string.
Variable read_file : string -> result string.
Variable sha256 : string -> string.

Definition store_upload_ (f : UploadedFile) (pn ct : option string) (user : User)
  : M BrochureDocument :=
  store_upload storage_path storage_save read_file sha256 f pn ct user.

Definition save_ (full : bool) (self : BrochureDocument) : M BrochureDocument :=
  save storage_path read_file sha256 full self.

(** Saving, in full, the row that was just added. *)
Lemma save_new_row (self row r : BrochureDocument) (old : list BrochureDocument)
    (s s' : State) :
  brochures s = (old ++ [row])%list -> id self = id row ->
  (forall x, In x old -> id x <> id row) ->
  save_ true self s = (s', Ok r) ->
  id r = id row /\ project_name r = project_name self /\
  original_name r = original_name self /\ file r = file self /\
  content_type r = content_type self /\ uploaded_by r = uploaded_by self /\
  last_indexed_at r = last_indexed_at self /\
  (if negb (is_empty (file self)) && is_empty (checksum self)
   then exists content, read_file (storage_path (file self)) = Ok content /\
                        checksum r = sha256 content
   else checksum r = checksum self) /\
  brochures s' = (old ++ [r])%list /\ logs s' = logs s /\ vectors s' = vectors s.
Proof.
  intros Ht Hid Hfresh.
  unfold save_, save, Eff.bind, Eff.lift, Eff.ret, Eff.raise, Eff.gets, Eff.modify.
  destruct (negb (is_empty (file self)) && is_empty (checksum self)).
  - destruct (read_file _) as [content|e]; [|discriminate].
    cbn -[Orm.exists_pk Orm.update]. rewrite Ht, Hid, exists_new_row.
    cbn -[Orm.update]. rewrite Ht, (update_new_row old row _ Hfresh).
    intros H. inversion H; subst; clear H. cbn.
    split; [exact Hid|]. repeat (split; [reflexivity|]). split; [|repeat split].
    exists content. split; reflexivity.
  - cbn -[Orm.exists_pk Orm.update]. rewrite Ht, Hid, exists_new_row.
    cbn -[Orm.update]. rewrite Ht, (update_new_row old row _ Hfresh).
    intros H. inversion H; subst; clear H. cbn.
    split; [exact Hid|]. repeat (split; [reflexivity|]). repeat split.
Qed.


End Service.


End UploadFacts.

(** ** campaigns/services.py: a link is marked sent before the mail step *)

Module SentFacts.
Import Db CampaignService CampaignServiceFacts.

Section Service.
Variable settings : Settings.
Variable generate : Campaign.t -> Crm.Lead -> option string -> result PersonalizedMessage.
Variable send_mail : Email -> result unit.

Lemma create_campaign_runs (user : Z) (payload : CampaignCreateRequest) (s : State) :
  lead_ids payload <> [] ->
  (forall i, In i (lead_ids payload) -> exists l, In l (leads s) /\ Crm.id l = i) ->
  (forall c lead, In lead (leads_with_ids (lead_ids payload) (leads s)) ->
                  goes_through settings generate send_mail c (offer_details payload) lead) ->
  exists s' r, create_campaign settings generate send_mail user payload s = (s', Ok r).
Proof.
  intros Hne Hall Hgo. unfold create_campaign.
  destruct (lead_ids payload) as [|i0 ids] eqn:Eids; [congruence|].
  unfold Eff.bind at 1, Eff.gets at 1.
  assert (Hbody : exists s' r,
    (match missing_ids (i0 :: ids) (leads_with_ids (i0 :: ids) (leads s)) with
     | [] =>
         campaign <-
           create_campaign_row (name payload) (project_name payload)
             (MessageChannel.value (message_channel payload))
             (str_or (offer_details payload) EmptyString)
             (dict_or_empty (filters_snapshot payload)) user ;;
         _ <- for_each_lead settings generate send_mail campaign (offer_details payload)
                (leads_with_ids (i0 :: ids) (leads s)) ;;
         Eff.ret {| campaign := campaign |}
     | _ :: _ as missing =>
         Eff.raise (Exn ValidationError
                      ("Lead IDs not found: " ++ join ", " (map str_of_Z missing)))
     end) s = (s', Ok r)).
  { rewrite (missing_ids_nil (i0 :: ids) (leads s) Hall).
    unfold Eff.bind at 1.
    destruct (create_campaign_row (name payload) (project_name payload)
                (MessageChannel.value (message_channel payload))
                (str_or (offer_details payload) EmptyString)
                (dict_or_empty (filters_snapshot payload)) user s)
      as [s1 [c|e]] eqn:Ec.
    2:{ unfold create_campaign_row, Eff.bind, now in Ec. discriminate Ec. }
    destruct (for_each_lead_run settings generate send_mail c (offer_details payload)
                (leads_with_ids (i0 :: ids) (leads s)) s1 (fun lead Hin => Hgo c lead Hin))
      as (s2 & links & msgs & Hloop & _).
    unfold Eff.bind, Eff.ret. rewrite Hloop. eauto. }
  destruct Hbody as (s' & r & Hbody). exists s', r. apply atomic_ok. exact Hbody.
Qed.

(** X25. A link is marked "sent" when it is created, before the mail step:
    with a test inbox configured but the mail credentials missing, when
    every requested key has a lead and a message is generated for each,
    [create_campaign] succeeds, every new link has status "sent" and a
    dispatch time, one link per lead, and yet no mail at all was sent. *)
Theorem sent_without_mail (user : Z) (payload : CampaignCreateRequest) (s : State) :
  CAMPAIGN_EMAIL_OVERRIDE settings <> EmptyString ->
  EMAIL_HOST_USER settings = EmptyString \/ EMAIL_HOST_PASSWORD settings = EmptyString ->
  lead_ids payload <> [] ->
  (forall i, In i (lead_ids payload) -> exists l, In l (leads s) /\ Crm.id l = i) ->
  (forall c lead, In lead (leads_with_ids (lead_ids payload) (leads s)) ->
                  exists msg, generate c lead (offer_details payload) = Ok msg) ->
  exists s' r new_links,
    create_campaign settings generate send_mail user payload s = (s', Ok r) /\
    outbox s' = outbox s /\
    campaign_leads s' = (campaign_leads s ++ new_links)%list /\
    List.length new_links
    = List.length (leads_with_ids (lead_ids payload) (leads s)) /\
    Forall (fun link => CampaignLead.status link = "sent" /\
                        CampaignLead.dispatch_time link <> None) new_links.
Proof.
  intros Hr Hcred Hne Hall Hgen.
  assert (Hgo : forall c lead,
            In lead (leads_with_ids (lead_ids payload) (leads s)) ->
            goes_through settings generate send_mail c (offer_details payload) lead).
  { intros c lead Hin. destruct (Hgen c lead Hin) as (msg & Hmsg).
    exists msg. split; [exact Hmsg|]. unfold dispatch_ok.
    destruct (CAMPAIGN_EMAIL_OVERRIDE settings); [congruence|]. cbn [is_empty negb andb].
    destruct Hcred as [->| ->]; cbn [is_empty orb]; [reflexivity|].
    rewrite orb_true_r. reflexivity. }
  destruct (create_campaign_runs user payload s Hne Hall Hgo) as (s' & r & Hrun).
  destruct (CampaignEndpointFacts.create_campaign_inv settings generate send_mail
              user payload s s' r Hrun)
    as (links & msgs & _ & _ & _ & _ & Hcl & _ & _ & Hlinks & _).
  exists s', r, links. split; [exact Hrun|]. split.
  - destruct (MailFacts.create_campaign_outbox settings generate send_mail user payload s)
      as (sent & Ho & _ & Hmail).
    rewrite Hrun in Ho. cbn [fst] in Ho.
    destruct sent as [|mail sent]; [rewrite app_nil_r in Ho; exact Ho|].
    exfalso. inversion Hmail as [|? ? (c & _ & _ & (_ & _ & Hu & Hp & _)) _]; subst.
    destruct Hcred; contradiction.
  - split; [exact Hcl|]. split.
    + clear - Hlinks. induction Hlinks; cbn [List.length]; congruence.
    + clear - Hlinks.
      induction Hlinks as [|lead link found links (msg & _ & Hl & _) _ IH];
        constructor; [|exact IH].
      destruct Hl as (_ & _ & A & B & _). split; assumption.
Qed.

End Service.

Lemma sent_without_mail_witness :
  exists s' r new_links,
    create_campaign
      {| CAMPAIGN_EMAIL_OVERRIDE := "inbox@example.com"; EMAIL_HOST_USER := EmptyString;
         EMAIL_HOST_PASSWORD := EmptyString; DEFAULT_FROM_EMAIL := "crm@example.com";
         DEBUG := false |}
      demo_generate demo_send_mail 7 demo_payload demo_state = (s', Ok r) /\
    outbox s' = [] /\
    Forall (fun link => CampaignLead.status link = "sent") new_links /\
    List.length new_links = 1%nat.
Proof.
  destruct (sent_without_mail
              {| CAMPAIGN_EMAIL_OVERRIDE := "inbox@example.com";
                 EMAIL_HOST_USER := EmptyString; EMAIL_HOST_PASSWORD := EmptyString;
                 DEFAULT_FROM_EMAIL := "crm@example.com"; DEBUG := false |}
              demo_generate demo_send_mail 7 demo_payload demo_state)
    as (s' & r & links & Hrun & Ho & _ & Hlen & Hst).
  - discriminate.
  - left. reflexivity.
  - discriminate.
  - intros i [<-|[]].
    exists (CrmFacts.sample_lead 2 (Some 500000%Q) (Some 800000%Q)).
    split; [right; left; reflexivity | reflexivity].
  - intros c lead _. eexists. reflexivity.
  - exists s', r, links. split; [exact Hrun|]. split; [exact Ho|]. split.
    + eapply Forall_impl; [|exact Hst]. intros link (A & _). exact A.
    + exact Hlen.
Defined.

End SentFacts.

(** ** The explanation of the SQL service *)

Module ExplanationFacts.
Import T2SQL Agent AgentFacts.

Lemma format_reads_rows (q : string) (r r' : TextToSQLResult) :
  rows r = rows r' -> Formatter.format q r = Formatter.format q r'.
Proof. intros H. unfold Formatter.format. rewrite H. reflexivity. Qed.

Section Endpoint.
Variable llm : string -> result string.
Variable t2sql_answer : string -> result TextToSQLResult.
Variable get_documents : string -> string -> result Rag.RetrievalResult.
Variable rag_prompt : Crm.Lead -> Campaign.t -> string -> string -> string.
Variable leads : list Crm.Lead.
Variable campaigns : list Campaign.t.
Variable campaign_leads : list CampaignLead.t.
Variable checkpoints : string -> AgentState.
Variable get_agent : result unit.
(** Another wording of the explanation, for a question and the explanation
    the service gives. *)
Variable other : string -> string -> string.

Lemma answer_sql_unfold (t2sql : string -> result TextToSQLResult) (st : AgentState)
    (tr : list event) :
  _answer_sql t2sql leads campaigns st tr =
  match fetch Crm.id leads (lead_id st) tr with
  | (tr1, Raise e) => (tr1, Raise e)
  | (tr1, Ok _) =>
      match fetch Campaign.id campaigns (campaign_id st) tr1 with
      | (tr2, Raise e) => (tr2, Raise e)
      | (tr2, Ok _) =>
          match query st with
          | None => (tr2, Raise (Exn ExternalError "KeyError: query"))
          | Some q =>
              match t2sql q with
              | Ok res => ((tr2 ++ [CallTextToSQL q])%list,
                           Ok (only_response (sql_response q res)))
              | Raise e => ((tr2 ++ [CallTextToSQL q])%list, Raise e)
              end
          end
      end
  end.
Proof.
  unfold _answer_sql. unfold Eff.bind at 1.
  destruct (fetch Crm.id leads (lead_id st) tr) as [tr1 [lead|e]]; [|reflexivity].
  unfold Eff.bind at 1.
  destruct (fetch Campaign.id campaigns (campaign_id st) tr1) as [tr2 [c|e]];
    [|reflexivity].
  unfold item, emit, Eff.bind, Eff.modify, Eff.lift, Eff.ret, Eff.raise.
  destruct (query st) as [q|]; [|reflexivity].
  destruct (t2sql q) as [res|e]; reflexivity.
Qed.

(** The SQL service with its explanations reworded. *)
Definition reworded (q : string) : result TextToSQLResult :=
  match t2sql_answer q with
  | Ok r => Ok {| sql := sql r; rows := rows r; explanation := other q (explanation r) |}
  | Raise e => Raise e
  end.

(** X26. The explanation the SQL service computes never reaches the HTTP
    answer of [agent_query]: with the explanations of the service replaced by
    any other texts, every request gets the same answer (reply, SQL, rows,
    sources or exception) after the same calls. *)
Theorem agent_query_drops_the_explanation (user : Z) (payload : AgentApi.AgentQueryRequest)
    (tr : list event) :
  AgentApi.agent_query llm reworded get_documents rag_prompt leads campaigns
    campaign_leads checkpoints get_agent user payload tr
  = AgentApi.agent_query llm t2sql_answer get_documents rag_prompt leads campaigns
      campaign_leads checkpoints get_agent user payload tr.
Proof.
  unfold AgentApi.agent_query. unfold Eff.bind at 1 3. unfold Eff.lift.
  destruct (AgentApi.get_campaign_lead_or_404 campaign_leads campaigns
              (AgentApi.campaign_lead_id payload)
              user) as [link|e]; [|reflexivity].
  unfold Eff.bind at 1 3. unfold Eff.lift.
  destruct get_agent as [[]|e]; [|reflexivity].
  unfold Eff.bind.
  destruct (RouterFacts.decide_route_cases llm (AgentApi.query payload)) as [E|E].
  - rewrite !(run_t2sql llm _ get_documents rag_prompt leads campaigns _ _ _ _ E).
    rewrite !answer_sql_unfold. unfold finish.
    destruct (fetch Crm.id leads _ tr) as [tr1 [lead|e]]; [|reflexivity].
    destruct (fetch Campaign.id campaigns _ tr1) as [tr2 [c|e]]; [|reflexivity].
    destruct (query (routed _ _ _ _)) as [q|]; [|reflexivity].
    unfold reworded. destruct (t2sql_answer q) as [res|e]; [|reflexivity].
    unfold item, Eff.ret, only_response, sql_response, AgentApi.get_or.
    cbn -[Formatter.format].
    rewrite (format_reads_rows q
               {| sql := sql res; rows := rows res;
                  explanation := other q (explanation res) |} res eq_refl).
    reflexivity.
  - rewrite !(run_rag llm _ get_documents rag_prompt leads campaigns _ _ _ _ E).
    reflexivity.
Qed.

End Endpoint.

End ExplanationFacts.

(** ** agents/langgraph_agent.py: DocumentAnswerTool.answer *)

Module DocumentAnswerFacts.
Import Agent.

Section Tool.
Variable llm : string -> result string.
Variable get_documents : string -> string -> result Rag.RetrievalResult.
Variable rag_prompt : Crm.Lead -> Campaign.t -> string -> string -> string.

Definition answer_ (lead : Crm.Lead) (campaign : Campaign.t) (question : string)
  : M DocumentAnswer :=
  rag_tool_answer llm get_documents rag_prompt lead campaign question.

(** The context put in the prompt. *)
Definition context_of (retrieved : Rag.RetrievalResult) : string :=
  if is_empty (Rag.as_context retrieved) then "No brochure context was found."
  else Rag.as_context retrieved.


End Tool.

End DocumentAnswerFacts.

(** ** The dashboard of a campaign that was just created *)

Module NewCampaignFacts.
Import Db CampaignService CampaignServiceFacts Dashboard.

Lemma new_campaign_links (s : State) (c : Campaign.t) (links : list CampaignLead.t) :
  (forall link, In link (campaign_leads s) ->
     exists c0, In c0 (campaigns s) /\ Campaign.id c0 = CampaignLead.campaign_id link) ->
  Campaign.id c = Orm.next_pk Campaign.t Campaign.id (campaigns s) ->
  Forall (fun link => CampaignLead.campaign_id link = Campaign.id c) links ->
  lead_links c (campaign_leads s ++ links)%list = links.
Proof.
  intros Hri Hid Hmine. unfold lead_links. rewrite filter_app.
  rewrite (filter_none _ (campaign_leads s)).
  - cbn [app]. apply IngestionMore.filter_all. intros link Hin.
    rewrite Forall_forall in Hmine. rewrite (Hmine link Hin). apply Z.eqb_refl.
  - intros link Hin. destruct (Hri link Hin) as (c0 & Hc0 & E).
    pose proof (OrmFacts.next_pk_fresh Campaign.t Campaign.id (campaigns s) c0 Hc0).
    apply Z.eqb_neq. rewrite Hid, <- E. lia.
Qed.

Lemma old_campaign_links (s : State) (c c0 : Campaign.t) (links : list CampaignLead.t) :
  In c0 (campaigns s) ->
  Campaign.id c = Orm.next_pk Campaign.t Campaign.id (campaigns s) ->
  Forall (fun link => CampaignLead.campaign_id link = Campaign.id c) links ->
  lead_links c0 (campaign_leads s ++ links)%list = lead_links c0 (campaign_leads s).
Proof.
  intros Hc0 Hid Hmine. unfold lead_links. rewrite filter_app.
  rewrite (filter_none _ links); [apply app_nil_r|].
  intros link Hin. rewrite Forall_forall in Hmine. rewrite (Hmine link Hin).
  pose proof (OrmFacts.next_pk_fresh Campaign.t Campaign.id (campaigns s) c0 Hc0).
  apply Z.eqb_neq. lia.
Qed.

Section Service.
Variable settings : Settings.
Variable generate : Campaign.t -> Crm.Lead -> option string -> result PersonalizedMessage.
Variable send_mail : Email -> result unit.

(** The message generated for the lead is not empty. *)
Definition has_message (c : Campaign.t) (offer : option string) (lead : Crm.Lead) : bool :=
  match generate c lead offer with
  | Ok msg => negb (is_empty (body msg))
  | Raise _ => false
  end.

(** X28. The dashboard right after [create_campaign] returned, in a database
    where every link belongs to an existing campaign: the new campaign counts
    one lead per requested lead, no response and no goal; [messages_sent]
    counts the leads whose generated message is not empty, although every
    link has status "sent"; and the four counters of every campaign that
    existed before are unchanged. *)
Theorem dashboard_of_a_new_campaign (user : Z) (payload : CampaignCreateRequest)
    (s s' : State) (r : CampaignCreationResult) :
  (forall link, In link (campaign_leads s) ->
     exists c0, In c0 (campaigns s) /\ Campaign.id c0 = CampaignLead.campaign_id link) ->
  create_campaign settings generate send_mail user payload s = (s', Ok r) ->
  let c := campaign r in
  let found := leads_with_ids (lead_ids payload) (leads s) in
  total_leads c (campaign_leads s') = List.length found /\
  messages_sent c (campaign_leads s')
  = List.length (filter (has_message c (offer_details payload)) found) /\
  responses_received c (campaign_leads s') = 0%nat /\
  goals_completed c (campaign_leads s') = 0%nat /\
  Forall (fun link => CampaignLead.status link = "sent")
         (lead_links c (campaign_leads s')) /\
  (forall c0, In c0 (campaigns s) ->
     total_leads c0 (campaign_leads s') = total_leads c0 (campaign_leads s) /\
     messages_sent c0 (campaign_leads s') = messages_sent c0 (campaign_leads s) /\
     responses_received c0 (campaign_leads s') = responses_received c0 (campaign_leads s) /\
     goals_completed c0 (campaign_leads s') = goals_completed c0 (campaign_leads s)).
Proof.
  intros Hri Hrun. cbv zeta.
  destruct (CampaignEndpointFacts.create_campaign_inv settings generate send_mail
              user payload s s' r Hrun)
    as (links & msgs & _ & Hid & _ & _ & Hcl & _ & _ & Hlinks & _).
  assert (Hmine : Forall (fun link => CampaignLead.campaign_id link
                                      = Campaign.id (campaign r)) links).
  { clear - Hlinks.
    induction Hlinks as [|lead link found links (msg & _ & Hl & _) _ IH];
      constructor; [|exact IH].
    destruct Hl as (_ & A & _). exact A. }
  rewrite Hcl.
  unfold total_leads, messages_sent, responses_received, goals_completed.
  rewrite (new_campaign_links s (campaign r) links Hri Hid Hmine).
  split.
  { clear - Hlinks. induction Hlinks; cbn [List.length]; congruence. }
  split.
  { clear - Hlinks.
    induction Hlinks as [|lead link found links (msg & Hgen & Hl & _) _ IH];
      [reflexivity|].
    destruct Hl as (_ & _ & _ & _ & Hbody).
    cbn [filter]. unfold has_message at 1. rewrite Hgen, Hbody.
    destruct (body msg) as [|ch t]; cbn [String.eqb negb is_empty List.length];
      rewrite IH; reflexivity. }
  split.
  { rewrite filter_none; [reflexivity|]. clear - Hlinks. intros link Hin.
    induction Hlinks as [|lead l found links (msg & _ & Hl & _) _ IH]; [destruct Hin|].
    destruct Hin as [<-|Hin]; [|exact (IH Hin)].
    destruct Hl as (_ & _ & -> & _). reflexivity. }
  split.
  { rewrite filter_none; [reflexivity|]. clear - Hlinks. intros link Hin.
    induction Hlinks as [|lead l found links (msg & _ & _ & Hg) _ IH]; [destruct Hin|].
    destruct Hin as [<-|Hin]; [|exact (IH Hin)].
    rewrite Hg. reflexivity. }
  split.
  { clear - Hlinks.
    induction Hlinks as [|lead l found links (msg & _ & Hl & _) _ IH]; constructor;
      [|exact IH].
    destruct Hl as (_ & _ & A & _). exact A. }
  intros c0 Hc0.
  rewrite (old_campaign_links s (campaign r) c0 links Hc0 Hid Hmine).
  repeat split.
Qed.

End Service.

Lemma dashboard_of_a_new_campaign_witness :
  exists s' r,
    create_campaign (settings_with_recipient "inbox@example.com") demo_generate
      demo_send_mail 7 demo_payload demo_state = (s', Ok r) /\
    total_leads (campaign r) (campaign_leads s') = 1%nat /\
    responses_received (campaign r) (campaign_leads s') = 0%nat.
Proof.
  destruct (create_campaign (settings_with_recipient "inbox@example.com") demo_generate
              demo_send_mail 7 demo_payload demo_state) as [s' [r|e]] eqn:E.
  - exists s', r. split; [reflexivity|].
    destruct (dashboard_of_a_new_campaign
                (settings_with_recipient "inbox@example.com") demo_generate
                demo_send_mail 7 demo_payload demo_state s' r)
      as (Ht & _ & Hr & _).
    + intros link [].
    + exact E.
    + split; [exact Ht | exact Hr].
  - vm_compute in E. discriminate E.
Defined.

End NewCampaignFacts.
